(** * Retrieval scoring and tabular aggregation blocks of merlin-models

    A shallow embedding of
    - [merlin/models/tf/blocks/retrieval/top_k.py]   (BruteForceTopK),
    - [merlin/models/tf/predictions/dot_product.py]  (DotProduct,
      ContrastiveDotProduct),
    - [merlin_models/tf/tabular/aggregation.py]      (the aggregation
      operators),
    together with the TensorFlow operations these call.

    Tensors are a shape plus the row-major list of their elements, as
    TensorFlow stores them.  Scores are elements of an abstract scalar
    type: the development never relies on a law of floating-point
    arithmetic that is not stated as a hypothesis of the theorem using it.
    Python exceptions are values of [exn]; a computation that may raise
    returns a [result]; a method that mutates its argument dictionary is a
    function from the dictionary to a result and the dictionary afterwards. *)

From Stdlib Require Import String Ascii.
From Stdlib Require Import List ZArith Lia Bool Arith PeanoNat.
From Stdlib Require Import Permutation Sorted OrderedTypeEx.
From Stdlib Require Floats.PrimFloat.
Import ListNotations.

Set Implicit Arguments.

(** ** Exceptions and results *)

Inductive exn : Type :=
| ValueError (msg : string)
| KeyError (key : string)
| IndexError
| AttributeError (attr : string)
| PyException (msg : string)
| InvalidArgumentError (op : string).

Inductive result (A : Type) : Type :=
| Ok (a : A)
| Raise (e : exn).

Arguments Ok {A} a.
Arguments Raise {A} e.

Definition bind {A B : Type} (r : result A) (k : A -> result B) : result B :=
  match r with
  | Ok a => k a
  | Raise e => Raise e
  end.

Declare Scope result_scope.
Delimit Scope result_scope with result.
Notation "x <- r ;; k" := (bind r (fun x => k))
  (at level 61, r at next level, right associativity) : result_scope.
Notation "' p <- r ;; k" := (bind r (fun p => k))
  (at level 61, p pattern, r at next level, right associativity) : result_scope.
Open Scope result_scope.

(** ** Tensors *)

Record tensor (A : Type) : Type := mkTensor {
  shape : list nat;
  flat : list A
}.

Definition numel (s : list nat) : nat := fold_right Nat.mul 1 s.

Definition rank {A} (t : tensor A) : nat := length (shape t).

(** A tensor is well formed when it holds as many elements as its shape says. *)
Definition wf {A} (t : tensor A) : Prop := length (flat t) = numel (shape t).

Definition shape_eqb (s1 s2 : list nat) : bool :=
  if list_eq_dec Nat.eq_dec s1 s2 then true else false.

Fixpoint zip_with {A B C} (f : A -> B -> C) (l1 : list A) (l2 : list B) : list C :=
  match l1, l2 with
  | a :: l1', b :: l2' => f a b :: zip_with f l1' l2'
  | _, _ => []
  end.

(** [chunks d n l]: the first [n] consecutive blocks of [d] elements of [l]. *)
Fixpoint chunks {A} (d n : nat) (l : list A) : list (list A) :=
  match n with
  | 0 => []
  | S n' => firstn d l :: chunks d n' (skipn d l)
  end.

(** The vectors along the last axis, in row-major order. *)
Definition rows {A} (t : tensor A) : list (list A) :=
  chunks (last (shape t) 1) (numel (removelast (shape t))) (flat t).

(** The tensor of shape [s ++ [d]] whose vectors along the last axis are [rs]. *)
Definition of_rows {A} (s : list nat) (d : nat) (rs : list (list A)) : tensor A :=
  mkTensor (s ++ [d]) (concat rs).

(** The slices along the first axis. *)
Definition slices {A} (t : tensor A) : list (list A) :=
  match shape t with
  | [] => []
  | n :: s => chunks (numel s) n (flat t)
  end.

Inductive dtype : Type := float32 | float16 | float64 | int32 | int64.

(** ** Scalars and the operations taken from outside the sources *)

(** The element type of score and feature tensors.  [rcast] is the value
    conversion of [tf.cast]; [MIN_FLOAT] is
    [merlin.models.utils.constants.MIN_FLOAT], whose definition is not
    among the sources. *)
Class Scalar (R : Type) : Type := {
  radd : R -> R -> R;
  rmul : R -> R -> R;
  rzero : R;
  rone : R;
  rleb : R -> R -> bool;
  rcast : dtype -> R -> R;
  MIN_FLOAT : R
}.

(** ** Python dictionaries

    Insertion-ordered association lists; [dict_set] and [dict_remove] keep
    the keys unique. *)

Definition dict (V : Type) : Type := list (string * V).

Fixpoint dict_get {V} (m : dict V) (k : string) : option V :=
  match m with
  | [] => None
  | (k', v) :: m' => if String.eqb k' k then Some v else dict_get m' k
  end.

Definition dict_has {V} (m : dict V) (k : string) : bool :=
  match dict_get m k with
  | Some _ => true
  | None => false
  end.

Definition dict_remove {V} (m : dict V) (k : string) : dict V :=
  filter (fun kv => negb (String.eqb (fst kv) k)) m.

Fixpoint dict_set {V} (m : dict V) (k : string) (v : V) : dict V :=
  match m with
  | [] => [(k, v)]
  | (k', v') :: m' =>
      if String.eqb k' k then (k, v) :: m' else (k', v') :: dict_set m' k v
  end.

Definition keys {V} (m : dict V) : list string := map fst m.
Definition values {V} (m : dict V) : list V := map snd m.

(** [m[k]] *)
Definition getitem {V} (m : dict V) (k : string) : result V :=
  match dict_get m k with
  | Some v => Ok v
  | None => Raise (KeyError k)
  end.

(** [sorted(m.keys())] followed by a lookup of each key: the items in
    lexicographic key order. *)
Fixpoint insert_by_key {V} (kv : string * V) (l : dict V) : dict V :=
  match l with
  | [] => [kv]
  | kv' :: l' =>
      if String.leb (fst kv) (fst kv') then kv :: l
      else kv' :: insert_by_key kv l'
  end.

Definition sorted_items {V} (m : dict V) : dict V :=
  fold_right insert_by_key [] m.

(** ** Computations that mutate a dictionary *)

Definition M (S A : Type) : Type := S -> result A * S.

Definition ret {S A} (a : A) : M S A := fun s => (Ok a, s).

Definition mbind {S A B} (c : M S A) (k : A -> M S B) : M S B :=
  fun s =>
    match c s with
    | (Ok a, s') => k a s'
    | (Raise e, s') => (Raise e, s')
    end.

Definition lift {S A} (r : result A) : M S A := fun s => (r, s).

Definition get_state {S} : M S S := fun s => (Ok s, s).

(** [inputs.pop(k)] *)
Definition pop {V} (k : string) : M (dict V) V :=
  fun m =>
    match dict_get m k with
    | Some v => (Ok v, dict_remove m k)
    | None => (Raise (KeyError k), m)
    end.

Declare Scope state_scope.
Delimit Scope state_scope with state.
Notation "x <~ c ;; k" := (mbind c (fun x => k))
  (at level 61, c at next level, right associativity) : state_scope.
Notation "c ;;; k" := (mbind c (fun _ => k))
  (at level 61, right associativity) : state_scope.

(** ** TensorFlow operations that do not depend on the element type *)

Definition tf_range (n : nat) : tensor Z :=
  mkTensor [n] (map Z.of_nat (seq 0 n)).

(** [bool(t)] on an eager tensor goes through its numpy array: an array of
    several elements has no truth value, an empty one is false. *)
Definition tensor_bool (t : tensor Z) : result bool :=
  match flat t with
  | [] => Ok false
  | [x] => Ok (negb (Z.eqb x 0))
  | _ :: _ :: _ =>
      Raise (ValueError "The truth value of an array with more than one element is ambiguous")
  end.

(** [tf.gather(params, indices)] along the first axis; an index out of
    range is an error. *)
Definition tf_gather {A} (params : tensor A) (indices : tensor nat) : result (tensor A) :=
  match shape params with
  | [] => Raise (InvalidArgumentError "GatherV2")
  | n :: s =>
      if forallb (fun i => i <? n) (flat indices)
      then Ok (mkTensor (shape indices ++ s)
                 (concat (map (fun i => nth i (slices params) []) (flat indices))))
      else Raise (InvalidArgumentError "GatherV2")
  end.

(** [tf.squeeze]: drops the axes of size one. *)
Definition tf_squeeze {A} (t : tensor A) : tensor A :=
  mkTensor (filter (fun n => negb (n =? 1)) (shape t)) (flat t).

(** Row-wise concatenation of several lists of rows, [n] rows each. *)
Definition row_concat {A} (n : nat) (rss : list (list (list A))) : list (list A) :=
  fold_right (zip_with (@app A)) (repeat [] n) rss.

Definition same_leading {A} (s : list nat) (t : tensor A) : bool :=
  match shape t with
  | [] => false
  | _ :: _ => shape_eqb (removelast (shape t)) s
  end.

(** [tf.concat(ts, axis=-1)] *)
Definition tf_concat_last {A} (ts : list (tensor A)) : result (tensor A) :=
  match ts with
  | [] => Raise (InvalidArgumentError "ConcatV2")
  | t :: _ =>
      let s := removelast (shape t) in
      if forallb (same_leading s) ts
      then Ok (of_rows s (list_sum (map (fun u => last (shape u) 0) ts))
                 (row_concat (numel s) (map rows ts)))
      else Raise (InvalidArgumentError "ConcatV2")
  end.

(** [tf.stack(ts, axis=0)]: the list converted to a tensor, its elements
    packed along a new first axis; the empty list is the empty vector. *)
Definition tf_stack0 {A} (ts : list (tensor A)) : result (tensor A) :=
  match ts with
  | [] => Ok (mkTensor [0] [])
  | t :: _ =>
      if forallb (fun u => shape_eqb (shape u) (shape t)) ts
      then Ok (mkTensor (length ts :: shape t) (concat (map (@flat A) ts)))
      else Raise (InvalidArgumentError "Pack")
  end.

(** A Python list of tensors passed where a tensor is expected: packed
    along a new first axis; the empty list is the empty vector. *)
Definition convert_to_tensor {A} (ts : list (tensor A)) : result (tensor A) :=
  match ts with
  | [] => Ok (mkTensor [0] [])
  | _ :: _ => tf_stack0 ts
  end.

(** ** Operations of TensorFlow and of this repository outside the sources

    [broadcast_multiply] and [broadcast_add] are [tf.multiply] and [+] on
    operands of different shapes; [matmul_other] is [tf.linalg.matmul] on
    operands that are not both matrices; [concat_other] and [stack_other]
    are [tf.concat] and [tf.stack] along another axis.  The remaining
    fields are code of the repository that is not among the sources:
    [TabularAggregation._expand_non_sequential_features] and
    [_check_concat_shapes] (base class of the aggregations),
    [ElementwiseSumItemMulti.get_item_ids_from_inputs], and the builtin
    [sum] over [Items], which goes through [Items.__add__]. *)
Class External (R I : Type) : Type := {
  broadcast_multiply : tensor R -> tensor R -> result (tensor R);
  broadcast_add : tensor R -> tensor R -> result (tensor R);
  matmul_other : tensor R -> tensor R -> result (tensor R);
  concat_other : Z -> list (tensor R) -> result (tensor R);
  stack_other : Z -> list (tensor R) -> result (tensor R);
  expand_non_sequential_features : M (dict (tensor R)) unit;
  check_concat_shapes : dict (tensor R) -> result unit;
  get_item_ids_from_inputs : dict (tensor R) -> result (tensor R);
  py_sum : list I -> result I
}.

(** [sampling.base.Items], as the sources use it: an id tensor and the
    embedding attached by [with_embedding] and read by [embedding()]. *)
Record Items (R : Type) : Type := mkItems {
  Items_id : tensor Z;
  Items_embedding : tensor R
}.

Section Operations.

Context {R : Type} `{Scalar R} `{External R (Items R)}.

(** *** Arithmetic on tensors *)

Definition sum_list (l : list R) : R := fold_left radd l rzero.

Definition dot (a b : list R) : R := sum_list (zip_with rmul a b).

Definition tf_cast (d : dtype) (t : tensor R) : tensor R :=
  mkTensor (shape t) (map (rcast d) (flat t)).

Definition tf_multiply (a b : tensor R) : result (tensor R) :=
  if shape_eqb (shape a) (shape b)
  then Ok (mkTensor (shape a) (zip_with rmul (flat a) (flat b)))
  else broadcast_multiply a b.

Definition tf_add (a b : tensor R) : result (tensor R) :=
  if shape_eqb (shape a) (shape b)
  then Ok (mkTensor (shape a) (zip_with radd (flat a) (flat b)))
  else broadcast_add a b.

(** [tf.reduce_sum(t, axis=-1, keepdims=True)] *)
Definition tf_reduce_sum_last_keepdims (t : tensor R) : result (tensor R) :=
  match shape t with
  | [] => Raise (InvalidArgumentError "Sum")
  | _ :: _ =>
      Ok (of_rows (removelast (shape t)) 1 (map (fun r => [sum_list r]) (rows t)))
  end.

(** [tf.reduce_sum(t, axis=0)] *)
Definition tf_reduce_sum_axis0 (t : tensor R) : result (tensor R) :=
  match shape t with
  | [] => Raise (InvalidArgumentError "Sum")
  | _ :: s =>
      Ok (mkTensor s (fold_left (zip_with radd) (slices t) (repeat rzero (numel s))))
  end.

(** [tf.matmul(a, b, transpose_b=True)] *)
Definition tf_matmul_transpose_b (a b : tensor R) : result (tensor R) :=
  match shape a, shape b with
  | [n; d], [m; d'] =>
      if d =? d'
      then Ok (of_rows [n] m (map (fun q => map (dot q) (rows b)) (rows a)))
      else Raise (InvalidArgumentError "MatMul")
  | _, _ => matmul_other a b
  end.

Definition tf_concat (axis : Z) (ts : list (tensor R)) : result (tensor R) :=
  match ts with
  | [] => Raise (InvalidArgumentError "ConcatV2")
  | t :: _ =>
      if (axis =? -1)%Z || (axis =? Z.of_nat (rank t) - 1)%Z
      then tf_concat_last ts
      else concat_other axis ts
  end.

Definition tf_stack (axis : Z) (ts : list (tensor R)) : result (tensor R) :=
  if (axis =? 0)%Z then tf_stack0 ts else stack_other axis ts.

Definition tf_ones (s : list nat) : tensor R := mkTensor s (repeat rone (numel s)).
Definition tf_zeros (s : list nat) : tensor R := mkTensor s (repeat rzero (numel s)).

(** [tf.shape(t)[i]] *)
Definition dim {A} (t : tensor A) (i : nat) : result nat :=
  match nth_error (shape t) i with
  | Some n => Ok n
  | None => Raise (InvalidArgumentError "StridedSlice")
  end.

(** *** [tf.math.top_k]

    The [k] largest entries of every vector along the last axis, largest
    first, with their positions; of two equal entries the one at the lower
    position comes first.  Fewer than [k] entries is an error. *)

Definition indexed (row : list R) : list (nat * R) :=
  combine (seq 0 (length row)) row.

Fixpoint insert_desc (x : nat * R) (l : list (nat * R)) : list (nat * R) :=
  match l with
  | [] => [x]
  | y :: l' => if rleb (snd y) (snd x) then x :: l else y :: insert_desc x l'
  end.

Definition sort_desc (l : list (nat * R)) : list (nat * R) :=
  fold_right insert_desc [] l.

Definition top_k_row (k : nat) (row : list R) : list (nat * R) :=
  firstn k (sort_desc (indexed row)).

Definition tf_top_k (t : tensor R) (k : nat) : result (tensor R * tensor nat) :=
  match shape t with
  | [] => Raise (InvalidArgumentError "TopKV2")
  | _ :: _ =>
      if k <=? last (shape t) 0
      then
        let s := removelast (shape t) in
        let top := map (top_k_row k) (rows t) in
        Ok (of_rows s k (map (map snd) top), of_rows s k (map (map fst) top))
      else Raise (InvalidArgumentError "TopKV2")
  end.

(** ** [top_k.py]: BruteForceTopK *)

(** The attributes of a [BruteForceTopK] object.  [_identifiers] does not
    exist before [load_index] has run.  [k] is a natural number: TensorFlow
    rejects a negative [k]. *)
Record BruteForceTopK : Type := mkBruteForceTopK {
  _k : nat;
  _candidates : option (tensor R);
  _identifiers : option (tensor Z)
}.

Definition BruteForceTopK_init (k : option nat) : BruteForceTopK :=
  {| _k := match k with Some k => k | None => 20 end;
     _candidates := None;
     _identifiers := None |}.

(** [not candidates_ids] *)
Definition not_candidates_ids (candidates_ids : option (tensor Z)) : result bool :=
  match candidates_ids with
  | None => Ok true
  | Some t => b <- tensor_bool t ;; Ok (negb b)
  end.

Definition load_index (candidates_embeddings : tensor R)
    (candidates_ids : option (tensor Z)) : M BruteForceTopK unit :=
  fun self =>
    if negb (rank candidates_embeddings =? 2)
    then (Raise (ValueError "The candidates embeddings tensor must be 2D"), self)
    else
      match not_candidates_ids candidates_ids with
      | Raise e => (Raise e, self)
      | Ok missing =>
          let candidates_ids :=
            match candidates_ids with
            | Some t => if missing then tf_range (hd 0 (shape candidates_embeddings)) else t
            | None => tf_range (hd 0 (shape candidates_embeddings))
            end in
          (Ok tt,
           {| _k := _k self;
              _candidates := Some candidates_embeddings;
              _identifiers := Some candidates_ids |})
      end.

Definition _compute_score (queries candidates : tensor R) : result (tensor R) :=
  tf_matmul_transpose_b queries candidates.

Definition BruteForceTopK_call (self : BruteForceTopK) (inputs : tensor R)
    (k : option nat) : result (tensor R * tensor Z) :=
  let k := match k with Some k => k | None => _k self end in
  match _candidates self with
  | None => Raise (ValueError "load_index should be called before")
  | Some candidates =>
      scores <- _compute_score inputs candidates ;;
      ' (top_scores, top_indices) <- tf_top_k scores k ;;
      identifiers <- match _identifiers self with
                     | Some i => Ok i
                     | None => Raise (AttributeError "_identifiers")
                     end ;;
      top_indices <- tf_gather identifiers top_indices ;;
      Ok (top_scores, top_indices)
  end.

(** ** [dot_product.py]: DotProduct and ContrastiveDotProduct *)

(** A [TabularData] dictionary of this module holds embeddings and integer
    id columns; the two kinds of entries are kept apart by their type. *)
Record TabularData : Type := mkTabularData {
  embeddings : dict (tensor R);
  id_columns : dict (tensor Z)
}.

Record DotProduct : Type := mkDotProduct {
  query_name : string;
  item_name : string
}.

Definition DotProduct_call (self : DotProduct) (inputs : TabularData) : result (tensor R) :=
  q <- getitem (embeddings inputs) (query_name self) ;;
  i <- getitem (embeddings inputs) (item_name self) ;;
  p <- tf_multiply q i ;;
  tf_reduce_sum_last_keepdims p.

(** An item sampler, called through [call_layer] with the positive items
    and the keyword arguments [training], [testing] and [features]. *)
Record ItemSampler : Type := mkItemSampler {
  sampler_name : string;
  sample : Items R -> TabularData -> bool -> bool -> Items R
}.

Record ContrastiveDotProduct : Type := mkContrastiveDotProduct {
  dot_product : DotProduct;
  negative_samplers : list ItemSampler;
  downscore_false_negatives : bool;
  false_negative_score : R;
  item_id_name : string;
  query_id_name : string
}.

(** [__init__] followed by [build]: the keyword arguments left out take
    their defaults; the id column names are those the schema gives. *)
Definition ContrastiveDotProduct_init (negative_samplers : list ItemSampler)
    (downscore_false_negatives : option bool) (false_negative_score : option R)
    (query_name item_name : option string) (item_id_name query_id_name : string)
  : ContrastiveDotProduct :=
  {| dot_product :=
       {| query_name := match query_name with Some n => n | None => "query"%string end;
          item_name := match item_name with Some n => n | None => "item"%string end |};
     negative_samplers := negative_samplers;
     downscore_false_negatives :=
       match downscore_false_negatives with Some b => b | None => true end;
     false_negative_score :=
       match false_negative_score with Some x => x | None => MIN_FLOAT end;
     item_id_name := item_id_name;
     query_id_name := query_id_name |}.

Definition get_id_and_embedding (key feature_name : string)
    (inputs features : TabularData) : result (tensor Z * tensor R) :=
  embedding <- getitem (embeddings inputs) key ;;
  ids <- (if dict_has (id_columns inputs) (key ++ "_id")%string
          then getitem (id_columns inputs) (key ++ "_id")%string
          else getitem (id_columns features) feature_name) ;;
  Ok (ids, embedding).

(** The loop of [sample_negatives]: the non-empty results in sampler order,
    and the warnings logged for the empty ones. *)
Fixpoint sample_loop (samplers : list ItemSampler) (positive_items : Items R)
    (features : TabularData) (training testing : bool)
  : list string * result (list (Items R)) :=
  match samplers with
  | [] => ([], Ok [])
  | sampler :: rest =>
      let sampler_items := sample sampler positive_items features training testing in
      match dim (Items_id sampler_items) 0 with
      | Raise e => ([], Raise e)
      | Ok n =>
          let (log, r) := sample_loop rest positive_items features training testing in
          if 0 <? n
          then (log, negative_items <- r ;; Ok (sampler_items :: negative_items))
          else (("The sampler " ++ sampler_name sampler
                 ++ " returned no samples for this batch.")%string :: log, r)
      end
  end.

(** [self.samplers]: the class stores its samplers in [negative_samplers];
    neither it nor its base classes define an attribute [samplers]. *)
Definition samplers (self : ContrastiveDotProduct) : result (list ItemSampler) :=
  Raise (AttributeError "samplers").

Definition sample_negatives (self : ContrastiveDotProduct) (positive_items : Items R)
    (features : TabularData) (training testing : bool)
  : list string * result (Items R) :=
  let (log, r) :=
    sample_loop (negative_samplers self) positive_items features training testing in
  (log,
   negative_items <- r ;;
   if length negative_items =? 0
   then
     named <- samplers self ;;
     Raise (PyException
              ("No negative items where sampled from samplers "
               ++ String.concat ", " (map sampler_name named))%string)
   else if 1 <? length negative_items
   then py_sum negative_items
   else match negative_items with
        | negatives :: _ => Ok negatives
        | [] => Raise IndexError
        end).

(** Modelled from the spec: [tf_utils.rescore_false_negatives] is not among
    the sources.  Every sampled negative whose item id equals the positive
    item id of the row has its score replaced by the false-negative score;
    the other scores are unchanged.  Only the rescored matrix, the first
    component of the pair the caller unpacks, is modelled. *)
Definition rescore_false_negatives (positive_item_ids neg_samples_item_ids : tensor Z)
    (negative_scores : tensor R) (false_negatives_score : R) : result (tensor R) :=
  match shape negative_scores with
  | [b; n] =>
      if (length (flat positive_item_ids) =? b) && (length (flat neg_samples_item_ids) =? n)
      then
        Ok (of_rows [b] n
              (zip_with
                 (fun pos row =>
                    zip_with (fun neg s => if Z.eqb neg pos then false_negatives_score else s)
                      (flat neg_samples_item_ids) row)
                 (flat positive_item_ids) (rows negative_scores)))
      else Raise (InvalidArgumentError "SelectV2")
  | _ => Raise (InvalidArgumentError "SelectV2")
  end.

(** Lines 183-186 of [ContrastiveDotProduct.call]. *)
Definition downscore (self : ContrastiveDotProduct) (pos_item_id : tensor Z)
    (neg_items : Items R) (negative_scores : tensor R) : result (tensor R) :=
  if downscore_false_negatives self
  then rescore_false_negatives pos_item_id (Items_id neg_items) negative_scores
         (false_negative_score self)
  else Ok negative_scores.

Record Prediction : Type := mkPrediction {
  outputs : tensor R;
  targets : tensor R
}.

Definition ContrastiveDotProduct_call (self : ContrastiveDotProduct)
    (inputs features : TabularData) (training testing : bool) : result Prediction :=
  ' (query_id, query_emb) <-
      get_id_and_embedding (query_name (dot_product self)) (query_id_name self)
        inputs features ;;
  ' (pos_item_id, pos_item_emb) <-
      get_id_and_embedding (item_name (dot_product self)) (item_id_name self)
        inputs features ;;
  neg_items <-
    snd (sample_negatives self (mkItems pos_item_id pos_item_emb) features training testing) ;;
  positive_scores <- DotProduct_call (dot_product self) inputs ;;
  negative_scores <- tf_matmul_transpose_b query_emb (Items_embedding neg_items) ;;
  negative_scores <- downscore self pos_item_id neg_items negative_scores ;;
  outputs <- tf_concat (-1) [positive_scores; negative_scores] ;;
  let outputs := tf_cast float32 outputs in
  rows_ <- dim outputs 0 ;;
  cols <- dim outputs 1 ;;
  targets <- (if cols =? 0 then Raise (InvalidArgumentError "Fill")
              else tf_concat 1 [tf_ones [rows_; 1]; tf_zeros [rows_; cols - 1]]) ;;
  let outputs :=
    if rank targets =? rank outputs - 1 then tf_squeeze outputs else outputs in
  Ok (mkPrediction outputs targets).

(** ** [aggregation.py]: the tabular aggregation operators

    Every [call] receives the caller's dictionary itself and is a
    computation over it.  A layer called on a dictionary ([self.concat(inputs)],
    [self.stack(inputs)]) passes the same object on to its [call]. *)

Local Open Scope state_scope.

Record ConcatFeatures : Type := mkConcatFeatures {
  concat_axis : Z;
  concat_output_dtype : dtype
}.

Definition ConcatFeatures_init : ConcatFeatures :=
  {| concat_axis := (-1)%Z; concat_output_dtype := float32 |}.

Definition ConcatFeatures_call (self : ConcatFeatures) : M (dict (tensor R)) (tensor R) :=
  expand_non_sequential_features ;;;
  inputs <~ get_state ;;
  lift (check_concat_shapes inputs) ;;;
  lift (tf_concat (-1)
          (map (fun kv => tf_cast (concat_output_dtype self) (snd kv)) (sorted_items inputs))).

Record StackFeatures : Type := mkStackFeatures {
  stack_axis : Z;
  stack_output_dtype : dtype
}.

Definition StackFeatures_init (axis : option Z) : StackFeatures :=
  {| stack_axis := match axis with Some a => a | None => (-1)%Z end;
     stack_output_dtype := float32 |}.

Definition StackFeatures_call (self : StackFeatures) : M (dict (tensor R)) (tensor R) :=
  expand_non_sequential_features ;;;
  inputs <~ get_state ;;
  lift (check_concat_shapes inputs) ;;;
  lift (tf_stack (stack_axis self)
          (map (fun kv => tf_cast (stack_output_dtype self) (snd kv)) (sorted_items inputs))).

(** [len(set([tuple(x.shape) for x in inputs.values()])) == 1] *)
Definition all_input_shapes_equal (inputs : dict (tensor R)) : bool :=
  length (nodup (list_eq_dec Nat.eq_dec) (map (@shape R) (values inputs))) =? 1.

Definition _check_input_shapes_equal (inputs : dict (tensor R)) : result unit :=
  if all_input_shapes_equal inputs then Ok tt
  else Raise (ValueError
    "The shapes of all input features are not equal, which is required for element-wise aggregation").

Definition Sum_call : M (dict (tensor R)) (tensor R) :=
  inputs <~ get_state ;;
  lift (stacked <- convert_to_tensor (values inputs) ;; tf_reduce_sum_axis0 stacked)%result.

Record SumResidual : Type := mkSumResidual {
  activation : option (tensor R -> tensor R);
  shortcut_name : string
}.

(** What a [call] returns when it may return a tensor or a dictionary. *)
Inductive aggregated : Type :=
| AsTensor (t : tensor R)
| AsDict (d : dict (tensor R)).

Fixpoint residual_loop (self : SumResidual) (shortcut : tensor R)
    (items outputs : dict (tensor R)) : result (dict (tensor R)) :=
  match items with
  | [] => Ok outputs
  | (key, val) :: rest =>
      (pair <- convert_to_tensor [val; shortcut] ;;
       summed <- tf_reduce_sum_axis0 pair ;;
       let out := match activation self with
                  | Some act => act summed
                  | None => summed
                  end in
       residual_loop self shortcut rest (dict_set outputs key out))%result
  end.

Definition SumResidual_call (self : SumResidual) : M (dict (tensor R)) aggregated :=
  shortcut <~ pop (shortcut_name self) ;;
  inputs <~ get_state ;;
  outputs <~ lift (residual_loop self shortcut inputs []) ;;
  ret (match outputs with
       | [(_, v)] => AsTensor v
       | _ => AsDict outputs
       end).

Record AddLeft : Type := mkAddLeft {
  left_name : string;
  concat_ : ConcatFeatures;
  wide_logit : tensor R -> tensor R
}.

Definition AddLeft_call (self : AddLeft) : M (dict (tensor R)) (tensor R) :=
  left <~ pop (left_name self) ;;
  left <~ lift (match shape left with
                | [] => Raise IndexError
                | _ :: _ => Ok (if last (shape left) 0 =? 1 then left else wide_logit self left)
                end) ;;
  wide <~ ConcatFeatures_call (concat_ self) ;;
  lift (tf_add left wide).

Record ElementwiseSum : Type := mkElementwiseSum {
  stack : StackFeatures
}.

Definition ElementwiseSum_init : ElementwiseSum :=
  {| stack := StackFeatures_init (Some 0%Z) |}.

Definition ElementwiseSum_call (self : ElementwiseSum) : M (dict (tensor R)) (tensor R) :=
  expand_non_sequential_features ;;;
  inputs <~ get_state ;;
  lift (_check_input_shapes_equal inputs) ;;;
  stacked <~ StackFeatures_call (stack self) ;;
  lift (tf_reduce_sum_axis0 stacked).

Record ElementwiseSumItemMulti : Type := mkElementwiseSumItemMulti {
  multi_stack : StackFeatures;
  item_id_column_name : string
}.

Definition ElementwiseSumItemMulti_call (self : ElementwiseSumItemMulti)
  : M (dict (tensor R)) (tensor R) :=
  inputs <~ get_state ;;
  item_id_inputs <~ lift (get_item_ids_from_inputs inputs) ;;
  expand_non_sequential_features ;;;
  inputs <~ get_state ;;
  lift (_check_input_shapes_equal inputs) ;;;
  let other_inputs :=
    filter (fun kv => negb (String.eqb (fst kv) (item_id_column_name self))) inputs in
  other <~ lift (if 1 <? length other_inputs
                 then (stacked <- fst (StackFeatures_call (multi_stack self) other_inputs) ;;
                       tf_reduce_sum_axis0 stacked)%result
                 else match values other_inputs with
                      | v :: _ => Ok v
                      | [] => Raise IndexError
                      end) ;;
  lift (tf_multiply item_id_inputs other).

End Operations.

(** ** The remaining methods of [top_k.py] and [dot_product.py] *)

Section MoreOperations.

Context {R : Type} `{Scalar R} `{External R (Items R)}.

(** [tf.expand_dims(t, -1)] *)
Definition tf_expand_dims_last {A} (t : tensor A) : tensor A :=
  mkTensor (shape t ++ [1]) (flat t).

(** [t[:, 0]]: along the second axis, the entry at index 0. *)
Definition take_column0 {A} (t : tensor A) : result (tensor A) :=
  match shape t with
  | b :: c :: rest =>
      if c =? 0 then Raise (InvalidArgumentError "StridedSlice")
      else Ok (mkTensor (b :: rest)
                 (concat (map (firstn (numel rest)) (chunks (c * numel rest) b (flat t)))))
  | _ => Raise (InvalidArgumentError "StridedSlice")
  end.

(** [core.PredictionOutput], as the sources use it: a pair of predictions
    and targets, built positionally in that order. *)
Record PredictionOutput : Type := mkPredictionOutput {
  output_predictions : tensor R;
  output_targets : tensor R
}.

(** [BruteForceTopK.load_from_dataset]: [raise NotImplementedError()]. *)
Definition load_from_dataset {D} (candidates : D) : M (BruteForceTopK (R := R)) unit :=
  fun self => (Raise (PyException "NotImplementedError"), self).

(** [BruteForceTopK.call_targets].  [context] is the block context, read
    by key; [self(queries)] runs [call] with the default [k]. *)
Definition BruteForceTopK_call_targets (self : BruteForceTopK)
    (context : dict (tensor R)) (outputs : PredictionOutput) : result PredictionOutput :=
  let predictions := output_predictions outputs in
  queries <- getitem context "query" ;;
  ' (top_scores, _) <- BruteForceTopK_call self queries None ;;
  column <- take_column0 predictions ;;
  let predictions := tf_expand_dims_last column in
  predictions <- tf_concat (-1) [predictions; top_scores] ;;
  rows_ <- dim predictions 0 ;;
  targets <- tf_concat 1 [tf_ones [rows_; 1]; tf_zeros [rows_; _k self]] ;;
  Ok (mkPredictionOutput predictions targets).

(** [TopKRecommender.__init__], up to the call of the base constructor.
    [item_embeddings] and [query_block] are the outcomes of
    [retrieval_model.item_embeddings(...)] and
    [retrieval_model.retrieval_block.query_block()]. *)
Record TopKRecommender (Q : Type) : Type := mkTopKRecommender {
  recommender_query_block : Q;
  recommender_top_k : BruteForceTopK (R := R);
  recommender_k : nat
}.

Definition TopKRecommender_init {D Q} (item_embeddings : result D)
    (query_block : result Q) (k : option nat) : result (TopKRecommender Q) :=
  let k := match k with Some k => k | None => 10 end in
  item_embeddings <- item_embeddings ;;
  query_block <- query_block ;;
  let top_k := BruteForceTopK_init (Some k) in
  match load_from_dataset item_embeddings top_k with
  | (Raise e, _) => Raise e
  | (Ok _, top_k) => Ok (mkTopKRecommender query_block top_k k)
  end.

(** [ContrastiveDotProduct.has_negative_samplers] *)
Definition has_negative_samplers (self : ContrastiveDotProduct (R := R)) : bool :=
  0 <? length (negative_samplers self).

(** [DotProductCategoricalPrediction]: the two prediction layers it holds,
    and the attribute [negative_sampling] that [compile] sets on
    [prediction_with_negatives]. *)
Record DotProductCategoricalPrediction (V : Type) : Type :=
  mkDotProductCategoricalPrediction {
    prediction : DotProduct;
    prediction_with_negatives : ContrastiveDotProduct (R := R);
    negative_sampling : option V
  }.

(** [__init__]: [negative_samplers] is the list of parsed samplers;
    [prediction] and [prediction_with_negatives] may be passed as keyword
    arguments. *)
Definition DotProductCategoricalPrediction_init {V}
    (negative_samplers : list ItemSampler) (downscore_false_negatives : option bool)
    (query_name item_name : option string) (item_id_name query_id_name : string)
    (prediction : option DotProduct)
    (prediction_with_negatives : option ContrastiveDotProduct)
  : DotProductCategoricalPrediction V :=
  let downscore := match downscore_false_negatives with Some b => b | None => false end in
  let default_with_negatives :=
    ContrastiveDotProduct_init negative_samplers (Some downscore) None
      query_name item_name item_id_name query_id_name in
  {| prediction :=
       match prediction with
       | Some p => p
       | None => dot_product default_with_negatives
       end;
     prediction_with_negatives :=
       match prediction_with_negatives with
       | Some p => p
       | None => default_with_negatives
       end;
     negative_sampling := None |}.

Definition set_downscore_false_negatives (value : bool)
    (self : ContrastiveDotProduct (R := R)) : ContrastiveDotProduct (R := R) :=
  {| dot_product := dot_product self;
     negative_samplers := negative_samplers self;
     downscore_false_negatives := value;
     false_negative_score := false_negative_score self;
     item_id_name := item_id_name self;
     query_id_name := query_id_name self |}.

Definition set_negative_samplers (value : list ItemSampler)
    (self : ContrastiveDotProduct (R := R)) : ContrastiveDotProduct (R := R) :=
  {| dot_product := dot_product self;
     negative_samplers := value;
     downscore_false_negatives := downscore_false_negatives self;
     false_negative_score := false_negative_score self;
     item_id_name := item_id_name self;
     query_id_name := query_id_name self |}.

(** [compile(negative_sampling=None, downscore_false_negatives=False)] *)
Definition DotProductCategoricalPrediction_compile {V}
    (negative_sampling : option V) (downscore_false_negatives : option bool)
    (self : DotProductCategoricalPrediction V) : DotProductCategoricalPrediction V :=
  {| prediction := prediction self;
     prediction_with_negatives :=
       set_downscore_false_negatives
         (match downscore_false_negatives with Some b => b | None => false end)
         (prediction_with_negatives self);
     negative_sampling := negative_sampling |}.

Definition add_sampler {V} (sampler : ItemSampler)
    (self : DotProductCategoricalPrediction V) : DotProductCategoricalPrediction V :=
  {| prediction := prediction self;
     prediction_with_negatives :=
       set_negative_samplers
         (negative_samplers (prediction_with_negatives self) ++ [sampler])
         (prediction_with_negatives self);
     negative_sampling := negative_sampling self |}.

End MoreOperations.

(** ** Predicates used to state the properties *)

Section Statements.

Context {R : Type} `{Scalar R}.

(** [top_scores] and [top_ids] are a top-[k] selection from [scores]: they
    are the scores and the identifiers found at [k] distinct positions, the
    scores are in non-increasing order, and no position left out has a
    score above a selected one. *)
Definition is_top_k (k : nat) (scores : list R) (ids : list Z)
    (top_scores : list R) (top_ids : list Z) : Prop :=
  exists ps : list nat,
    length ps = k /\
    NoDup ps /\
    Forall2 (fun p s => nth_error scores p = Some s) ps top_scores /\
    Forall2 (fun p i => nth_error ids p = Some i) ps top_ids /\
    StronglySorted (fun x y => rleb y x = true) top_scores /\
    (forall p s, nth_error scores p = Some s -> ~ In p ps ->
                 Forall (fun t => rleb s t = true) top_scores).

(** [x] is listed before [y] by decreasing score. *)
Definition above (x y : nat * R) : Prop := rleb (snd y) (snd x) = true.


(** A sampler result holds at least one item. *)
Definition returns_items (items : Items R) : bool :=
  match shape (Items_id items) with
  | n :: _ => 0 <? n
  | [] => false
  end.

(** All the feature tensors of a mapping have one shape. *)
Definition shapes_all_equal (inputs : dict (tensor R)) : Prop :=
  forall t1 t2, In t1 (values inputs) -> In t2 (values inputs) -> shape t1 = shape t2.

(** The elementwise sum of tensors of shape [s], added up from zero in
    list order. *)
Definition elementwise_sum (s : list nat) (ts : list (tensor R)) : tensor R :=
  mkTensor s (fold_left (zip_with radd) (map (@flat R) ts) (repeat rzero (numel s))).

(** Items compared by their keys. *)
Definition key_le {V} (a b : string * V) : Prop := String.leb (fst a) (fst b) = true.

(** A computation over a dictionary that leaves its set of keys, and
    their order, as it found them. *)
Definition keeps_keys {V A} (c : M (dict V) A) : Prop :=
  forall m, keys (snd (c m)) = keys m.

End Statements.

(** ** A concrete instance

    Integer scores with exact arithmetic, and the simplest behaviour for
    what lies outside the sources: no broadcasting, helpers that leave the
    dictionary alone, [sum] of items as concatenation along the first axis. *)
Module ZModel.

Definition Items_add (a b : Items Z) : Items Z :=
  {| Items_id :=
       mkTensor (length (flat (Items_id a)) + length (flat (Items_id b))
                 :: tl (shape (Items_id a)))
         (flat (Items_id a) ++ flat (Items_id b));
     Items_embedding :=
       mkTensor (length (slices (Items_embedding a)) + length (slices (Items_embedding b))
                 :: tl (shape (Items_embedding a)))
         (flat (Items_embedding a) ++ flat (Items_embedding b)) |}.

#[export] Instance Z_Scalar : Scalar Z := {
  radd := Z.add;
  rmul := Z.mul;
  rzero := 0%Z;
  rone := 1%Z;
  rleb := Z.leb;
  rcast := fun _ x => x;
  MIN_FLOAT := (- 34 * 10 ^ 35)%Z
}.

#[export] Instance Z_External : External Z (Items Z) := {
  broadcast_multiply := fun _ _ => Raise (InvalidArgumentError "Mul");
  broadcast_add := fun _ _ => Raise (InvalidArgumentError "AddV2");
  matmul_other := fun _ _ => Raise (InvalidArgumentError "MatMul");
  concat_other := fun _ _ => Raise (InvalidArgumentError "ConcatV2");
  stack_other := fun _ _ => Raise (InvalidArgumentError "Pack");
  expand_non_sequential_features := ret tt;
  check_concat_shapes := fun _ => Ok tt;
  get_item_ids_from_inputs := fun inputs => getitem inputs "item_id";
  py_sum := fun l => match l with
                     | [] => Raise (PyException "unsupported operand")
                     | x :: xs => Ok (fold_left Items_add xs x)
                     end
}.

(** A small index: three candidates in the plane, with identifiers that
    differ from their positions, and one query. *)
Definition example_candidates : tensor Z := mkTensor [3; 2] [1; 0; 0; 1; 1; 1]%Z.
Definition example_identifiers : tensor Z := mkTensor [3] [10; 20; 30]%Z.
Definition example_queries : tensor Z := mkTensor [1; 2] [2; 3]%Z.
Definition example_index : BruteForceTopK (R := Z) :=
  {| _k := 2;
     _candidates := Some example_candidates;
     _identifiers := Some example_identifiers |}.

(** An index of a single candidate, loaded without ids. *)
Definition single_candidate : tensor Z := mkTensor [1; 1] [3]%Z.
Definition single_index : BruteForceTopK (R := Z) :=
  {| _k := 20;
     _candidates := Some single_candidate;
     _identifiers := Some (mkTensor [1] [0%Z]) |}.

(** A batch of two query-item pairs, scored against the items of the
    batch itself, and a sampler that finds nothing. *)
Definition in_batch_sampler : ItemSampler (R := Z) :=
  {| sampler_name := "InBatchSampler";
     sample := fun positive_items _ _ _ => positive_items |}.

Definition empty_sampler : ItemSampler (R := Z) :=
  {| sampler_name := "CachedCrossBatchSampler";
     sample := fun _ _ _ _ => mkItems (mkTensor [0] []) (mkTensor [0; 2] []) |}.

Definition example_head (samplers : list ItemSampler) (downscore : option bool)
  : ContrastiveDotProduct (R := Z) :=
  ContrastiveDotProduct_init samplers downscore None None None "item_id" "user_id".

Definition example_query_emb : tensor Z := mkTensor [2; 2] [1; 2; 3; 4]%Z.
Definition example_item_emb : tensor Z := mkTensor [2; 2] [5; 6; 7; 8]%Z.
Definition example_item_ids : tensor Z := mkTensor [2] [7; 9]%Z.
Definition example_user_ids : tensor Z := mkTensor [2] [1; 2]%Z.

Definition example_batch : TabularData (R := Z) :=
  {| embeddings := [("query"%string, example_query_emb); ("item"%string, example_item_emb)];
     id_columns := [] |}.

Definition example_features : TabularData (R := Z) :=
  {| embeddings := [];
     id_columns := [("item_id"%string, example_item_ids);
                    ("user_id"%string, example_user_ids)] |}.

End ZModel.

Import ZModel.

(** Further examples on the same instance. *)
Module ZExtra.

Definition example_context : dict (tensor Z) := [("query"%string, example_queries)].

Definition example_outputs : PredictionOutput (R := Z) :=
  {| output_predictions := mkTensor [1; 3] [9; 8; 7]%Z;
     output_targets := mkTensor [1; 3] [1; 0; 0]%Z |}.

Definition default_index : BruteForceTopK (R := Z) :=
  {| _k := 2;
     _candidates := Some example_candidates;
     _identifiers := Some (tf_range 3) |}.

Definition batch_with_ids : TabularData (R := Z) :=
  {| embeddings := embeddings example_batch;
     id_columns := [("item_id"%string, mkTensor [2] [70; 90]%Z)] |}.

Definition example_mapping : dict (tensor Z) :=
  [("b"%string, mkTensor [2; 1] [1; 2]%Z); ("a"%string, mkTensor [2; 2] [10; 20; 30; 40]%Z)].

Definition residual_mapping : dict (tensor Z) :=
  [("shortcut"%string, mkTensor [2] [1; 2]%Z);
   ("a"%string, mkTensor [2] [10; 20]%Z);
   ("b"%string, mkTensor [2] [100; 200]%Z)].

Definition residual : SumResidual (R := Z) :=
  {| activation := None; shortcut_name := "shortcut" |}.

Definition item_multi : ElementwiseSumItemMulti :=
  {| multi_stack := StackFeatures_init (Some 0%Z); item_id_column_name := "item_id" |}.

Definition cold_head : DotProductCategoricalPrediction (R := Z) unit :=
  DotProductCategoricalPrediction_init [empty_sampler] None None None
    "item_id" "user_id" None None.

End ZExtra.

Import ZExtra.

(** Tensors of dtype float64: the elements are binary64 numbers with the
    arithmetic of the machine.  The conversions between dtypes are left
    out (no sum below casts). *)
Module FloatModel.

Import PrimFloat.

Definition float64_Scalar : Scalar PrimFloat.float := {|
  radd := PrimFloat.add;
  rmul := PrimFloat.mul;
  rzero := 0%float;
  rone := 1%float;
  rleb := PrimFloat.leb;
  rcast := fun _ x => x;
  MIN_FLOAT := (-0x1.47ae133333333p+121)%float
|}.

(** Three features holding 1e16, -1e16 and 1, and the same three tensors
    under other keys, in another order. *)
Definition large_first : dict (tensor PrimFloat.float) :=
  [("a"%string, mkTensor [1] [1e16%float]);
   ("b"%string, mkTensor [1] [(-1e16)%float]);
   ("c"%string, mkTensor [1] [1%float])].

Definition small_first : dict (tensor PrimFloat.float) :=
  [("x"%string, mkTensor [1] [1%float]);
   ("y"%string, mkTensor [1] [1e16%float]);
   ("z"%string, mkTensor [1] [(-1e16)%float])].

End FloatModel.

(** * Properties *)

Unset Implicit Arguments.

(** ** Lists, blocks and rows *)

Lemma zip_with_length {A B C} (f : A -> B -> C) (l1 : list A) (l2 : list B) :
  length (zip_with f l1 l2) = Nat.min (length l1) (length l2).
Proof.
  revert l2; induction l1 as [|a l1 IH]; intros [|b l2]; simpl; auto.
Qed.

Lemma zip_with_firstn {A B C} (f : A -> B -> C) n (l1 : list A) (l2 : list B) :
  firstn n (zip_with f l1 l2) = zip_with f (firstn n l1) (firstn n l2).
Proof.
  revert l1 l2; induction n as [|n IH]; intros [|a l1] [|b l2]; simpl; auto.
  now rewrite IH.
Qed.

Lemma zip_with_skipn {A B C} (f : A -> B -> C) n (l1 : list A) (l2 : list B) :
  skipn n (zip_with f l1 l2) = zip_with f (skipn n l1) (skipn n l2).
Proof.
  revert l1 l2; induction n as [|n IH]; intros [|a l1] [|b l2]; simpl; auto.
  now destruct (skipn n l1).
Qed.

Lemma chunks_length {A} d n (l : list A) : length (chunks d n l) = n.
Proof.
  revert l; induction n as [|n IH]; intros l; simpl; auto.
Qed.

Lemma chunks_zip_with {A B C} (f : A -> B -> C) d n (l1 : list A) (l2 : list B) :
  chunks d n (zip_with f l1 l2) =
  zip_with (zip_with f) (chunks d n l1) (chunks d n l2).
Proof.
  revert l1 l2; induction n as [|n IH]; intros l1 l2; simpl; auto.
  now rewrite zip_with_firstn, zip_with_skipn, IH.
Qed.

Lemma chunks_concat {A} d (rs : list (list A)) :
  Forall (fun r => length r = d) rs ->
  chunks d (length rs) (concat rs) = rs.
Proof.
  induction 1 as [|r rs Hr _ IH]; simpl; auto.
  rewrite firstn_app, skipn_app, Hr, Nat.sub_diag, firstn_all2, skipn_all2 by lia.
  simpl. now rewrite app_nil_r, IH.
Qed.

Lemma chunks_map {A B} (f : A -> B) d n (l : list A) :
  chunks d n (map f l) = map (map f) (chunks d n l).
Proof.
  revert l; induction n as [|n IH]; intros l; simpl; auto.
  now rewrite firstn_map, skipn_map, IH.
Qed.

Lemma rows_of_rows {A} (s : list nat) d (rs : list (list A)) :
  length rs = numel s ->
  Forall (fun r => length r = d) rs ->
  rows (of_rows s d rs) = rs.
Proof.
  intros Hn Hd. unfold rows, of_rows; simpl.
  rewrite removelast_last, last_last, <- Hn.
  now apply chunks_concat.
Qed.

Lemma rows_length {A} (t : tensor A) :
  length (rows t) = numel (removelast (shape t)).
Proof. apply chunks_length. Qed.

Lemma shape_eqb_refl s : shape_eqb s s = true.
Proof. unfold shape_eqb. now destruct (list_eq_dec Nat.eq_dec s s). Qed.

Lemma shape_eqb_eq s1 s2 : shape_eqb s1 s2 = true <-> s1 = s2.
Proof.
  unfold shape_eqb. destruct (list_eq_dec Nat.eq_dec s1 s2); split; congruence.
Qed.

Lemma app_singleton_not_nil {A} (s : list A) d : s ++ [d] <> [].
Proof. now destruct s. Qed.

(** ** DotProduct *)

Section DotProductProperties.

Context {R : Type} `{Scalar R} `{External R (Items R)}.

Lemma reduce_sum_last_rows (t : tensor R) s d :
  shape t = s ++ [d] ->
  tf_reduce_sum_last_keepdims t =
  Ok (of_rows s 1 (map (fun r => [sum_list r]) (rows t))).
Proof.
  intros Hs. unfold tf_reduce_sum_last_keepdims. rewrite Hs.
  rewrite removelast_last. now destruct s.
Qed.

Lemma DotProduct_call_unfold (self : DotProduct) (inputs : TabularData (R := R)) q it :
  getitem (embeddings inputs) (query_name self) = Ok q ->
  getitem (embeddings inputs) (item_name self) = Ok it ->
  DotProduct_call self inputs = (p <- tf_multiply q it ;; tf_reduce_sum_last_keepdims p).
Proof.
  intros Hq Hi. unfold DotProduct_call. now rewrite Hq, Hi.
Qed.

Lemma rows_products (q it : tensor R) s d :
  shape q = s ++ [d] ->
  shape it = s ++ [d] ->
  map (fun r => [sum_list r]) (rows (mkTensor (s ++ [d]) (zip_with rmul (flat q) (flat it)))) =
  zip_with (fun a b => [sum_list (zip_with rmul a b)]) (rows q) (rows it).
Proof.
  intros Hsq Hsi. unfold rows; simpl. rewrite Hsq, Hsi, chunks_zip_with.
  generalize (chunks (last (s ++ [d]) 1) (numel (removelast (s ++ [d]))) (flat q)).
  generalize (chunks (last (s ++ [d]) 1) (numel (removelast (s ++ [d]))) (flat it)).
  intros l2 l1; revert l2; induction l1 as [|a l1 IH]; intros [|b l2]; simpl; auto.
  now rewrite IH.
Qed.

Lemma inner_product_rows (q it : tensor R) s d :
  shape q = s ++ [d] ->
  shape it = s ++ [d] ->
  exists out,
    (p <- tf_multiply q it ;; tf_reduce_sum_last_keepdims p) = Ok out /\
    shape out = s ++ [1] /\
    rows out = zip_with (fun a b => [sum_list (zip_with rmul a b)]) (rows q) (rows it).
Proof.
  intros Hsq Hsi.
  unfold tf_multiply. rewrite Hsq, Hsi, shape_eqb_refl. cbn [bind].
  rewrite (reduce_sum_last_rows _ s d) by reflexivity.
  eexists; split; [reflexivity|]; split; [reflexivity|].
  rewrite (rows_products q it s d Hsq Hsi). apply rows_of_rows.
  - rewrite zip_with_length, !rows_length, Hsq, Hsi, removelast_last. apply Nat.min_id.
  - generalize (rows q) (rows it).
    intros l1; induction l1 as [|a l1 IH]; intros [|b l2]; simpl; auto.
Qed.

(** C4.  On an input mapping that holds a query embedding and an item
    embedding of one shape [s ++ [d]], [DotProduct.call] returns a tensor of
    shape [s ++ [1]]: for every query-item pair the one-element vector
    holding the sum, over the last axis, of the elementwise products. *)
Theorem DotProduct_call_inner_product
    (self : DotProduct) (inputs : TabularData) (q it : tensor R) (s : list nat) (d : nat) :
  getitem (embeddings inputs) (query_name self) = Ok q ->
  getitem (embeddings inputs) (item_name self) = Ok it ->
  shape q = s ++ [d] ->
  shape it = s ++ [d] ->
  exists out,
    DotProduct_call self inputs = Ok out /\
    shape out = s ++ [1] /\
    rows out = zip_with (fun a b => [sum_list (zip_with rmul a b)]) (rows q) (rows it).
Proof.
  intros Hq Hi Hsq Hsi.
  rewrite (DotProduct_call_unfold self inputs q it Hq Hi).
  destruct (inner_product_rows q it s d Hsq Hsi) as (out & Hout & Hshape & Hrows).
  exists out. auto.
Qed.

End DotProductProperties.

Lemma DotProduct_call_inner_product_witness :
  exists out,
    DotProduct_call (R := Z) {| query_name := "query"; item_name := "item" |}
      {| embeddings := [("query"%string, mkTensor [2; 2] [1; 2; 3; 4]%Z);
                        ("item"%string, mkTensor [2; 2] [5; 6; 7; 8]%Z)];
         id_columns := [] |} = Ok out /\
    shape out = [2; 1] /\
    rows out = [[17%Z]; [53%Z]].
Proof.
  exact (DotProduct_call_inner_product
           {| query_name := "query"; item_name := "item" |}
           {| embeddings := [("query"%string, mkTensor [2; 2] [1; 2; 3; 4]%Z);
                             ("item"%string, mkTensor [2; 2] [5; 6; 7; 8]%Z)];
              id_columns := [] |}
           (mkTensor [2; 2] [1; 2; 3; 4]%Z) (mkTensor [2; 2] [5; 6; 7; 8]%Z)
           [2] 2 eq_refl eq_refl eq_refl eq_refl).
Defined.

(** ** Sorting by decreasing score *)

Section TopK.

Context {R : Type} `{Scalar R}.

Hypothesis rleb_total : forall x y : R, rleb x y = true \/ rleb y x = true.
Hypothesis rleb_trans : forall x y z : R,
  rleb x y = true -> rleb y z = true -> rleb x z = true.

Lemma insert_desc_perm x l : Permutation (insert_desc x l) (x :: l).
Proof.
  induction l as [|y l IH]; simpl; auto.
  destruct (rleb (snd y) (snd x)); auto.
  rewrite IH. apply perm_swap.
Qed.

Lemma sort_desc_perm l : Permutation (sort_desc l) l.
Proof.
  induction l as [|x l IH]; simpl; auto.
  rewrite insert_desc_perm. now constructor.
Qed.

Lemma insert_desc_sorted x l :
  StronglySorted above l -> StronglySorted above (insert_desc x l).
Proof.
  induction 1 as [|y l Hs IH Hy]; simpl.
  - repeat constructor.
  - destruct (rleb (snd y) (snd x)) eqn:E.
    + constructor; [now constructor|].
      constructor; [exact E|].
      eapply Forall_impl; [|exact Hy].
      intros z Hz. unfold above in *. eapply rleb_trans; eauto.
    + constructor; [exact IH|].
      assert (Hxy : above y x).
      { unfold above. destruct (rleb_total (snd x) (snd y)); congruence. }
      eapply Permutation_Forall; [symmetry; apply insert_desc_perm|].
      now constructor.
Qed.

Lemma sort_desc_sorted l : StronglySorted above (sort_desc l).
Proof.
  induction l as [|x l IH]; simpl; [constructor|now apply insert_desc_sorted].
Qed.

Lemma StronglySorted_app_inv {A} (P : A -> A -> Prop) l1 l2 :
  StronglySorted P (l1 ++ l2) ->
  StronglySorted P l1 /\ (forall x y, In x l1 -> In y l2 -> P x y).
Proof.
  induction l1 as [|a l1 IH]; simpl; intros Hs.
  - split; [constructor|contradiction].
  - inversion Hs as [|? ? Hs' Ha]; subst.
    destruct (IH Hs') as [H1 H2]. split.
    + constructor; auto. rewrite Forall_app in Ha. tauto.
    + intros x y [->|Hx] Hy; auto.
      rewrite Forall_forall in Ha. apply Ha, in_or_app. now right.
Qed.

Lemma StronglySorted_map {A B} (f : A -> B) (P : B -> B -> Prop) l :
  StronglySorted (fun x y => P (f x) (f y)) l -> StronglySorted P (map f l).
Proof.
  induction 1 as [|a l _ IH Ha]; simpl; constructor; auto.
  now rewrite Forall_map.
Qed.

Lemma indexed_from_In (row : list R) start p x :
  In (p, x) (combine (seq start (length row)) row) <->
  start <= p /\ nth_error row (p - start) = Some x.
Proof.
  revert start; induction row as [|a row IH]; intros start; simpl.
  - split; [contradiction|]. intros [_ Hn]. now destruct (p - start).
  - rewrite IH. split.
    + intros [E|[Hle Hn]].
      * inversion E; subst. rewrite Nat.sub_diag. auto.
      * split; [lia|]. replace (p - start) with (S (p - S start)) by lia. exact Hn.
    + intros [Hle Hn]. destruct (p - start) as [|m] eqn:E.
      * left. simpl in Hn. inversion Hn. f_equal. lia.
      * right. split; [lia|]. simpl in Hn. now replace (p - S start) with m by lia.
Qed.

Lemma indexed_In (row : list R) p x :
  In (p, x) (indexed row) <-> nth_error row p = Some x.
Proof.
  unfold indexed. rewrite indexed_from_In, Nat.sub_0_r. intuition lia.
Qed.

Lemma indexed_fst (row : list R) : map fst (indexed row) = seq 0 (length row).
Proof.
  unfold indexed. generalize 0.
  induction row as [|a row IH]; intros start; simpl; auto. now rewrite IH.
Qed.

Lemma sort_desc_length l : length (sort_desc l) = length l.
Proof. apply Permutation_length, sort_desc_perm. Qed.

Lemma indexed_length (row : list R) : length (indexed row) = length row.
Proof. unfold indexed. rewrite length_combine, length_seq. apply Nat.min_id. Qed.

Lemma top_k_row_length k (row : list R) :
  k <= length row -> length (top_k_row k row) = k.
Proof.
  intros Hk. unfold top_k_row.
  rewrite length_firstn, sort_desc_length, indexed_length. lia.
Qed.

Lemma top_k_row_In k (row : list R) p x :
  In (p, x) (top_k_row k row) -> nth_error row p = Some x.
Proof.
  intros Hin. apply indexed_In.
  eapply Permutation_in; [apply sort_desc_perm|].
  unfold top_k_row in Hin.
  rewrite <- (firstn_skipn k (sort_desc (indexed row))). apply in_or_app. now left.
Qed.

Lemma Forall2_map_fst_snd {A B} (P : A -> B -> Prop) (l : list (A * B)) :
  (forall a b, In (a, b) l -> P a b) -> Forall2 P (map fst l) (map snd l).
Proof.
  induction l as [|[a b] l IH]; simpl; intros Hl; constructor; auto.
Qed.

Lemma top_k_row_spec k (row : list R) :
  k <= length row ->
  let top := top_k_row k row in
  length (map fst top) = k /\
  NoDup (map fst top) /\
  Forall2 (fun p s => nth_error row p = Some s) (map fst top) (map snd top) /\
  StronglySorted (fun x y => rleb y x = true) (map snd top) /\
  (forall p s, nth_error row p = Some s -> ~ In p (map fst top) ->
               Forall (fun t => rleb s t = true) (map snd top)).
Proof.
  intros Hk top.
  pose proof (sort_desc_sorted (indexed row)) as Hsorted.
  pose proof (sort_desc_perm (indexed row)) as Hperm.
  rewrite <- (firstn_skipn k (sort_desc (indexed row))) in Hsorted, Hperm.
  fold (top_k_row k row) in Hsorted, Hperm. fold top in Hsorted, Hperm.
  destruct (StronglySorted_app_inv _ _ _ Hsorted) as [Htop Hrest].
  split; [|split; [|split; [|split]]].
  - rewrite length_map. now apply top_k_row_length.
  - assert (Hnd : NoDup (map fst (top ++ skipn k (sort_desc (indexed row))))).
    { eapply Permutation_NoDup; [symmetry; apply Permutation_map, Hperm|].
      rewrite indexed_fst. apply seq_NoDup. }
    rewrite map_app in Hnd. eapply NoDup_app_remove_r, Hnd.
  - apply Forall2_map_fst_snd. intros p x. apply top_k_row_In.
  - apply StronglySorted_map. exact Htop.
  - intros p s Hp Hnot. rewrite Forall_map, Forall_forall. intros [q t] Hq. simpl.
    apply (Hrest (q, t) (p, s) Hq).
    apply indexed_In in Hp.
    apply (Permutation_in _ (Permutation_sym Hperm)) in Hp.
    apply in_app_or in Hp. destruct Hp as [Hp|Hp]; [|exact Hp].
    exfalso. apply Hnot. change p with (fst (p, s)). now apply in_map.
Qed.

Lemma top_k_row_positions k (row : list R) p :
  In p (map fst (top_k_row k row)) -> p < length row.
Proof.
  rewrite in_map_iff. intros [[q x] [<- Hin]]. simpl.
  apply top_k_row_In in Hin. apply nth_error_Some. congruence.
Qed.

(** A top-[k] row of scores, with the identifiers gathered at the selected
    positions, is a top-[k] selection. *)
Lemma top_k_row_is_top_k k (row : list R) (ids : list Z) :
  k <= length row ->
  length ids = length row ->
  is_top_k k row ids
    (map snd (top_k_row k row))
    (map (fun p => nth p ids 0%Z) (map fst (top_k_row k row))).
Proof.
  intros Hk Hids.
  destruct (top_k_row_spec k row Hk) as (Hlen & Hnd & Hsc & Hsorted & Hrest).
  exists (map fst (top_k_row k row)).
  repeat split; auto.
  clear - Hids. pose proof (top_k_row_positions k row) as Hpos.
  induction (map fst (top_k_row k row)) as [|p ps IH]; simpl; constructor.
  - apply nth_error_nth'. rewrite Hids. apply Hpos. now left.
  - apply IH. intros q Hq. apply Hpos. now right.
Qed.

End TopK.

(** ** BruteForceTopK *)

Section BruteForceTopKProperties.

Context {R : Type} `{Scalar R} `{External R (Items R)}.

Lemma numel_singleton n : numel [n] = n.
Proof. simpl. apply Nat.mul_1_r. Qed.

Lemma matmul_transpose_b_rows (a b : tensor R) n m d :
  shape a = [n; d] ->
  shape b = [m; d] ->
  tf_matmul_transpose_b a b =
  Ok (of_rows [n] m (map (fun q => map (dot q) (rows b)) (rows a))) /\
  rows (of_rows [n] m (map (fun q => map (dot q) (rows b)) (rows a))) =
  map (fun q => map (dot q) (rows b)) (rows a).
Proof.
  intros Ha Hb. split.
  - unfold tf_matmul_transpose_b. rewrite Ha, Hb, Nat.eqb_refl. reflexivity.
  - apply rows_of_rows.
    + rewrite length_map, rows_length, Ha. reflexivity.
    + rewrite Forall_map, Forall_forall. intros q _.
      rewrite length_map, rows_length, Hb. simpl. apply Nat.mul_1_r.
Qed.

Lemma nth_chunks1 {A} (z : A) n : forall (l : list A) i,
  i < n -> n <= length l -> nth i (chunks 1 n l) [] = [nth i l z].
Proof.
  induction n as [|n IH]; intros l i Hi Hn; [lia|].
  destruct l as [|a l]; simpl in Hn; [lia|].
  destruct i as [|i]; simpl; auto.
  apply IH; lia.
Qed.

Lemma concat_map_singleton {A B} (f : A -> B) (l : list A) :
  concat (map (fun i => [f i]) l) = map f l.
Proof. induction l as [|a l IH]; simpl; congruence. Qed.

Lemma gather_vector (ids : tensor Z) (indices : tensor nat) n :
  shape ids = [n] ->
  wf ids ->
  Forall (fun i => i < n) (flat indices) ->
  tf_gather ids indices =
  Ok (mkTensor (shape indices ++ []) (map (fun i => nth i (flat ids) 0%Z) (flat indices))).
Proof.
  intros Hs Hwf Hin. unfold tf_gather. rewrite Hs.
  assert (Hall : forallb (fun i => i <? n) (flat indices) = true).
  { apply forallb_forall. intros i Hi. apply Nat.ltb_lt.
    rewrite Forall_forall in Hin. auto. }
  rewrite Hall. do 2 f_equal.
  rewrite <- (concat_map_singleton (fun i => nth i (flat ids) 0%Z)). f_equal.
  apply map_ext_in. intros i Hi.
  unfold slices. rewrite Hs. simpl.
  apply nth_chunks1.
  - rewrite Forall_forall in Hin. auto.
  - unfold wf in Hwf. rewrite Hs, numel_singleton in Hwf. lia.
Qed.

Lemma Forall2_map_graph {A B} (f : A -> B) (l : list A) :
  Forall2 (fun a b => b = f a) l (map f l).
Proof. induction l; simpl; constructor; auto. Qed.

Lemma concat_map_map {A B} (f : A -> B) (ls : list (list A)) :
  map f (concat ls) = concat (map (map f) ls).
Proof. apply concat_map. Qed.

Hypothesis rleb_total : forall x y : R, rleb x y = true \/ rleb y x = true.
Hypothesis rleb_trans : forall x y z : R,
  rleb x y = true -> rleb y z = true -> rleb x z = true.

(** C1 (as amended).  On a loaded index of [n] candidates with their
    identifier vector, and a batch of [b] queries, [BruteForceTopK.call]
    with [k <= n] returns two tensors of shape [[b; k]]: row by row, the
    [k] largest dot products between the query and the candidates, in
    non-increasing order, and the stored identifiers of exactly those
    candidates. *)
Theorem BruteForceTopK_call_top_k
    (self : BruteForceTopK) (candidates : tensor R) (identifiers : tensor Z)
    (inputs : tensor R) (kopt : option nat) (b d n : nat) :
  _candidates self = Some candidates ->
  _identifiers self = Some identifiers ->
  shape candidates = [n; d] ->
  shape identifiers = [n] ->
  wf identifiers ->
  shape inputs = [b; d] ->
  match kopt with Some k => k | None => _k self end <= n ->
  exists top_scores top_ids,
    BruteForceTopK_call self inputs kopt = Ok (top_scores, top_ids) /\
    shape top_scores = [b; match kopt with Some k => k | None => _k self end] /\
    shape top_ids = [b; match kopt with Some k => k | None => _k self end] /\
    Forall2
      (fun q top =>
         is_top_k (match kopt with Some k => k | None => _k self end)
           (map (dot q) (rows candidates)) (flat identifiers) (fst top) (snd top))
      (rows inputs) (combine (rows top_scores) (rows top_ids)).
Proof.
  intros Hc Hi Hsc Hsi Hwf Hsq Hk.
  set (k := match kopt with Some k => k | None => _k self end) in *.
  destruct (matmul_transpose_b_rows inputs candidates b n d Hsq Hsc) as [Hmm Hrows].
  set (scores := map (fun q => map (dot q) (rows candidates)) (rows inputs)) in *.
  set (top := map (top_k_row k) scores).
  assert (Hlen_scores : Forall (fun r => length r = n) scores).
  { unfold scores. rewrite Forall_map, Forall_forall. intros q _.
    rewrite length_map, rows_length, Hsc. apply numel_singleton. }
  assert (Hlen_top : length top = numel [b]).
  { unfold top, scores. rewrite !length_map, rows_length, Hsq. reflexivity. }
  assert (Hidn : length (flat identifiers) = n).
  { unfold wf in Hwf. now rewrite Hsi, numel_singleton in Hwf. }
  assert (Htopk : tf_top_k (of_rows [b] n scores) k =
                  Ok (of_rows [b] k (map (map snd) top), of_rows [b] k (map (map fst) top))).
  { unfold tf_top_k. simpl shape. simpl last. simpl removelast.
    apply Nat.leb_le in Hk. rewrite Hk. fold (of_rows [b] n scores). rewrite Hrows.
    reflexivity. }
  assert (Hrange : Forall (fun i => i < n) (flat (of_rows [b] k (map (map fst) top)))).
  { simpl. apply Forall_concat. rewrite Forall_map. unfold top. rewrite Forall_map.
    eapply Forall_impl; [|exact Hlen_scores]. intros row Hrow; cbv beta in Hrow.
    apply Forall_forall. intros p Hp. rewrite <- Hrow.
    now apply (top_k_row_positions k row). }
  pose proof (gather_vector identifiers _ n Hsi Hwf Hrange) as Hg.
  eexists _, _. split; [|split; [|split]].
  - unfold BruteForceTopK_call, _compute_score. rewrite Hc, Hi. fold k.
    rewrite Hmm. simpl bind. rewrite Htopk. simpl bind. rewrite Hg. reflexivity.
  - reflexivity.
  - reflexivity.
  - assert (Hr1 : rows (of_rows [b] k (map (map snd) top)) = map (map snd) top).
    { apply rows_of_rows; [now rewrite length_map|].
      rewrite Forall_map. unfold top. rewrite Forall_map.
      eapply Forall_impl; [|exact Hlen_scores]. intros row Hrow; cbv beta in Hrow.
      rewrite length_map. apply top_k_row_length. lia. }
    assert (Hr2 : rows (mkTensor (shape (of_rows [b] k (map (map fst) top)) ++ [])
                          (map (fun i => nth i (flat identifiers) 0%Z)
                             (flat (of_rows [b] k (map (map fst) top))))) =
                  map (fun r => map (fun i => nth i (flat identifiers) 0%Z) (map fst r)) top).
    { simpl flat. rewrite concat_map_map, map_map.
      change (rows (of_rows [b] k
                      (map (fun r => map (fun i => nth i (flat identifiers) 0%Z) (map fst r)) top))
              = map (fun r => map (fun i => nth i (flat identifiers) 0%Z) (map fst r)) top).
      apply rows_of_rows; [now rewrite length_map|].
      rewrite Forall_map. unfold top. rewrite Forall_map.
      eapply Forall_impl; [|exact Hlen_scores]. intros row Hrow; cbv beta in Hrow.
      rewrite !length_map. apply top_k_row_length. lia. }
    rewrite Hr1, Hr2. unfold top.
    assert (Hscores : Forall2 (fun q row => row = map (dot q) (rows candidates))
                        (rows inputs) scores).
    { apply Forall2_map_graph. }
    clear - Hscores Hlen_scores Hk Hidn rleb_total rleb_trans.
    induction Hscores as [|q row qs rs Hrow _ IH]; simpl; constructor.
    + simpl. subst row. inversion Hlen_scores; subst.
      apply top_k_row_is_top_k; auto; lia.
    + apply IH. now inversion Hlen_scores.
Qed.

End BruteForceTopKProperties.

Section LoadIndexProperties.

Context {R : Type} `{Scalar R} `{External R (Items R)}.

Lemma rank2_shape {A} (t : tensor A) : rank t = 2 -> exists n d, shape t = [n; d].
Proof.
  unfold rank. destruct (shape t) as [|n [|d [|? ?]]]; simpl; try discriminate.
  intros _. now exists n, d.
Qed.

Lemma load_index_ok_inv (self self' : BruteForceTopK) (emb : tensor R) ids :
  load_index emb ids self = (Ok tt, self') ->
  rank emb = 2 /\
  _candidates self' = Some emb /\
  exists stored, _identifiers self' = Some stored.
Proof.
  unfold load_index. destruct (rank emb =? 2) eqn:E; simpl; [|discriminate].
  destruct (not_candidates_ids ids); [|discriminate].
  intros Heq. inversion Heq; subst; simpl.
  apply Nat.eqb_eq in E. eauto.
Qed.

(** An index loaded without ids holds the candidates and the identifier
    vector [0 .. n-1]. *)
Lemma load_index_default_identifiers (self self' : BruteForceTopK) (emb : tensor R) n d :
  shape emb = [n; d] ->
  load_index emb None self = (Ok tt, self') ->
  _candidates self' = Some emb /\
  _identifiers self' = Some (tf_range n) /\
  shape (tf_range n) = [n] /\
  wf (tf_range n).
Proof.
  intros Hs. unfold load_index, rank. rewrite Hs. simpl.
  intros Heq. inversion Heq; subst; simpl.
  repeat split. unfold wf, tf_range. simpl.
  now rewrite length_map, length_seq, Nat.mul_1_r.
Qed.

(** On matrices, what [call] can raise once the guard is passed comes from
    the TensorFlow kernels. *)
Lemma call_loaded_outcome (self : BruteForceTopK) (emb inputs : tensor R) stored k :
  _candidates self = Some emb ->
  _identifiers self = Some stored ->
  rank emb = 2 ->
  rank inputs = 2 ->
  (exists r, BruteForceTopK_call self inputs k = Ok r) \/
  (exists op, BruteForceTopK_call self inputs k = Raise (InvalidArgumentError op)).
Proof.
  intros Hc Hi He Hq.
  destruct (rank2_shape _ He) as (n & d & Hse).
  destruct (rank2_shape _ Hq) as (b & d' & Hsq).
  unfold BruteForceTopK_call, _compute_score, tf_matmul_transpose_b.
  rewrite Hc, Hi, Hse, Hsq.
  destruct (d' =? d); simpl; [|eauto].
  unfold tf_top_k. simpl shape.
  destruct (_ <=? _); simpl; [|eauto].
  unfold tf_gather. destruct (shape stored); simpl; [eauto|].
  destruct (forallb _ _); simpl; eauto.
Qed.

(** C5.  A [BruteForceTopK] on which [load_index] has not run (a new one,
    or one whose [load_index] raised) has no candidates, and [call] on it
    raises the [ValueError] "load_index should be called before" whatever
    the inputs.  After a successful [load_index] the candidates are set, so
    the guard of [call] is passed; on a batch of query vectors [call] does
    not raise that error.  [load_index] raises a [ValueError], and stores
    nothing, whenever the embeddings tensor is not 2D. *)
Theorem load_index_precondition :
  (forall (self : BruteForceTopK) (inputs : tensor R) k,
      _candidates self = None ->
      BruteForceTopK_call self inputs k =
      Raise (ValueError "load_index should be called before")) /\
  (forall k, _candidates (BruteForceTopK_init (R := R) k) = None) /\
  (forall (self : BruteForceTopK) (emb : tensor R) ids e,
      fst (load_index emb ids self) = Raise e ->
      snd (load_index emb ids self) = self) /\
  (forall (self self' : BruteForceTopK) (emb : tensor R) ids,
      load_index emb ids self = (Ok tt, self') ->
      _candidates self' = Some emb /\
      forall (inputs : tensor R) k,
        rank inputs = 2 ->
        BruteForceTopK_call self' inputs k <>
        Raise (ValueError "load_index should be called before")) /\
  (forall (self : BruteForceTopK) (emb : tensor R) ids,
      rank emb <> 2 ->
      load_index emb ids self =
      (Raise (ValueError "The candidates embeddings tensor must be 2D"), self)).
Proof.
  split; [|split; [|split; [|split]]].
  - intros self inputs k Hc. unfold BruteForceTopK_call. now rewrite Hc.
  - reflexivity.
  - intros self emb ids e. unfold load_index.
    destruct (negb (rank emb =? 2)); simpl; auto.
    destruct (not_candidates_ids ids); simpl; [discriminate|auto].
  - intros self self' emb ids Hload.
    destruct (load_index_ok_inv _ _ _ _ Hload) as (He & Hc & stored & Hi).
    split; [exact Hc|]. intros inputs k Hq.
    destruct (call_loaded_outcome self' emb inputs stored k Hc Hi He Hq)
      as [[r Hr]|[op Hr]]; rewrite Hr; discriminate.
  - intros self emb ids Hr. unfold load_index.
    apply Nat.eqb_neq in Hr. now rewrite Hr.
Qed.

(** C8 (as amended).  [load_index] called with an ids tensor of more than
    one element raises a [ValueError] and leaves the object as it was;
    called without ids on a 2D embeddings tensor it succeeds and stores the
    identifiers [0 .. n-1]; and whenever it succeeds on an ids tensor, that
    tensor has at most one element. *)
Theorem load_index_candidates_ids :
  (forall (self : BruteForceTopK) (emb : tensor R) (ids : tensor Z),
      1 < length (flat ids) ->
      exists msg, load_index emb (Some ids) self = (Raise (ValueError msg), self)) /\
  (forall (self : BruteForceTopK) (emb : tensor R),
      rank emb = 2 ->
      load_index emb None self =
      (Ok tt, {| _k := _k self;
                 _candidates := Some emb;
                 _identifiers := Some (tf_range (hd 0 (shape emb))) |})) /\
  (forall (self self' : BruteForceTopK) (emb : tensor R) (ids : tensor Z),
      load_index emb (Some ids) self = (Ok tt, self') ->
      length (flat ids) <= 1).
Proof.
  split; [|split].
  - intros self emb ids Hlen. unfold load_index.
    destruct (negb (rank emb =? 2)); [eauto|].
    unfold not_candidates_ids, tensor_bool.
    destruct (flat ids) as [|x [|y l]]; simpl in Hlen; try lia.
    simpl. eauto.
  - intros self emb He. unfold load_index.
    apply Nat.eqb_eq in He. now rewrite He.
  - intros self self' emb ids. unfold load_index.
    destruct (negb (rank emb =? 2)); [discriminate|].
    unfold not_candidates_ids, tensor_bool.
    destruct (flat ids) as [|x [|y l]]; simpl; try lia. discriminate.
Qed.

End LoadIndexProperties.

Lemma Z_leb_total (x y : Z) : Z.leb x y = true \/ Z.leb y x = true.
Proof. rewrite !Z.leb_le. lia. Qed.

Lemma Z_leb_trans (x y z : Z) :
  Z.leb x y = true -> Z.leb y z = true -> Z.leb x z = true.
Proof. rewrite !Z.leb_le. lia. Qed.

(** The two best candidates for the example query are the third and the
    second; their stored identifiers, not their positions, are returned. *)
Example BruteForceTopK_call_example :
  BruteForceTopK_call example_index example_queries None =
  Ok (mkTensor [1; 2] [5; 3]%Z, mkTensor [1; 2] [30; 20]%Z).
Proof. reflexivity. Qed.

Lemma BruteForceTopK_call_top_k_witness :
  exists top_scores top_ids,
    BruteForceTopK_call example_index example_queries None = Ok (top_scores, top_ids) /\
    shape top_scores = [1; 2] /\
    shape top_ids = [1; 2] /\
    Forall2
      (fun q top =>
         is_top_k 2 (map (dot q) (rows example_candidates)) (flat example_identifiers)
           (fst top) (snd top))
      (rows example_queries) (combine (rows top_scores) (rows top_ids)).
Proof.
  refine (BruteForceTopK_call_top_k Z_leb_total Z_leb_trans
            example_index example_candidates example_identifiers example_queries
            None 1 2 3 eq_refl eq_refl eq_refl eq_refl eq_refl eq_refl _).
  simpl. lia.
Defined.

(** C1, as stated, fails on an index with fewer candidates than [k]: with
    one candidate and the default [k = 20], [call] raises. *)
Lemma BruteForceTopK_call_fewer_candidates_than_k :
  load_index single_candidate None (BruteForceTopK_init None) = (Ok tt, single_index) /\
  BruteForceTopK_call single_index (mkTensor [1; 1] [2]%Z) None =
  Raise (InvalidArgumentError "TopKV2").
Proof. split; reflexivity. Qed.

Lemma load_index_precondition_witness :
  BruteForceTopK_call (R := Z) (BruteForceTopK_init None) example_queries None =
    Raise (ValueError "load_index should be called before") /\
  (_candidates single_index = Some single_candidate /\
   forall (inputs : tensor Z) k,
     rank inputs = 2 ->
     BruteForceTopK_call single_index inputs k <>
     Raise (ValueError "load_index should be called before")) /\
  load_index (mkTensor [3] [1; 2; 3]%Z) None example_index =
    (Raise (ValueError "The candidates embeddings tensor must be 2D"), example_index).
Proof.
  destruct (load_index_precondition (R := Z)) as (Hnone & _ & _ & Hloaded & Hrank).
  split; [|split].
  - apply Hnone. reflexivity.
  - apply (Hloaded (BruteForceTopK_init None) single_index single_candidate None).
    reflexivity.
  - apply Hrank. unfold rank. simpl. lia.
Defined.

Lemma load_index_candidates_ids_witness :
  (exists msg,
      load_index single_candidate (Some example_identifiers) (BruteForceTopK_init None) =
      (Raise (ValueError msg), BruteForceTopK_init None)) /\
  load_index single_candidate None (BruteForceTopK_init None) = (Ok tt, single_index) /\
  length (flat (mkTensor [1] [7%Z])) <= 1.
Proof.
  destruct (load_index_candidates_ids (R := Z)) as (Hmany & Hnone & Hone).
  split; [|split].
  - apply Hmany. simpl. lia.
  - apply (Hnone (BruteForceTopK_init None) single_candidate). reflexivity.
  - apply (Hone (BruteForceTopK_init None)
             {| _k := 20; _candidates := Some single_candidate;
                _identifiers := Some (mkTensor [1] [7%Z]) |}
             single_candidate).
    reflexivity.
Defined.

(** C8, as stated, fails on a one-element ids tensor: the call succeeds
    although ids were given, and stores them. *)
Lemma load_index_single_id_succeeds :
  load_index single_candidate (Some (mkTensor [1] [7%Z])) (BruteForceTopK_init None) =
  (Ok tt, {| _k := 20; _candidates := Some single_candidate;
             _identifiers := Some (mkTensor [1] [7%Z]) |}).
Proof. reflexivity. Qed.

(** ** ContrastiveDotProduct: sampling of negatives *)

Section SamplingProperties.

Context {R : Type} `{Scalar R} `{External R (Items R)}.

Lemma sample_loop_all_empty samplers (positive_items : Items R) features training testing :
  Forall (fun s => exists rest,
            shape (Items_id (sample s positive_items features training testing)) = 0 :: rest)
         samplers ->
  snd (sample_loop samplers positive_items features training testing) = Ok [] /\
  length (fst (sample_loop samplers positive_items features training testing)) =
  length samplers.
Proof.
  induction 1 as [|s samplers [rest Hs] _ [IH1 IH2]]; simpl; auto.
  unfold dim. rewrite Hs. simpl.
  destruct (sample_loop samplers positive_items features training testing) as [log r].
  simpl in *. split; [exact IH1|]. now rewrite IH2.
Qed.

Lemma sample_loop_found samplers (positive_items : Items R) features training testing :
  Forall (fun s => shape (Items_id (sample s positive_items features training testing)) <> [])
         samplers ->
  snd (sample_loop samplers positive_items features training testing) =
  Ok (filter returns_items
        (map (fun s => sample s positive_items features training testing) samplers)).
Proof.
  induction 1 as [|s samplers Hs _ IH]; simpl; auto.
  unfold dim, returns_items.
  destruct (shape (Items_id (sample s positive_items features training testing)))
    as [|n rest]; [congruence|]. simpl.
  destruct (sample_loop samplers positive_items features training testing) as [log r].
  simpl in IH. subst r.
  destruct (0 <? n); reflexivity.
Qed.

(** C6, the failing half.  When every configured sampler returns zero
    items, no negatives are returned, and what [sample_negatives] raises is
    the [AttributeError] of the failed lookup of [self.samplers], not an
    exception whose message names the samplers; one warning per sampler has
    been logged. *)
Theorem sample_negatives_all_empty
    (self : ContrastiveDotProduct) (positive_items : Items R) features training testing :
  Forall (fun s => exists rest,
            shape (Items_id (sample s positive_items features training testing)) = 0 :: rest)
         (negative_samplers self) ->
  snd (sample_negatives self positive_items features training testing) =
    Raise (AttributeError "samplers") /\
  length (fst (sample_negatives self positive_items features training testing)) =
    length (negative_samplers self).
Proof.
  intros Hall.
  destruct (sample_loop_all_empty _ positive_items features training testing Hall)
    as [Hr Hlog].
  unfold sample_negatives.
  destruct (sample_loop (negative_samplers self) positive_items features training testing)
    as [log r].
  simpl in *. subst r. auto.
Qed.

(** C6, the other half.  When at least one sampler returns items, the
    results of the non-empty samplers are returned: the single one as it
    is, several of them through [sum]. *)
Lemma sample_negatives_some_items
    (self : ContrastiveDotProduct) (positive_items : Items R) features training testing :
  Forall (fun s => shape (Items_id (sample s positive_items features training testing)) <> [])
         (negative_samplers self) ->
  forall first others,
    filter returns_items
      (map (fun s => sample s positive_items features training testing)
         (negative_samplers self)) = first :: others ->
    snd (sample_negatives self positive_items features training testing) =
    match others with
    | [] => Ok first
    | _ :: _ => py_sum (first :: others)
    end.
Proof.
  intros Hall first others Hfound.
  pose proof (sample_loop_found _ positive_items features training testing Hall) as Hr.
  rewrite Hfound in Hr.
  unfold sample_negatives.
  destruct (sample_loop (negative_samplers self) positive_items features training testing)
    as [log r].
  simpl in *. subst r. simpl. now destruct others.
Qed.

End SamplingProperties.

(** ** ContrastiveDotProduct: rescoring of false negatives *)


Lemma chunks_Forall_length {A} d n : forall l : list A,
  n * d <= length l -> Forall (fun r => length r = d) (chunks d n l).
Proof.
  induction n as [|n IH]; intros l Hl; simpl; constructor.
  - rewrite length_firstn. simpl in Hl. lia.
  - apply IH. rewrite length_skipn. simpl in Hl. lia.
Qed.

Lemma rows_matrix_length {A} (t : tensor A) b n :
  shape t = [b; n] -> wf t ->
  length (rows t) = b /\ Forall (fun r => length r = n) (rows t).
Proof.
  intros Hs Hwf. unfold wf in Hwf. rewrite Hs in Hwf. simpl in Hwf.
  unfold rows. rewrite Hs. simpl. split.
  - rewrite chunks_length. lia.
  - apply chunks_Forall_length. lia.
Qed.

Section RescoringProperties.

Context {R : Type} `{Scalar R} `{External R (Items R)}.

Lemma rescore_false_negatives_rows (pos neg : tensor Z) (scores : tensor R) fns b n :
  shape scores = [b; n] ->
  wf scores ->
  length (flat pos) = b ->
  length (flat neg) = n ->
  exists rescored,
    rescore_false_negatives pos neg scores fns = Ok rescored /\
    shape rescored = [b; n] /\
    rows rescored =
    zip_with (fun p row => zip_with (fun q s => if Z.eqb q p then fns else s) (flat neg) row)
      (flat pos) (rows scores).
Proof.
  intros Hs Hwf Hp Hn.
  destruct (rows_matrix_length scores b n Hs Hwf) as [Hlen Hrows].
  unfold rescore_false_negatives. rewrite Hs, Hp, Hn, !Nat.eqb_refl. simpl andb.
  eexists; split; [reflexivity|]; split; [reflexivity|].
  apply rows_of_rows.
  - rewrite zip_with_length, Hp, Hlen, numel_singleton. apply Nat.min_id.
  - revert Hrows. generalize (rows scores) (flat pos).
    intros rs; induction rs as [|r rs IH]; intros [|p ps] Hrs; simpl; constructor.
    + inversion Hrs as [|? ? Hr Hrs']. rewrite zip_with_length, Hn, Hr. apply Nat.min_id.
    + apply IH. now inversion Hrs.
Qed.


End RescoringProperties.

(** ** ContrastiveDotProduct: layout of the prediction *)

Lemma zip_with_app_nil {A} (l : list (list A)) :
  zip_with (@app A) l (repeat [] (length l)) = l.
Proof.
  induction l as [|a l IH]; simpl; auto. now rewrite app_nil_r, IH.
Qed.

Lemma length_concat_uniform {A} d (rs : list (list A)) :
  Forall (fun r => length r = d) rs -> length (concat rs) = length rs * d.
Proof.
  induction 1 as [|r rs Hr _ IH]; simpl; auto.
  rewrite length_app, Hr, IH. reflexivity.
Qed.

Lemma numel_app s d : numel (s ++ [d]) = numel s * d.
Proof.
  induction s as [|n s IH]; simpl; [lia|]. rewrite IH. lia.
Qed.

Lemma of_rows_wf {A} s d (rs : list (list A)) :
  length rs = numel s ->
  Forall (fun r => length r = d) rs ->
  wf (of_rows s d rs).
Proof.
  intros Hn Hd. unfold wf, of_rows; simpl.
  now rewrite numel_app, (length_concat_uniform d), Hn.
Qed.

Lemma chunks_repeat {A} (x : A) d n :
  chunks d n (repeat x (n * d)) = repeat (repeat x d) n.
Proof.
  induction n as [|n IH]; simpl; auto.
  rewrite repeat_app, firstn_app, skipn_app, repeat_length, Nat.sub_diag.
  rewrite firstn_all2, skipn_all2 by (rewrite repeat_length; lia).
  simpl. now rewrite app_nil_r, IH.
Qed.

Lemma rows_constant {A} (x : A) b m :
  rows (mkTensor [b; m] (repeat x (numel [b; m]))) = repeat (repeat x m) b.
Proof.
  unfold rows. simpl.
  rewrite !Nat.mul_1_r. apply chunks_repeat.
Qed.

Lemma zip_with_repeat {A B C} (f : A -> B -> C) x y n :
  zip_with f (repeat x n) (repeat y n) = repeat (f x y) n.
Proof. induction n as [|n IH]; simpl; congruence. Qed.

(** [tf.concat] of two matrices with as many rows, along the last axis. *)
Lemma concat_last_matrices {A} (a c : tensor A) b m n :
  shape a = [b; m] ->
  shape c = [b; n] ->
  Forall (fun r => length r = m) (rows a) ->
  Forall (fun r => length r = n) (rows c) ->
  exists out,
    tf_concat_last [a; c] = Ok out /\
    shape out = [b; m + n] /\
    rows out = zip_with (@app A) (rows a) (rows c).
Proof.
  intros Ha Hc Hra Hrc.
  assert (Hla : length (rows a) = b) by (rewrite rows_length, Ha; apply numel_singleton).
  assert (Hlc : length (rows c) = b) by (rewrite rows_length, Hc; apply numel_singleton).
  unfold tf_concat_last, same_leading. simpl forallb.
  rewrite Ha, Hc. simpl removelast. rewrite shape_eqb_refl. simpl.
  rewrite Ha, Hc, Nat.mul_1_r. simpl last.
  assert (Hnil : zip_with (@app A) (rows c) (repeat [] b) = rows c).
  { rewrite <- Hlc. apply zip_with_app_nil. }
  rewrite Hnil, Nat.add_0_r.
  eexists; split; [reflexivity|]. split; [reflexivity|].
  - apply rows_of_rows.
    + rewrite zip_with_length, Hla, Hlc, numel_singleton. apply Nat.min_id.
    + clear - Hra Hrc. revert Hrc. generalize (rows c).
      induction Hra as [|r rs Hr _ IH]; intros [|r' rs'] Hrc; simpl; constructor.
      * inversion Hrc as [|? ? Hr' _]. rewrite length_app, Hr, Hr'. lia.
      * apply IH. now inversion Hrc.
Qed.

Section LayoutProperties.

Context {R : Type} `{Scalar R} `{External R (Items R)}.

Lemma get_id_and_embedding_inv key feature_name (inputs features : TabularData (R := R)) ids emb :
  get_id_and_embedding key feature_name inputs features = Ok (ids, emb) ->
  getitem (embeddings inputs) key = Ok emb.
Proof.
  unfold get_id_and_embedding.
  destruct (getitem (embeddings inputs) key) as [e|]; simpl; [|discriminate].
  destruct (if dict_has _ _ then _ else _); simpl; [|discriminate].
  congruence.
Qed.

Lemma rows_cast dt (t : tensor R) :
  rows (tf_cast dt t) = map (map (rcast dt)) (rows t).
Proof. unfold rows, tf_cast; simpl. apply chunks_map. Qed.

Lemma downscore_rows (self : ContrastiveDotProduct) (pos_item_id : tensor Z)
    (neg_items : Items R) (scores : list (list R)) b n :
  length scores = b ->
  Forall (fun r => length r = n) scores ->
  length (flat pos_item_id) = b ->
  length (flat (Items_id neg_items)) = n ->
  exists negative_scores,
    downscore self pos_item_id neg_items (of_rows [b] n scores) = Ok negative_scores /\
    shape negative_scores = [b; n] /\
    Forall (fun r => length r = n) (rows negative_scores).
Proof.
  intros Hlen Hrows Hp Hn.
  assert (Hb : length scores = numel [b]) by now rewrite numel_singleton.
  pose proof (rows_of_rows [b] n scores Hb Hrows) as Hr.
  pose proof (of_rows_wf [b] n scores Hb Hrows) as Hwf.
  unfold downscore. destruct (downscore_false_negatives self).
  - destruct (rescore_false_negatives_rows pos_item_id (Items_id neg_items)
                (of_rows [b] n scores) (false_negative_score self) b n eq_refl Hwf Hp Hn)
      as (rescored & Hres & Hshape & Hrr).
    exists rescored. split; [exact Hres|]. split; [exact Hshape|].
    rewrite Hrr, Hr. clear - Hrows Hn.
    revert Hrows. generalize (flat pos_item_id).
    induction scores as [|r rs IH]; intros [|p ps] Hrows; simpl; constructor.
    + inversion Hrows as [|? ? Hlr _]. rewrite zip_with_length, Hn, Hlr. apply Nat.min_id.
    + apply IH. now inversion Hrows.
  - exists (of_rows [b] n scores). split; [reflexivity|]. split; [reflexivity|].
    now rewrite Hr.
Qed.

Lemma cast_positive_negative dt (ds : list R) : forall ns : list (list R),
  map (map (rcast dt)) (zip_with (@app R) (map (fun x => [x]) ds) ns) =
  zip_with (fun pos neg => map (rcast dt) (pos :: neg)) ds ns.
Proof.
  induction ds as [|x ds IH]; intros [|r ns]; simpl; auto. now rewrite IH.
Qed.

Lemma zip_with_singleton {A B C} (f : A -> B -> C) (l1 : list A) (l2 : list B) :
  zip_with (fun a b => [f a b]) l1 l2 = map (fun x => [x]) (zip_with f l1 l2).
Proof.
  revert l2; induction l1 as [|a l1 IH]; intros [|b l2]; simpl; auto. now rewrite IH.
Qed.

(** The target matrix: a column of ones followed by [n] columns of zeros. *)
Lemma targets_layout b n :
  exists tgt,
    tf_concat 1 [tf_ones (R := R) [b; 1]; tf_zeros [b; n]] = Ok tgt /\
    shape tgt = [b; 1 + n] /\
    rows tgt = repeat (rone :: repeat rzero n) b.
Proof.
  unfold tf_concat. simpl orb.
  destruct (concat_last_matrices (tf_ones [b; 1]) (tf_zeros [b; n]) b 1 n eq_refl eq_refl)
    as (tgt & Ht & Hs & Hr).
  - unfold tf_ones. rewrite rows_constant. apply Forall_forall.
    intros r Hr. apply repeat_spec in Hr. now subst.
  - unfold tf_zeros. rewrite rows_constant. apply Forall_forall.
    intros r Hr. apply repeat_spec in Hr. subst. apply repeat_length.
  - exists tgt. split; [exact Ht|]. split; [exact Hs|].
    rewrite Hr. unfold tf_ones, tf_zeros. rewrite !rows_constant.
    rewrite zip_with_repeat. reflexivity.
Qed.

(** C3.  On a batch of [b] query and positive item embeddings for which
    the samplers give [n] negatives, [ContrastiveDotProduct.call] returns a
    [Prediction] whose output and target matrices both have [b] rows and
    [1 + n] columns.  Each output row is the query-item dot product followed
    by the scores of the sampled negatives (rescored or not), all cast to
    float32; each target row is a one followed by zeros. *)
Theorem ContrastiveDotProduct_call_layout
    (self : ContrastiveDotProduct) (inputs features : TabularData (R := R))
    (training testing : bool)
    (query_id pos_item_id : tensor Z) (query_emb pos_item_emb : tensor R)
    (neg_items : Items R) (b d n : nat) :
  get_id_and_embedding (query_name (dot_product self)) (query_id_name self) inputs features
    = Ok (query_id, query_emb) ->
  get_id_and_embedding (item_name (dot_product self)) (item_id_name self) inputs features
    = Ok (pos_item_id, pos_item_emb) ->
  snd (sample_negatives self (mkItems pos_item_id pos_item_emb) features training testing)
    = Ok neg_items ->
  shape query_emb = [b; d] ->
  shape pos_item_emb = [b; d] ->
  shape (Items_embedding neg_items) = [n; d] ->
  length (flat pos_item_id) = b ->
  length (flat (Items_id neg_items)) = n ->
  exists negative_scores prediction,
    downscore self pos_item_id neg_items
      (of_rows [b] n
         (map (fun q => map (dot q) (rows (Items_embedding neg_items))) (rows query_emb)))
      = Ok negative_scores /\
    ContrastiveDotProduct_call self inputs features training testing = Ok prediction /\
    shape (outputs prediction) = [b; 1 + n] /\
    shape (targets prediction) = [b; 1 + n] /\
    rows (outputs prediction) =
      zip_with (fun positive negatives => map (rcast float32) (positive :: negatives))
        (zip_with dot (rows query_emb) (rows pos_item_emb)) (rows negative_scores) /\
    rows (targets prediction) = repeat (rone :: repeat rzero n) b.
Proof.
  intros Hq Hi Hsample Hsq Hsi Hsn Hp Hn.
  pose proof (get_id_and_embedding_inv _ _ _ _ _ _ Hq) as Hgq.
  pose proof (get_id_and_embedding_inv _ _ _ _ _ _ Hi) as Hgi.
  destruct (inner_product_rows query_emb pos_item_emb [b] d Hsq Hsi)
    as (positive & Hpos & Hspos & Hrpos).
  rewrite <- (DotProduct_call_unfold (dot_product self) inputs _ _ Hgq Hgi) in Hpos.
  destruct (matmul_transpose_b_rows query_emb (Items_embedding neg_items) b n d Hsq Hsn)
    as [Hmm Hrmm].
  set (scores := map (fun q => map (dot q) (rows (Items_embedding neg_items)))
                   (rows query_emb)) in *.
  assert (Hlen : length scores = b).
  { unfold scores. rewrite length_map, rows_length, Hsq. apply numel_singleton. }
  assert (Hrows : Forall (fun r => length r = n) scores).
  { unfold scores. rewrite Forall_map, Forall_forall. intros q _.
    rewrite length_map, rows_length, Hsn. apply numel_singleton. }
  destruct (downscore_rows self pos_item_id neg_items scores b n Hlen Hrows Hp Hn)
    as (negative_scores & Hdown & Hsneg & Hrneg).
  assert (Hrp : Forall (fun r => length r = 1) (rows positive)).
  { rewrite Hrpos, zip_with_singleton, Forall_map. now apply Forall_forall. }
  destruct (concat_last_matrices positive negative_scores b 1 n Hspos Hsneg Hrp Hrneg)
    as (out & Hout & Hsout & Hrout).
  destruct (targets_layout b n) as (tgt & Htgt & Hstgt & Hrtgt).
  exists negative_scores, (mkPrediction (tf_cast float32 out) tgt).
  split; [exact Hdown|]. split; [|split; [|split; [|split]]].
  - unfold ContrastiveDotProduct_call.
    rewrite Hq. cbn [bind]. rewrite Hi. cbn [bind]. rewrite Hsample. cbn [bind].
    rewrite Hpos. cbn [bind]. rewrite Hmm. cbn [bind]. rewrite Hdown. cbn [bind].
    unfold tf_concat at 1. simpl orb. rewrite Hout. cbn [bind].
    unfold dim. cbn [shape tf_cast]. rewrite Hsout. cbn [nth_error bind].
    change (1 + n =? 0) with false. cbv iota.
    replace (1 + n - 1) with n by lia. rewrite Htgt. cbn [bind].
    unfold rank. cbn [shape tf_cast]. rewrite Hstgt, Hsout. reflexivity.
  - exact Hsout.
  - exact Hstgt.
  - simpl outputs. rewrite rows_cast, Hrout, Hrpos, zip_with_singleton.
    apply cast_positive_negative.
  - exact Hrtgt.
Qed.

End LayoutProperties.

(** The example batch scored against itself: every item is a false
    negative for its own row. *)
Example ContrastiveDotProduct_call_example :
  ContrastiveDotProduct_call (example_head [in_batch_sampler] None)
    example_batch example_features true false =
  Ok {| outputs := mkTensor [2; 3] [17; MIN_FLOAT; 23; 53; 39; MIN_FLOAT]%Z;
        targets := mkTensor [2; 3] [1; 0; 0; 1; 0; 0]%Z |}.
Proof. reflexivity. Qed.

Lemma ContrastiveDotProduct_call_layout_witness :
  exists negative_scores prediction,
    downscore (example_head [in_batch_sampler] None) example_item_ids
      (mkItems example_item_ids example_item_emb)
      (of_rows [2] 2
         (map (fun q => map (dot q) (rows example_item_emb)) (rows example_query_emb)))
      = Ok negative_scores /\
    ContrastiveDotProduct_call (example_head [in_batch_sampler] None)
      example_batch example_features true false = Ok prediction /\
    shape (outputs prediction) = [2; 1 + 2] /\
    shape (targets prediction) = [2; 1 + 2] /\
    rows (outputs prediction) =
      zip_with (fun positive negatives => map (rcast float32) (positive :: negatives))
        (zip_with dot (rows example_query_emb) (rows example_item_emb))
        (rows negative_scores) /\
    rows (targets prediction) = repeat (rone :: repeat rzero 2) 2.
Proof.
  exact (ContrastiveDotProduct_call_layout
           (example_head [in_batch_sampler] None) example_batch example_features true false
           example_user_ids example_item_ids example_query_emb example_item_emb
           (mkItems example_item_ids example_item_emb) 2 2 2
           eq_refl eq_refl eq_refl eq_refl eq_refl eq_refl eq_refl eq_refl).
Defined.


(** With samplers that all come back empty, the exception raised is the
    failed attribute lookup. *)
Lemma sample_negatives_all_empty_witness :
  snd (sample_negatives (example_head [empty_sampler; empty_sampler] None)
         (mkItems example_item_ids example_item_emb) example_features true false) =
    Raise (AttributeError "samplers") /\
  length (fst (sample_negatives (example_head [empty_sampler; empty_sampler] None)
                 (mkItems example_item_ids example_item_emb) example_features true false)) = 2.
Proof.
  apply (sample_negatives_all_empty (example_head [empty_sampler; empty_sampler] None)
           (mkItems example_item_ids example_item_emb) example_features true false).
  repeat constructor; exists []; reflexivity.
Defined.

(** ** Aggregations: sums *)

Lemma fold_left_permutation {A B} (f : A -> B -> A) :
  (forall a x y, f (f a x) y = f (f a y) x) ->
  forall l1 l2, Permutation l1 l2 -> forall a, fold_left f l1 a = fold_left f l2 a.
Proof.
  intros Hf l1 l2 Hp. induction Hp as [|x l1 l2 _ IH|x y l|l1 l2 l3 _ IH1 _ IH2];
    intros a; simpl; auto.
  - now rewrite Hf.
  - now rewrite IH1.
Qed.

Lemma length_nodup_one {A} (dec : forall x y : A, {x = y} + {x <> y}) (l : list A) :
  length (nodup dec l) = 1 <-> l <> [] /\ exists s, Forall (eq s) l.
Proof.
  split.
  - intros Hlen. split; [intros ->; discriminate|].
    destruct (nodup dec l) as [|s [|? ?]] eqn:E; try discriminate.
    exists s. apply Forall_forall. intros x Hx.
    apply (nodup_In dec) in Hx. rewrite E in Hx. simpl in Hx. tauto.
  - intros [Hne [s Hall]]. rewrite Forall_forall in Hall.
    pose proof (NoDup_nodup dec l) as Hnd.
    assert (Hsub : forall x, In x (nodup dec l) -> s = x).
    { intros x Hx. apply Hall. now apply (nodup_In dec). }
    destruct (nodup dec l) as [|a [|c n]] eqn:E.
    + destruct l as [|x l]; [congruence|].
      assert (Hx : In x (nodup dec (x :: l))) by (apply nodup_In; now left).
      rewrite E in Hx. contradiction.
    + reflexivity.
    + exfalso. inversion Hnd as [|? ? Hnot _]; subst. apply Hnot.
      left. rewrite <- (Hsub a), <- (Hsub c); simpl; auto.
Qed.

Section SumProperties.

Context {R : Type} `{Scalar R} `{External R (Items R)}.

Lemma all_input_shapes_equal_iff (inputs : dict (tensor R)) :
  all_input_shapes_equal inputs = true <-> inputs <> [] /\ shapes_all_equal inputs.
Proof.
  unfold all_input_shapes_equal. rewrite Nat.eqb_eq, length_nodup_one.
  unfold shapes_all_equal, values. split.
  - intros [Hne [s Hall]]. split.
    + intros ->. now apply Hne.
    + rewrite Forall_map, Forall_forall in Hall.
      intros t1 t2 H1 H2. now rewrite <- (Hall t1 H1), <- (Hall t2 H2).
  - intros [Hne Hall]. split.
    + destruct inputs; [congruence|discriminate].
    + destruct inputs as [|[k t] m]; [congruence|].
      exists (shape t). rewrite Forall_map, Forall_forall.
      intros u Hu. apply Hall; [now left|exact Hu].
Qed.

Lemma stack0_same_shape (s : list nat) (t : tensor R) (ts : list (tensor R)) :
  Forall (fun u => shape u = s) (t :: ts) ->
  tf_stack0 (t :: ts) = Ok (mkTensor (length (t :: ts) :: s) (concat (map (@flat R) (t :: ts)))).
Proof.
  intros Hall. unfold tf_stack0.
  assert (Hs : shape t = s) by now inversion Hall.
  assert (Hb : forallb (fun u => shape_eqb (shape u) (shape t)) (t :: ts) = true).
  { apply forallb_forall. intros u Hu. rewrite Forall_forall in Hall.
    apply shape_eqb_eq. rewrite Hs. now apply Hall. }
  now rewrite Hb, Hs.
Qed.

Lemma reduce_sum_stacked (s : list nat) (ts : list (tensor R)) :
  Forall (fun u => wf u /\ shape u = s) ts ->
  tf_reduce_sum_axis0 (mkTensor (length ts :: s) (concat (map (@flat R) ts))) =
  Ok (elementwise_sum s ts).
Proof.
  intros Hall. unfold tf_reduce_sum_axis0, elementwise_sum, slices. simpl.
  rewrite <- (length_map (@flat R) ts), chunks_concat; [reflexivity|].
  rewrite Forall_map. eapply Forall_impl; [|exact Hall].
  intros u [Hwf Hs]. unfold wf in Hwf. now rewrite Hwf, Hs.
Qed.

Lemma stack_reduce_sum (s : list nat) (t : tensor R) (ts : list (tensor R)) :
  Forall (fun u => wf u /\ shape u = s) (t :: ts) ->
  (stacked <- tf_stack0 (t :: ts) ;; tf_reduce_sum_axis0 stacked)
  = Ok (elementwise_sum s (t :: ts)).
Proof.
  intros Hall. rewrite (stack0_same_shape s).
  - cbn [bind]. now apply reduce_sum_stacked.
  - eapply Forall_impl; [|exact Hall]. now intros u [_ Hs].
Qed.

Lemma stack0_mixed_shapes (t : tensor R) (ts : list (tensor R)) :
  ~ (forall u, In u (t :: ts) -> shape u = shape t) ->
  tf_stack0 (t :: ts) = Raise (InvalidArgumentError "Pack").
Proof.
  intros Hmixed. unfold tf_stack0.
  destruct (forallb (fun u => shape_eqb (shape u) (shape t)) (t :: ts)) eqn:E; auto.
  exfalso. apply Hmixed. intros u Hu.
  rewrite forallb_forall in E. now apply shape_eqb_eq, E.
Qed.

End SumProperties.

(** ** Aggregations: items in sorted key order *)

Lemma string_leb_iff (a b : string) :
  String.leb a b = true <-> a = b \/ String_as_OT.lt a b.
Proof.
  unfold String.leb. split.
  - destruct (String.compare a b) eqn:E; try discriminate; intros _.
    + left. now apply String.compare_eq_iff.
    + right. now apply String_as_OT.cmp_lt.
  - intros [->|Hlt].
    + assert (E : String.compare b b = Eq) by now apply String_as_OT.cmp_eq.
      now rewrite E.
    + apply String_as_OT.cmp_lt in Hlt. unfold String_as_OT.cmp in Hlt. now rewrite Hlt.
Qed.

Lemma string_leb_trans (a b c : string) :
  String.leb a b = true -> String.leb b c = true -> String.leb a c = true.
Proof.
  rewrite !string_leb_iff. intros [->|H1] [->|H2]; auto.
  right. eapply String_as_OT.lt_trans; eauto.
Qed.

Section SortedItems.

Context {V : Type}.

Lemma insert_by_key_perm (kv : string * V) l : Permutation (insert_by_key kv l) (kv :: l).
Proof.
  induction l as [|kv' l IH]; simpl; auto.
  destruct (String.leb (fst kv) (fst kv')); auto.
  rewrite IH. apply perm_swap.
Qed.

Lemma sorted_items_perm (m : dict V) : Permutation (sorted_items m) m.
Proof.
  induction m as [|kv m IH]; simpl; auto.
  rewrite insert_by_key_perm. now constructor.
Qed.

Lemma insert_by_key_sorted (kv : string * V) l :
  StronglySorted key_le l -> StronglySorted key_le (insert_by_key kv l).
Proof.
  induction 1 as [|kv' l Hs IH Hall]; simpl.
  - repeat constructor.
  - destruct (String.leb (fst kv) (fst kv')) eqn:E.
    + constructor; [now constructor|].
      constructor; [exact E|].
      eapply Forall_impl; [|exact Hall].
      intros z Hz. unfold key_le in *. eapply string_leb_trans; eauto.
    + constructor; [exact IH|].
      eapply Permutation_Forall; [symmetry; apply insert_by_key_perm|].
      constructor; [|exact Hall].
      unfold key_le. destruct (String.leb_total (fst kv) (fst kv')); congruence.
Qed.

Lemma sorted_items_sorted (m : dict V) : StronglySorted key_le (sorted_items m).
Proof.
  induction m as [|kv m IH]; simpl; [constructor|now apply insert_by_key_sorted].
Qed.

Lemma NoDup_keys_inj (l : dict V) a b :
  NoDup (keys l) -> In a l -> In b l -> fst a = fst b -> a = b.
Proof.
  induction l as [|x l IH]; simpl; [contradiction|].
  intros Hnd [->|Ha] [->|Hb] Hk; auto; inversion Hnd as [|? ? Hnot Hnd']; subst.
  - exfalso. apply Hnot. rewrite Hk. now apply in_map.
  - exfalso. apply Hnot. rewrite <- Hk. now apply in_map.
  - now apply IH.
Qed.

Lemma sorted_unique (l1 : dict V) : forall l2,
  StronglySorted key_le l1 ->
  StronglySorted key_le l2 ->
  Permutation l1 l2 ->
  NoDup (keys l1) ->
  l1 = l2.
Proof.
  induction l1 as [|a l1 IH]; intros l2 Hs1 Hs2 Hp Hnd.
  - now apply Permutation_nil in Hp.
  - destruct l2 as [|b l2]; [now apply Permutation_sym, Permutation_nil in Hp|].
    inversion Hs1 as [|? ? Hs1' Ha]; subst.
    inversion Hs2 as [|? ? Hs2' Hb]; subst.
    rewrite Forall_forall in Ha, Hb.
    assert (Hab : a = b).
    { assert (Hina : In a (b :: l2)) by (eapply Permutation_in; [exact Hp|now left]).
      assert (Hinb : In b (a :: l1))
        by (eapply Permutation_in; [symmetry; exact Hp|now left]).
      destruct Hinb as [->|Hinb]; [reflexivity|].
      destruct Hina as [->|Hina]; [reflexivity|].
      apply (NoDup_keys_inj (a :: l1)); auto; [now left|now right|].
      apply String.leb_antisym; [apply Ha|apply Hb]; assumption. }
    subst b. f_equal. apply IH; auto.
    + now apply Permutation_cons_inv in Hp.
    + now inversion Hnd.
Qed.

(** The items in sorted key order do not depend on the insertion order. *)
Lemma sorted_items_permutation (m1 m2 : dict V) :
  NoDup (keys m1) -> Permutation m1 m2 -> sorted_items m1 = sorted_items m2.
Proof.
  intros Hnd Hp. apply sorted_unique; try apply sorted_items_sorted.
  - now rewrite !sorted_items_perm.
  - eapply Permutation_NoDup; [|exact Hnd].
    apply Permutation_map. symmetry. apply sorted_items_perm.
Qed.

Lemma sorted_items_keys_sorted (m : dict V) :
  StronglySorted (fun a b => String.leb a b = true) (keys (sorted_items m)).
Proof.
  unfold keys. apply StronglySorted_map. apply sorted_items_sorted.
Qed.

End SortedItems.

(** ** Aggregations: order of the features *)

Section OrderProperties.

Context {R : Type} `{Scalar R} `{External R (Items R)}.

Hypothesis radd_assoc : forall x y z : R, radd (radd x y) z = radd x (radd y z).
Hypothesis radd_comm : forall x y : R, radd x y = radd y x.

Lemma zip_with_radd_swap (a x y : list R) :
  zip_with radd (zip_with radd a x) y = zip_with radd (zip_with radd a y) x.
Proof.
  revert x y; induction a as [|a0 a IH]; intros [|x0 x] [|y0 y]; simpl; auto.
  rewrite IH. f_equal.
  rewrite !radd_assoc. f_equal. apply radd_comm.
Qed.

Lemma elementwise_sum_permutation s (ts1 ts2 : list (tensor R)) :
  Permutation ts1 ts2 -> elementwise_sum s ts1 = elementwise_sum s ts2.
Proof.
  intros Hp. unfold elementwise_sum. f_equal.
  apply fold_left_permutation; [apply zip_with_radd_swap|].
  now apply Permutation_map.
Qed.

Lemma Sum_call_value (inputs : dict (tensor R)) :
  Sum_call inputs =
  (match values inputs with
   | [] => Ok (mkTensor [] [rzero])
   | t :: ts => (stacked <- tf_stack0 (t :: ts) ;; tf_reduce_sum_axis0 stacked)
   end, inputs).
Proof.
  unfold Sum_call, mbind, get_state, lift, convert_to_tensor.
  destruct (values inputs); reflexivity.
Qed.

(** C10 (as amended).  Where the addition of the elements is associative
    and commutative, [Sum.call] depends on the multiset of the feature
    tensors only: two mappings whose values are the same well-formed
    tensors, under any keys and in any order, give the same result; when
    the tensors share a shape it is their elementwise sum.
    [ConcatFeatures.call] concatenates the (cast) features along the last
    axis in sorted key order: the items it goes through are all the items
    of the mapping, each once, by increasing key, and they do not depend on
    the insertion order. *)
Theorem aggregation_order_independence :
  (forall m1 m2 : dict (tensor R),
      Forall wf (values m1) ->
      Permutation (values m1) (values m2) ->
      fst (Sum_call m1) = fst (Sum_call m2)) /\
  (forall (m : dict (tensor R)) s,
      m <> [] ->
      Forall (fun t => wf t /\ shape t = s) (values m) ->
      Sum_call m = (Ok (elementwise_sum s (values m)), m)) /\
  (forall (self : ConcatFeatures) (m m' : dict (tensor R)),
      expand_non_sequential_features m = (Ok tt, m') ->
      check_concat_shapes m' = Ok tt ->
      ConcatFeatures_call self m =
      (tf_concat (-1)
         (map (fun kv => tf_cast (concat_output_dtype self) (snd kv)) (sorted_items m')),
       m')) /\
  (forall m1 m2 : dict (tensor R),
      NoDup (keys m1) -> Permutation m1 m2 -> sorted_items m1 = sorted_items m2) /\
  (forall m : dict (tensor R),
      StronglySorted (fun a b => String.leb a b = true) (keys (sorted_items m))) /\
  (forall m : dict (tensor R), Permutation (sorted_items m) m).
Proof.
  split; [|split; [|split; [|split; [|split]]]].
  - intros m1 m2 Hwf Hp. rewrite !Sum_call_value. cbn [fst].
    destruct (values m1) as [|t1 ts1] eqn:E1.
    { apply Permutation_nil in Hp. now rewrite Hp. }
    destruct (values m2) as [|t2 ts2] eqn:E2.
    { now apply Permutation_sym, Permutation_nil in Hp. }
    cbv iota.
    destruct (Forall_dec (fun u => shape u = shape t1)
                (fun u => list_eq_dec Nat.eq_dec (shape u) (shape t1)) (t1 :: ts1))
      as [Hsame|Hmixed].
    + assert (Hall1 : Forall (fun u => wf u /\ shape u = shape t1) (t1 :: ts1)).
      { rewrite Forall_forall in *. intros u Hu. split; auto. }
      assert (Hall2 : Forall (fun u => wf u /\ shape u = shape t1) (t2 :: ts2)).
      { eapply Permutation_Forall; eauto. }
      rewrite (stack_reduce_sum (shape t1) t1 ts1 Hall1).
      rewrite (stack_reduce_sum (shape t1) t2 ts2 Hall2).
      f_equal. now apply elementwise_sum_permutation.
    + rewrite (stack0_mixed_shapes t2 ts2), (stack0_mixed_shapes t1 ts1); [reflexivity| |].
      * intros Hall. apply Hmixed. now apply Forall_forall.
      * intros Hall. apply Hmixed. apply Forall_forall. intros u Hu.
        assert (Hu2 : In u (t2 :: ts2)) by (eapply Permutation_in; eauto).
        assert (Ht1 : In t1 (t2 :: ts2)) by (eapply Permutation_in; [exact Hp|now left]).
        now rewrite (Hall u Hu2), (Hall t1 Ht1).
  - intros m s Hne Hall. rewrite Sum_call_value.
    destruct (values m) as [|t ts] eqn:E.
    { destruct m; [congruence|discriminate]. }
    now rewrite (stack_reduce_sum s t ts Hall).
  - intros self m m' Hexp Hcheck.
    unfold ConcatFeatures_call, mbind, get_state, lift.
    now rewrite Hexp, Hcheck.
  - apply sorted_items_permutation.
  - apply sorted_items_keys_sorted.
  - apply sorted_items_perm.
Qed.

End OrderProperties.

(** ** Aggregations: the shape check of the element-wise sum *)

Section ElementwiseProperties.

Context {R : Type} `{Scalar R} `{External R (Items R)}.

Lemma cast_features_same_shape dt s (m : dict (tensor R)) :
  Forall wf (values m) ->
  Forall (fun t => shape t = s) (values m) ->
  Forall (fun u => wf u /\ shape u = s)
    (map (fun kv => tf_cast dt (snd kv)) (sorted_items m)).
Proof.
  intros Hwf Hs. rewrite Forall_map.
  eapply Permutation_Forall; [symmetry; apply sorted_items_perm|].
  unfold values in *. rewrite Forall_map in Hwf, Hs.
  rewrite Forall_forall in *. intros kv Hkv. split.
  - unfold wf, tf_cast. simpl. rewrite length_map. now apply Hwf.
  - unfold tf_cast. simpl. now apply Hs.
Qed.

Lemma StackFeatures_call_axis0 (m m' : dict (tensor R)) :
  expand_non_sequential_features m = (Ok tt, m') ->
  check_concat_shapes m' = Ok tt ->
  StackFeatures_call (StackFeatures_init (Some 0%Z)) m =
  (tf_stack0 (map (fun kv => tf_cast float32 (snd kv)) (sorted_items m')), m').
Proof.
  intros Hexp Hcheck. unfold StackFeatures_call, mbind, get_state, lift.
  now rewrite Hexp, Hcheck.
Qed.

(** C7 (as amended).  Let [m'] be the mapping as the expansion of
    non-sequential features leaves it.  If [m'] is empty, or its tensors do
    not all have one shape, [ElementwiseSum.call] raises a [ValueError] and
    produces no output.  If [m'] is not empty and its (well-formed) tensors
    all have one shape [s], the call returns their elementwise sum: the sum
    of the features cast to float32, taken in sorted key order. *)
Theorem ElementwiseSum_call_shapes (inputs m' : dict (tensor R)) :
  expand_non_sequential_features inputs = (Ok tt, m') ->
  (m' = [] \/ ~ shapes_all_equal m' ->
   ElementwiseSum_call ElementwiseSum_init inputs =
   (Raise (ValueError
      "The shapes of all input features are not equal, which is required for element-wise aggregation"),
    m')) /\
  (m' <> [] ->
   shapes_all_equal m' ->
   Forall wf (values m') ->
   expand_non_sequential_features m' = (Ok tt, m') ->
   check_concat_shapes m' = Ok tt ->
   exists s,
     Forall (fun t => shape t = s) (values m') /\
     ElementwiseSum_call ElementwiseSum_init inputs =
     (Ok (elementwise_sum s
            (map (fun kv => tf_cast float32 (snd kv)) (sorted_items m'))),
      m')).
Proof.
  intros Hexp. split.
  - intros Hbad.
    assert (Hcheck : all_input_shapes_equal m' = false).
    { destruct (all_input_shapes_equal m') eqn:E; auto.
      apply all_input_shapes_equal_iff in E. tauto. }
    unfold ElementwiseSum_call, mbind, get_state, lift, _check_input_shapes_equal.
    now rewrite Hexp, Hcheck.
  - intros Hne Hall Hwf Hexp' Hconcat.
    assert (Hcheck : all_input_shapes_equal m' = true)
      by now apply all_input_shapes_equal_iff.
    destruct m' as [|[k t] rest] eqn:Em; [congruence|]. rewrite <- Em in *.
    exists (shape t).
    assert (Hs : Forall (fun u => shape u = shape t) (values m')).
    { apply Forall_forall. intros u Hu. apply Hall; [exact Hu|].
      rewrite Em. now left. }
    split; [exact Hs|].
    pose proof (cast_features_same_shape float32 (shape t) m' Hwf Hs) as Hcast.
    unfold ElementwiseSum_call, mbind, get_state, lift, _check_input_shapes_equal.
    rewrite Hexp, Hcheck. cbn [stack ElementwiseSum_init].
    rewrite (StackFeatures_call_axis0 m' m' Hexp' Hconcat).
    destruct (map (fun kv => tf_cast float32 (snd kv)) (sorted_items m'))
      as [|u us] eqn:El.
    { apply (f_equal (@length _)) in El.
      rewrite length_map, (Permutation_length (sorted_items_perm m')), Em in El.
      discriminate. }
    rewrite (stack0_same_shape (shape t)).
    + now rewrite reduce_sum_stacked.
    + eapply Forall_impl; [|exact Hcast]. now intros v [_ Hv].
Qed.

End ElementwiseProperties.

Lemma ElementwiseSum_call_shapes_witness :
  exists s,
    Forall (fun t => shape t = s)
      (values [("b"%string, mkTensor [2] [1; 2]%Z); ("a"%string, mkTensor [2] [10; 20]%Z)]) /\
    ElementwiseSum_call ElementwiseSum_init
      [("b"%string, mkTensor [2] [1; 2]%Z); ("a"%string, mkTensor [2] [10; 20]%Z)] =
    (Ok (elementwise_sum s
           (map (fun kv => tf_cast float32 (snd kv))
              (sorted_items
                 [("b"%string, mkTensor [2] [1; 2]%Z); ("a"%string, mkTensor [2] [10; 20]%Z)]))),
     [("b"%string, mkTensor [2] [1; 2]%Z); ("a"%string, mkTensor [2] [10; 20]%Z)]).
Proof.
  destruct (ElementwiseSum_call_shapes (R := Z)
              [("b"%string, mkTensor [2] [1; 2]%Z); ("a"%string, mkTensor [2] [10; 20]%Z)]
              [("b"%string, mkTensor [2] [1; 2]%Z); ("a"%string, mkTensor [2] [10; 20]%Z)])
    as [_ Hsum]; [reflexivity|].
  apply Hsum.
  - discriminate.
  - intros t1 t2 [<-|[<-|[]]] [<-|[<-|[]]]; reflexivity.
  - repeat constructor.
  - reflexivity.
  - reflexivity.
Defined.

Example ElementwiseSum_call_example :
  ElementwiseSum_call ElementwiseSum_init
    [("b"%string, mkTensor [2] [1; 2]%Z); ("a"%string, mkTensor [2] [10; 20]%Z)] =
  (Ok (mkTensor [2] [11; 22]%Z),
   [("b"%string, mkTensor [2] [1; 2]%Z); ("a"%string, mkTensor [2] [10; 20]%Z)]).
Proof. reflexivity. Qed.

(** C7, as stated, fails on the empty mapping: its tensors all have equal
    shapes, none being there, and the call raises the [ValueError]. *)
Lemma ElementwiseSum_call_empty_mapping :
  shapes_all_equal (R := Z) [] /\
  ElementwiseSum_call (R := Z) ElementwiseSum_init [] =
  (Raise (ValueError
     "The shapes of all input features are not equal, which is required for element-wise aggregation"),
   []).
Proof. split; [intros t1 t2 []|reflexivity]. Qed.

Lemma Z_radd_assoc (x y z : Z) : (x + y + z = x + (y + z))%Z.
Proof. lia. Qed.

Lemma aggregation_order_independence_witness :
  fst (Sum_call [("user"%string, mkTensor [2] [1; 2]%Z); ("item"%string, mkTensor [2] [10; 20]%Z)]) =
  fst (Sum_call [("a"%string, mkTensor [2] [10; 20]%Z); ("b"%string, mkTensor [2] [1; 2]%Z)]) /\
  sorted_items [("b"%string, mkTensor [2] [1; 2]%Z); ("a"%string, mkTensor [2] [10; 20]%Z)] =
  sorted_items [("a"%string, mkTensor [2] [10; 20]%Z); ("b"%string, mkTensor [2] [1; 2]%Z)].
Proof.
  destruct (aggregation_order_independence (H := Z_Scalar) (H0 := Z_External)
              Z_radd_assoc Z.add_comm)
    as (Hsum & _ & _ & Hsorted & _).
  split.
  - apply Hsum.
    + repeat constructor.
    + apply perm_swap.
  - apply Hsorted.
    + repeat constructor; simpl; intuition discriminate.
    + apply perm_swap.
Defined.

(** ** Aggregations: which operators remove a key *)

Lemma dict_get_remove_same {V} (m : dict V) k : dict_get (dict_remove m k) k = None.
Proof.
  induction m as [|[k' v] m IH]; simpl; auto.
  destruct (String.eqb k' k) eqn:E; simpl; auto. now rewrite E.
Qed.

Lemma dict_get_remove_other {V} (m : dict V) k k' :
  k' <> k -> dict_get (dict_remove m k) k' = dict_get m k'.
Proof.
  intros Hne. induction m as [|[k0 v] m IH]; simpl; auto.
  destruct (String.eqb k0 k) eqn:E; simpl.
  - apply String.eqb_eq in E. subst k0.
    destruct (String.eqb k k') eqn:E'; auto.
    apply String.eqb_eq in E'. congruence.
  - now rewrite IH.
Qed.

Lemma dict_get_None_keys {V} (m : dict V) k : dict_get m k = None <-> ~ In k (keys m).
Proof.
  induction m as [|[k' v] m IH]; simpl; [tauto|].
  destruct (String.eqb k' k) eqn:E.
  - apply String.eqb_eq in E. split; [discriminate|]. intros Hn. exfalso. auto.
  - apply String.eqb_neq in E. rewrite IH. tauto.
Qed.

Lemma keeps_keys_ret {V A} (a : A) : keeps_keys (V := V) (ret a).
Proof. intros m. reflexivity. Qed.

Lemma keeps_keys_lift {V A} (r : result A) : keeps_keys (V := V) (lift r).
Proof. intros m. reflexivity. Qed.

Lemma keeps_keys_get_state {V} : keeps_keys (V := V) get_state.
Proof. intros m. reflexivity. Qed.

Lemma keeps_keys_mbind {V A B} (c : M (dict V) A) (k : A -> M (dict V) B) :
  keeps_keys c -> (forall a, keeps_keys (k a)) -> keeps_keys (mbind c k).
Proof.
  intros Hc Hk m. unfold mbind. specialize (Hc m).
  destruct (c m) as [[a|e] m1]; simpl in *; [|exact Hc].
  now rewrite Hk.
Qed.

Create HintDb keys.
#[local] Hint Resolve keeps_keys_ret keeps_keys_lift keeps_keys_get_state : keys.

Ltac keeps_keys :=
  repeat (apply keeps_keys_mbind; [|intros ?]); auto with keys.

Section KeyProperties.

Context {R : Type} `{Scalar R} `{External R (Items R)}.

(** The expansion of non-sequential features replaces values under
    existing keys. *)
Hypothesis expand_keeps_keys : keeps_keys expand_non_sequential_features.

Lemma ConcatFeatures_keeps_keys self : keeps_keys (ConcatFeatures_call self).
Proof. unfold ConcatFeatures_call. keeps_keys. Qed.

Lemma StackFeatures_keeps_keys self : keeps_keys (StackFeatures_call self).
Proof. unfold StackFeatures_call. keeps_keys. Qed.

Lemma Sum_keeps_keys : keeps_keys Sum_call.
Proof. unfold Sum_call. keeps_keys. Qed.

Lemma ElementwiseSum_keeps_keys self : keeps_keys (ElementwiseSum_call self).
Proof.
  unfold ElementwiseSum_call. keeps_keys.
Qed.

Lemma ElementwiseSumItemMulti_keeps_keys self :
  keeps_keys (ElementwiseSumItemMulti_call self).
Proof. unfold ElementwiseSumItemMulti_call. keeps_keys. Qed.

Lemma SumResidual_call_state (self : SumResidual) (inputs : dict (tensor R)) v :
  dict_get inputs (shortcut_name self) = Some v ->
  snd (SumResidual_call self inputs) = dict_remove inputs (shortcut_name self).
Proof.
  intros Hget. unfold SumResidual_call, mbind, pop, get_state, lift, ret.
  rewrite Hget.
  now destruct (residual_loop self v (dict_remove inputs (shortcut_name self)) []).
Qed.

Lemma AddLeft_call_keys (self : AddLeft) (inputs : dict (tensor R)) v :
  dict_get inputs (left_name self) = Some v ->
  keys (snd (AddLeft_call self inputs)) = keys (dict_remove inputs (left_name self)).
Proof.
  intros Hget. unfold AddLeft_call, mbind at 1, pop. rewrite Hget.
  match goal with
  | |- keys (snd (?c ?m)) = keys ?m => assert (Hc : keeps_keys c) by keeps_keys; apply Hc
  end.
Qed.

(** C9.  [SumResidual.call] and [AddLeft.call] pop the shortcut (left) key
    from the dictionary they are given: when the key is there, the
    dictionary after the call is the one before without that key, whatever
    the call returns or raises; when it is not, the [pop] raises a
    [KeyError] and the dictionary is as before.  The other operators of the
    module leave the keys of their input as they are. *)
Theorem aggregation_key_removal :
  (forall (self : SumResidual) (inputs : dict (tensor R)) v,
      dict_get inputs (shortcut_name self) = Some v ->
      snd (SumResidual_call self inputs) = dict_remove inputs (shortcut_name self) /\
      dict_get (snd (SumResidual_call self inputs)) (shortcut_name self) = None /\
      forall k, k <> shortcut_name self ->
                dict_get (snd (SumResidual_call self inputs)) k = dict_get inputs k) /\
  (forall (self : AddLeft) (inputs : dict (tensor R)) v,
      dict_get inputs (left_name self) = Some v ->
      keys (snd (AddLeft_call self inputs)) = keys (dict_remove inputs (left_name self)) /\
      ~ In (left_name self) (keys (snd (AddLeft_call self inputs)))) /\
  (forall (self : SumResidual) (inputs : dict (tensor R)),
      dict_get inputs (shortcut_name self) = None ->
      SumResidual_call self inputs = (Raise (KeyError (shortcut_name self)), inputs)) /\
  (forall (self : AddLeft) (inputs : dict (tensor R)),
      dict_get inputs (left_name self) = None ->
      AddLeft_call self inputs = (Raise (KeyError (left_name self)), inputs)) /\
  (forall self, keeps_keys (ConcatFeatures_call self)) /\
  (forall self, keeps_keys (StackFeatures_call self)) /\
  keeps_keys Sum_call /\
  (forall self, keeps_keys (ElementwiseSum_call self)) /\
  (forall self, keeps_keys (ElementwiseSumItemMulti_call self)).
Proof.
  split; [|split; [|split; [|split; [|split; [|split; [|split; [|split]]]]]]].
  - intros self inputs v Hget.
    rewrite (SumResidual_call_state self inputs v Hget).
    split; [reflexivity|]. split; [apply dict_get_remove_same|].
    intros k Hk. now apply dict_get_remove_other.
  - intros self inputs v Hget.
    rewrite (AddLeft_call_keys self inputs v Hget).
    split; [reflexivity|]. apply dict_get_None_keys, dict_get_remove_same.
  - intros self inputs Hget. unfold SumResidual_call, mbind, pop. now rewrite Hget.
  - intros self inputs Hget. unfold AddLeft_call, mbind, pop. now rewrite Hget.
  - apply ConcatFeatures_keeps_keys.
  - apply StackFeatures_keeps_keys.
  - apply Sum_keeps_keys.
  - apply ElementwiseSum_keeps_keys.
  - apply ElementwiseSumItemMulti_keeps_keys.
Qed.

End KeyProperties.

Example SumResidual_call_example :
  SumResidual_call {| activation := None; shortcut_name := "shortcut" |}
    [("shortcut"%string, mkTensor [2] [1; 2]%Z); ("a"%string, mkTensor [2] [10; 20]%Z)] =
  (Ok (AsTensor (mkTensor [2] [11; 22]%Z)), [("a"%string, mkTensor [2] [10; 20]%Z)]).
Proof. reflexivity. Qed.

Lemma aggregation_key_removal_witness :
  snd (SumResidual_call {| activation := None; shortcut_name := "shortcut" |}
         [("shortcut"%string, mkTensor [2] [1; 2]%Z); ("a"%string, mkTensor [2] [10; 20]%Z)]) =
    [("a"%string, mkTensor [2] [10; 20]%Z)] /\
  keys (snd (AddLeft_call
               {| left_name := "bias"; concat_ := ConcatFeatures_init; wide_logit := fun t => t |}
               [("a"%string, mkTensor [2; 1] [10; 20]%Z);
                ("bias"%string, mkTensor [2; 1] [1; 2]%Z)])) = ["a"%string] /\
  SumResidual_call {| activation := None; shortcut_name := "shortcut" |}
    [("a"%string, mkTensor [2] [10; 20]%Z)] =
    (Raise (KeyError "shortcut"), [("a"%string, mkTensor [2] [10; 20]%Z)]).
Proof.
  destruct (aggregation_key_removal (H := Z_Scalar) (H0 := Z_External) (keeps_keys_ret tt))
    as (Hresidual & Hleft & Hmissing & _).
  split; [|split].
  - exact (proj1 (Hresidual {| activation := None; shortcut_name := "shortcut" |}
                    [("shortcut"%string, mkTensor [2] [1; 2]%Z);
                     ("a"%string, mkTensor [2] [10; 20]%Z)]
                    (mkTensor [2] [1; 2]%Z) eq_refl)).
  - exact (proj1 (Hleft {| left_name := "bias"; concat_ := ConcatFeatures_init;
                           wide_logit := fun t => t |}
                    [("a"%string, mkTensor [2; 1] [10; 20]%Z);
                     ("bias"%string, mkTensor [2; 1] [1; 2]%Z)]
                    (mkTensor [2; 1] [1; 2]%Z) eq_refl)).
  - apply Hmissing. reflexivity.
Defined.

(** * Further properties *)

(** ** BruteForceTopK: evaluation targets and construction *)

Section CallTargetsProperties.

Context {R : Type} `{Scalar R} `{External R (Items R)}.

(** What [call] computes on a loaded index, row by row. *)
Lemma BruteForceTopK_call_rows
    (self : BruteForceTopK) (candidates : tensor R) (identifiers : tensor Z)
    (inputs : tensor R) (kopt : option nat) (b d n k : nat) :
  _candidates self = Some candidates ->
  _identifiers self = Some identifiers ->
  shape candidates = [n; d] ->
  shape identifiers = [n] ->
  wf identifiers ->
  shape inputs = [b; d] ->
  k = match kopt with Some k => k | None => _k self end ->
  k <= n ->
  exists top_scores top_ids,
    BruteForceTopK_call self inputs kopt = Ok (top_scores, top_ids) /\
    shape top_scores = [b; k] /\
    shape top_ids = [b; k] /\
    rows top_scores =
      map (fun q => map snd (top_k_row k (map (dot q) (rows candidates)))) (rows inputs) /\
    rows top_ids =
      map (fun q => map (fun p => nth p (flat identifiers) 0%Z)
                      (map fst (top_k_row k (map (dot q) (rows candidates)))))
        (rows inputs).
Proof.
  intros Hc Hi Hsc Hsi Hwf Hsq Hk Hkn.
  destruct (matmul_transpose_b_rows inputs candidates b n d Hsq Hsc) as [Hmm Hrows].
  set (scores := map (fun q => map (dot q) (rows candidates)) (rows inputs)) in *.
  set (top := map (top_k_row k) scores).
  assert (Hlen_scores : Forall (fun r => length r = n) scores).
  { unfold scores. rewrite Forall_map, Forall_forall. intros q _.
    rewrite length_map, rows_length, Hsc. apply numel_singleton. }
  assert (Hlen_top : length top = numel [b]).
  { unfold top, scores. rewrite !length_map, rows_length, Hsq. reflexivity. }
  assert (Hrow_k : Forall (fun r => length (top_k_row k r) = k) scores).
  { eapply Forall_impl; [|exact Hlen_scores].
    intros row Hrow; cbv beta in Hrow. apply top_k_row_length. lia. }
  assert (Htopk : tf_top_k (of_rows [b] n scores) k =
                  Ok (of_rows [b] k (map (map snd) top), of_rows [b] k (map (map fst) top))).
  { unfold tf_top_k. simpl shape. simpl last. simpl removelast.
    apply Nat.leb_le in Hkn. rewrite Hkn. fold (of_rows [b] n scores). rewrite Hrows.
    reflexivity. }
  assert (Hrange : Forall (fun i => i < n) (flat (of_rows [b] k (map (map fst) top)))).
  { simpl. apply Forall_concat. rewrite Forall_map. unfold top. rewrite Forall_map.
    eapply Forall_impl; [|exact Hlen_scores]. intros row Hrow; cbv beta in Hrow.
    apply Forall_forall. intros p Hp. rewrite <- Hrow.
    now apply (top_k_row_positions k row). }
  pose proof (gather_vector identifiers _ n Hsi Hwf Hrange) as Hg.
  eexists _, _. split; [|split; [|split; [|split]]].
  - unfold BruteForceTopK_call, _compute_score. rewrite Hc, Hi, <- Hk.
    rewrite Hmm. cbn [bind]. rewrite Htopk. cbn [bind]. rewrite Hg. reflexivity.
  - reflexivity.
  - reflexivity.
  - rewrite rows_of_rows.
    + unfold top, scores. now rewrite !map_map.
    + now rewrite length_map.
    + rewrite Forall_map. unfold top. rewrite Forall_map.
      eapply Forall_impl; [|exact Hrow_k].
      intros row Hrow; cbv beta in Hrow. now rewrite length_map.
  - simpl flat. rewrite concat_map_map, map_map.
    change (rows (of_rows [b] k
                    (map (fun r => map (fun i => nth i (flat identifiers) 0%Z) (map fst r)) top))
            = map (fun q => map (fun p => nth p (flat identifiers) 0%Z)
                              (map fst (top_k_row k (map (dot q) (rows candidates)))))
                (rows inputs)).
    rewrite rows_of_rows.
    + unfold top, scores. now rewrite !map_map.
    + now rewrite length_map.
    + rewrite Forall_map. unfold top. rewrite Forall_map.
      eapply Forall_impl; [|exact Hrow_k].
      intros row Hrow; cbv beta in Hrow. now rewrite !length_map.
Qed.

End CallTargetsProperties.

Lemma take_column0_matrix {A} (t : tensor A) b c :
  shape t = [b; c] ->
  0 < c ->
  wf t ->
  take_column0 t = Ok (mkTensor [b] (concat (map (firstn 1) (rows t)))) /\
  rows (tf_expand_dims_last (mkTensor [b] (concat (map (firstn 1) (rows t))))) =
    map (firstn 1) (rows t) /\
  Forall (fun r => length r = 1) (map (firstn 1) (rows t)).
Proof.
  intros Hs Hc Hwf.
  destruct (rows_matrix_length t b c Hs Hwf) as [Hlen Hrows].
  assert (Hone : Forall (fun r => length r = 1) (map (firstn 1) (rows t))).
  { rewrite Forall_map. eapply Forall_impl; [|exact Hrows].
    intros r Hr; cbv beta in Hr. rewrite length_firstn. lia. }
  split; [|split; [|exact Hone]].
  - unfold take_column0. rewrite Hs.
    destruct (c =? 0) eqn:E; [apply Nat.eqb_eq in E; lia|].
    unfold rows. rewrite Hs. simpl. now rewrite !Nat.mul_1_r.
  - apply (rows_of_rows [b] 1); [|exact Hone].
    now rewrite length_map, Hlen, numel_singleton.
Qed.

Section CallTargetsLayout.

Context {R : Type} `{Scalar R} `{External R (Items R)}.

(** X1.  On a loaded index of at least [_k] candidates, [call_targets] keeps the
    first column of the predictions it is given, appends the [_k] top
    scores of the queries found in the context, and pairs them with targets
    of the same shape: a one followed by [_k] zeros in every row. *)
Theorem BruteForceTopK_call_targets_layout
    (self : BruteForceTopK) (context : dict (tensor R)) (outputs : PredictionOutput)
    (candidates : tensor R) (identifiers : tensor Z) (queries : tensor R) (b c d n : nat) :
  getitem context "query" = Ok queries ->
  _candidates self = Some candidates ->
  _identifiers self = Some identifiers ->
  shape candidates = [n; d] ->
  shape identifiers = [n] ->
  wf identifiers ->
  shape queries = [b; d] ->
  _k self <= n ->
  shape (output_predictions outputs) = [b; c] ->
  wf (output_predictions outputs) ->
  0 < c ->
  exists top_scores top_ids result,
    BruteForceTopK_call self queries None = Ok (top_scores, top_ids) /\
    BruteForceTopK_call_targets self context outputs = Ok result /\
    shape (output_predictions result) = [b; 1 + _k self] /\
    shape (output_targets result) = [b; 1 + _k self] /\
    rows (output_predictions result) =
      zip_with (fun given top => firstn 1 given ++ top)
        (rows (output_predictions outputs)) (rows top_scores) /\
    rows (output_targets result) = repeat (rone :: repeat rzero (_k self)) b.
Proof.
  intros Hq Hc Hi Hsc Hsi Hwf Hsq Hk Hsp Hwfp Hcpos.
  destruct (BruteForceTopK_call_rows self candidates identifiers queries None b d n (_k self)
              Hc Hi Hsc Hsi Hwf Hsq eq_refl Hk)
    as (top_scores & top_ids & Hcall & Hstop & _ & Hrtop & _).
  destruct (take_column0_matrix (output_predictions outputs) b c Hsp Hcpos Hwfp)
    as (Hcol & Hrcol & Hone).
  set (column := mkTensor [b] (concat (map (firstn 1) (rows (output_predictions outputs))))) in *.
  assert (Hktop : Forall (fun r => length r = _k self) (rows top_scores)).
  { rewrite Hrtop, Forall_map, Forall_forall. intros q _.
    rewrite length_map. apply top_k_row_length.
    rewrite length_map, rows_length, Hsc. simpl. now rewrite Nat.mul_1_r. }
  destruct (concat_last_matrices (tf_expand_dims_last column) top_scores b 1 (_k self)
              eq_refl Hstop) as (out & Hout & Hsout & Hrout).
  { now rewrite Hrcol. }
  { exact Hktop. }
  destruct (targets_layout (R := R) b (_k self)) as (tgt & Htgt & Hstgt & Hrtgt).
  exists top_scores, top_ids, (mkPredictionOutput out tgt).
  split; [exact Hcall|]. split; [|split; [|split; [|split]]].
  - unfold BruteForceTopK_call_targets.
    rewrite Hq. cbn [bind]. rewrite Hcall. cbn [bind]. rewrite Hcol. cbn [bind].
    unfold tf_concat at 1. simpl orb. fold column. rewrite Hout. cbn [bind].
    unfold dim. rewrite Hsout. cbn [nth_error bind]. now rewrite Htgt.
  - exact Hsout.
  - exact Hstgt.
  - cbn [output_predictions]. rewrite Hrout, Hrcol.
    generalize (rows (output_predictions outputs)) (rows top_scores).
    intros l1; induction l1 as [|a l1 IH]; intros [|t l2]; simpl; auto. now rewrite IH.
  - exact Hrtgt.
Qed.

(** X2.  [call_targets] reads the queries before anything else and needs a
    loaded index: without a "query" entry in the context it raises a
    [KeyError]; with one, on an object whose [load_index] has not run, it
    raises the [ValueError] of [call], whatever the predictions are. *)
Theorem BruteForceTopK_call_targets_errors
    (self : BruteForceTopK) (context : dict (tensor R)) (outputs : PredictionOutput) :
  (dict_get context "query" = None ->
   BruteForceTopK_call_targets self context outputs = Raise (KeyError "query")) /\
  (forall queries,
      dict_get context "query" = Some queries ->
      _candidates self = None ->
      BruteForceTopK_call_targets self context outputs =
      Raise (ValueError "load_index should be called before")).
Proof.
  split.
  - intros Hq. unfold BruteForceTopK_call_targets, getitem. now rewrite Hq.
  - intros queries Hq Hc.
    unfold BruteForceTopK_call_targets, getitem, BruteForceTopK_call. now rewrite Hq, Hc.
Qed.

(** X3.  [TopKRecommender.__init__] cannot complete: it loads the index through
    [load_from_dataset], which raises [NotImplementedError].  Whatever the
    retrieval model returns, no recommender is built. *)
Theorem TopKRecommender_init_never_succeeds {D Q : Type}
    (item_embeddings : result D) (query_block : result Q) (k : option nat) :
  (forall recommender,
      TopKRecommender_init (R := R) item_embeddings query_block k <> Ok recommender) /\
  (forall data block,
      item_embeddings = Ok data ->
      query_block = Ok block ->
      TopKRecommender_init (R := R) item_embeddings query_block k =
      Raise (PyException "NotImplementedError")).
Proof.
  split.
  - intros recommender. unfold TopKRecommender_init.
    destruct item_embeddings; [|discriminate].
    destruct query_block; discriminate.
  - intros data block -> ->. reflexivity.
Qed.

End CallTargetsLayout.

Section DefaultIdentifiers.

Context {R : Type} `{Scalar R} `{External R (Items R)}.

Lemma nth_tf_range n p : p < n -> nth p (flat (tf_range n)) 0%Z = Z.of_nat p.
Proof.
  intros Hp. unfold tf_range. simpl.
  rewrite (nth_indep _ 0%Z (Z.of_nat 0)) by now rewrite length_map, length_seq.
  now rewrite map_nth, seq_nth.
Qed.

(** X4.  An index loaded without ids answers with positions: the identifier
    returned beside each score is the row number, in the embeddings matrix,
    of the candidate whose dot product with the query is that score. *)
Theorem load_index_default_call_positions
    (self0 self : BruteForceTopK) (emb queries : tensor R) (kopt : option nat) (b d n : nat) :
  load_index emb None self0 = (Ok tt, self) ->
  shape emb = [n; d] ->
  shape queries = [b; d] ->
  match kopt with Some k => k | None => _k self end <= n ->
  exists top_scores top_ids positions,
    BruteForceTopK_call self queries kopt = Ok (top_scores, top_ids) /\
    rows top_ids = map (map Z.of_nat) positions /\
    length positions = b /\
    Forall2
      (fun q found =>
         Forall2 (fun p s => nth_error (map (dot q) (rows emb)) p = Some s)
           (fst found) (snd found))
      (rows queries) (combine positions (rows top_scores)).
Proof.
  intros Hload Hse Hsq Hk.
  destruct (load_index_default_identifiers self0 self emb n d Hse Hload)
    as (Hc & Hi & Hsi & Hwf).
  set (k := match kopt with Some k => k | None => _k self end) in *.
  destruct (BruteForceTopK_call_rows self emb (tf_range n) queries kopt b d n k
              Hc Hi Hse Hsi Hwf Hsq eq_refl Hk)
    as (top_scores & top_ids & Hcall & _ & _ & Hrs & Hri).
  exists top_scores, top_ids,
    (map (fun q => map fst (top_k_row k (map (dot q) (rows emb)))) (rows queries)).
  split; [exact Hcall|]. split; [|split].
  - rewrite Hri, map_map. apply map_ext. intros q.
    apply map_ext_in. intros p Hp. apply nth_tf_range.
    apply top_k_row_positions in Hp.
    rewrite length_map, rows_length, Hse in Hp. simpl in Hp. lia.
  - rewrite length_map, rows_length, Hsq. apply numel_singleton.
  - rewrite Hrs. generalize (rows queries).
    intros qs; induction qs as [|q qs IH]; simpl; constructor; [|exact IH].
    simpl. apply Forall2_map_fst_snd. intros p s. apply top_k_row_In.
Qed.

(** X5.  What [load_index] stores for an ids tensor it accepts: a single id is
    kept when it is not zero; a single zero, like an empty tensor, counts as
    no ids at all and is replaced by [0 .. n-1]. *)
Theorem load_index_small_ids (self : BruteForceTopK) (emb : tensor R) (ids : tensor Z) :
  rank emb = 2 ->
  (forall x,
      flat ids = [x] ->
      load_index emb (Some ids) self =
      (Ok tt, {| _k := _k self;
                 _candidates := Some emb;
                 _identifiers :=
                   Some (if Z.eqb x 0 then tf_range (hd 0 (shape emb)) else ids) |})) /\
  (flat ids = [] ->
   load_index emb (Some ids) self =
   (Ok tt, {| _k := _k self;
              _candidates := Some emb;
              _identifiers := Some (tf_range (hd 0 (shape emb))) |})).
Proof.
  intros He. apply Nat.eqb_eq in He. split.
  - intros x Hx. unfold load_index, not_candidates_ids, tensor_bool.
    rewrite He, Hx. simpl. now destruct (Z.eqb x 0).
  - intros Hx. unfold load_index, not_candidates_ids, tensor_bool.
    now rewrite He, Hx.
Qed.

End DefaultIdentifiers.

(** ** ContrastiveDotProduct and DotProductCategoricalPrediction *)

Section HeadProperties.

Context {R : Type} `{Scalar R} `{External R (Items R)}.

(** X6.  Where [get_id_and_embedding] finds the ids: an entry [<key>_id] of the
    inputs wins over the feature column, which is read only when the inputs
    have no such entry; a missing embedding is a [KeyError] on [key] whatever
    ids there are, and ids found nowhere are a [KeyError] on the feature
    name. *)
Theorem get_id_and_embedding_precedence
    (key feature_name : string) (inputs features : TabularData (R := R)) :
  (dict_get (embeddings inputs) key = None ->
   get_id_and_embedding key feature_name inputs features = Raise (KeyError key)) /\
  (forall emb ids,
      dict_get (embeddings inputs) key = Some emb ->
      dict_get (id_columns inputs) (key ++ "_id")%string = Some ids ->
      get_id_and_embedding key feature_name inputs features = Ok (ids, emb)) /\
  (forall emb,
      dict_get (embeddings inputs) key = Some emb ->
      dict_get (id_columns inputs) (key ++ "_id")%string = None ->
      get_id_and_embedding key feature_name inputs features =
      match dict_get (id_columns features) feature_name with
      | Some ids => Ok (ids, emb)
      | None => Raise (KeyError feature_name)
      end).
Proof.
  split; [|split].
  - intros He. unfold get_id_and_embedding, getitem. now rewrite He.
  - intros emb ids He Hi. unfold get_id_and_embedding, getitem, dict_has.
    now rewrite He, Hi.
  - intros emb He Hi. unfold get_id_and_embedding, getitem, dict_has.
    rewrite He, Hi. simpl. now destruct (dict_get (id_columns features) feature_name).
Qed.

Lemma sample_loop_log samplers (positive_items : Items R) features training testing :
  Forall (fun s => shape (Items_id (sample s positive_items features training testing)) <> [])
         samplers ->
  fst (sample_loop samplers positive_items features training testing) =
  map (fun s => ("The sampler " ++ sampler_name s
                 ++ " returned no samples for this batch.")%string)
    (filter (fun s => negb (returns_items (sample s positive_items features training testing)))
       samplers).
Proof.
  induction 1 as [|s samplers Hs _ IH]; simpl; auto.
  unfold dim, returns_items.
  destruct (shape (Items_id (sample s positive_items features training testing)))
    as [|n rest]; [congruence|]. simpl.
  destruct (sample_loop samplers positive_items features training testing) as [log r].
  simpl in IH. subst log.
  destruct (0 <? n); reflexivity.
Qed.

(** X7.  [sample_negatives] logs one warning for every sampler that returned no
    items, naming it, in sampler order, and keeps the result of every other
    sampler: warnings and kept results together are as many as the
    samplers. *)
Theorem sample_negatives_warnings
    (self : ContrastiveDotProduct) (positive_items : Items R) features training testing :
  Forall (fun s => shape (Items_id (sample s positive_items features training testing)) <> [])
         (negative_samplers self) ->
  fst (sample_negatives self positive_items features training testing) =
    map (fun s => ("The sampler " ++ sampler_name s
                   ++ " returned no samples for this batch.")%string)
      (filter (fun s => negb (returns_items (sample s positive_items features training testing)))
         (negative_samplers self)) /\
  length (fst (sample_negatives self positive_items features training testing)) +
  length (filter returns_items
            (map (fun s => sample s positive_items features training testing)
               (negative_samplers self))) =
  length (negative_samplers self).
Proof.
  intros Hall.
  pose proof (sample_loop_log _ positive_items features training testing Hall) as Hlog.
  assert (Hfst : fst (sample_negatives self positive_items features training testing) =
                 fst (sample_loop (negative_samplers self) positive_items features
                        training testing)).
  { unfold sample_negatives. now destruct (sample_loop _ _ _ _ _). }
  rewrite Hfst, Hlog. split; [reflexivity|].
  rewrite length_map. clear.
  induction (negative_samplers self) as [|s l IH]; simpl; auto.
  destruct (returns_items (sample s positive_items features training testing));
    simpl; lia.
Qed.

(** X8.  Without samplers there are no negatives: when [has_negative_samplers]
    is false, [sample_negatives] raises; so whenever it returns items,
    [has_negative_samplers] is true. *)
Theorem sample_negatives_needs_samplers
    (self : ContrastiveDotProduct) (positive_items : Items R) features training testing :
  (has_negative_samplers self = false ->
   sample_negatives self positive_items features training testing =
   ([], Raise (AttributeError "samplers"))) /\
  (forall negatives,
      snd (sample_negatives self positive_items features training testing) = Ok negatives ->
      has_negative_samplers self = true).
Proof.
  assert (Hnone : has_negative_samplers self = false ->
                  sample_negatives self positive_items features training testing =
                  ([], Raise (AttributeError "samplers"))).
  { unfold has_negative_samplers, sample_negatives.
    destruct (negative_samplers self); [reflexivity|discriminate]. }
  split; [exact Hnone|].
  intros negatives Hok.
  destruct (has_negative_samplers self) eqn:E; [reflexivity|].
  rewrite (Hnone eq_refl) in Hok. discriminate.
Qed.

(** X9.  A batch on which every sampler comes back empty stops [call]: with the
    embeddings and ids in place, [ContrastiveDotProduct.call] raises what
    [sample_negatives] raises and builds no prediction. *)
Theorem ContrastiveDotProduct_call_without_negatives
    (self : ContrastiveDotProduct) (inputs features : TabularData (R := R))
    (training testing : bool)
    (query_id pos_item_id : tensor Z) (query_emb pos_item_emb : tensor R) :
  get_id_and_embedding (query_name (dot_product self)) (query_id_name self) inputs features
    = Ok (query_id, query_emb) ->
  get_id_and_embedding (item_name (dot_product self)) (item_id_name self) inputs features
    = Ok (pos_item_id, pos_item_emb) ->
  Forall (fun s => exists rest,
            shape (Items_id (sample s (mkItems pos_item_id pos_item_emb) features
                               training testing)) = 0 :: rest)
         (negative_samplers self) ->
  ContrastiveDotProduct_call self inputs features training testing =
  Raise (AttributeError "samplers").
Proof.
  intros Hq Hi Hall.
  destruct (sample_loop_all_empty _ (mkItems pos_item_id pos_item_emb) features
              training testing Hall) as [Hr _].
  unfold ContrastiveDotProduct_call. rewrite Hq. cbn [bind]. rewrite Hi. cbn [bind].
  unfold sample_negatives.
  destruct (sample_loop (negative_samplers self) (mkItems pos_item_id pos_item_emb)
              features training testing) as [log r].
  simpl in Hr. subst r. reflexivity.
Qed.

End HeadProperties.

Section CategoricalPredictionProperties.

Context {R : Type} `{Scalar R} `{External R (Items R)} {V : Type}.

(** With rescoring off, the prediction holds the dot products as they are. *)
Lemma call_without_rescoring
    (self : ContrastiveDotProduct) (inputs features : TabularData (R := R))
    (training testing : bool)
    (query_id pos_item_id : tensor Z) (query_emb pos_item_emb : tensor R)
    (neg_items : Items R) (b d n : nat) :
  downscore_false_negatives self = false ->
  get_id_and_embedding (query_name (dot_product self)) (query_id_name self) inputs features
    = Ok (query_id, query_emb) ->
  get_id_and_embedding (item_name (dot_product self)) (item_id_name self) inputs features
    = Ok (pos_item_id, pos_item_emb) ->
  snd (sample_negatives self (mkItems pos_item_id pos_item_emb) features training testing)
    = Ok neg_items ->
  shape query_emb = [b; d] ->
  shape pos_item_emb = [b; d] ->
  shape (Items_embedding neg_items) = [n; d] ->
  exists prediction,
    ContrastiveDotProduct_call self inputs features training testing = Ok prediction /\
    rows (outputs prediction) =
      zip_with (fun positive negatives => map (rcast float32) (positive :: negatives))
        (zip_with dot (rows query_emb) (rows pos_item_emb))
        (map (fun q => map (dot q) (rows (Items_embedding neg_items))) (rows query_emb)).
Proof.
  intros Hflag Hq Hi Hsample Hsq Hsi Hsn.
  pose proof (get_id_and_embedding_inv _ _ _ _ _ _ Hq) as Hgq.
  pose proof (get_id_and_embedding_inv _ _ _ _ _ _ Hi) as Hgi.
  destruct (inner_product_rows query_emb pos_item_emb [b] d Hsq Hsi)
    as (positive & Hpos & Hspos & Hrpos).
  rewrite <- (DotProduct_call_unfold (dot_product self) inputs _ _ Hgq Hgi) in Hpos.
  destruct (matmul_transpose_b_rows query_emb (Items_embedding neg_items) b n d Hsq Hsn)
    as [Hmm Hrmm].
  set (scores := map (fun q => map (dot q) (rows (Items_embedding neg_items)))
                   (rows query_emb)) in *.
  assert (Hrows : Forall (fun r => length r = n) scores).
  { unfold scores. rewrite Forall_map, Forall_forall. intros q _.
    rewrite length_map, rows_length, Hsn. apply numel_singleton. }
  assert (Hrp : Forall (fun r => length r = 1) (rows positive)).
  { rewrite Hrpos, zip_with_singleton, Forall_map. now apply Forall_forall. }
  destruct (concat_last_matrices positive (of_rows [b] n scores) b 1 n Hspos eq_refl Hrp)
    as (out & Hout & Hsout & Hrout).
  { now rewrite Hrmm. }
  destruct (targets_layout (R := R) b n) as (tgt & Htgt & Hstgt & Hrtgt).
  exists (mkPrediction (tf_cast float32 out) tgt). split.
  - unfold ContrastiveDotProduct_call.
    rewrite Hq. cbn [bind]. rewrite Hi. cbn [bind]. rewrite Hsample. cbn [bind].
    rewrite Hpos. cbn [bind]. rewrite Hmm. cbn [bind].
    unfold downscore. rewrite Hflag. cbn [bind].
    unfold tf_concat at 1. simpl orb. rewrite Hout. cbn [bind].
    unfold dim. cbn [shape tf_cast]. rewrite Hsout. cbn [nth_error bind].
    change (1 + n =? 0) with false. cbv iota.
    replace (1 + n - 1) with n by lia. rewrite Htgt. cbn [bind].
    unfold rank. cbn [shape tf_cast]. rewrite Hstgt, Hsout. reflexivity.
  - cbn [outputs]. rewrite rows_cast, Hrout, Hrpos, Hrmm, zip_with_singleton.
    apply cast_positive_negative.
Qed.

(** X10.  The two constructors disagree on rescoring.  A
    [DotProductCategoricalPrediction] built without saying so creates its
    contrastive layer with [downscore_false_negatives=False]: the
    prediction of that layer holds, after the positive score, the dot
    product of the query with every sampled negative, cast to float32, also
    where the negative is the positive item.  A [ContrastiveDotProduct] built
    by itself has rescoring on. *)
Theorem DotProductCategoricalPrediction_default_keeps_scores
    (samplers : list ItemSampler) (query item : option string) (item_id query_id : string)
    (inputs features : TabularData (R := R)) (training testing : bool)
    (query_ids pos_item_id : tensor Z) (query_emb pos_item_emb : tensor R)
    (neg_items : Items R) (b d n : nat) :
  let head :=
    prediction_with_negatives
      (DotProductCategoricalPrediction_init (V := V) samplers None query item
         item_id query_id None None) in
  get_id_and_embedding (query_name (dot_product head)) (query_id_name head) inputs features
    = Ok (query_ids, query_emb) ->
  get_id_and_embedding (item_name (dot_product head)) (item_id_name head) inputs features
    = Ok (pos_item_id, pos_item_emb) ->
  snd (sample_negatives head (mkItems pos_item_id pos_item_emb) features training testing)
    = Ok neg_items ->
  shape query_emb = [b; d] ->
  shape pos_item_emb = [b; d] ->
  shape (Items_embedding neg_items) = [n; d] ->
  (exists prediction,
      ContrastiveDotProduct_call head inputs features training testing = Ok prediction /\
      rows (outputs prediction) =
        zip_with (fun positive negatives => map (rcast float32) (positive :: negatives))
          (zip_with dot (rows query_emb) (rows pos_item_emb))
          (map (fun q => map (dot q) (rows (Items_embedding neg_items))) (rows query_emb))) /\
  downscore_false_negatives
    (ContrastiveDotProduct_init samplers None None query item item_id query_id) = true.
Proof.
  intros head Hq Hi Hsample Hsq Hsi Hsn. split; [|reflexivity].
  now apply (call_without_rescoring head inputs features training testing
               query_ids pos_item_id query_emb pos_item_emb neg_items b d n).
Qed.

(** X11.  [compile] called without [downscore_false_negatives] switches
    rescoring off, also on a head built with it on, and leaves the samplers
    alone: on a batch for which the head found negatives before, the
    compiled head returns a prediction whose rows are the positive score
    followed by the dot product of the query with every sampled negative,
    cast to float32, with no score replaced. *)
Theorem compile_turns_rescoring_off
    (self : DotProductCategoricalPrediction V) (sampling : option V)
    (inputs features : TabularData (R := R)) (training testing : bool)
    (query_ids pos_item_id : tensor Z) (query_emb pos_item_emb : tensor R)
    (neg_items : Items R) (b d n : nat) :
  let before := prediction_with_negatives self in
  let compiled :=
    prediction_with_negatives (DotProductCategoricalPrediction_compile sampling None self) in
  get_id_and_embedding (query_name (dot_product before)) (query_id_name before)
    inputs features = Ok (query_ids, query_emb) ->
  get_id_and_embedding (item_name (dot_product before)) (item_id_name before)
    inputs features = Ok (pos_item_id, pos_item_emb) ->
  snd (sample_negatives before (mkItems pos_item_id pos_item_emb) features training testing)
    = Ok neg_items ->
  shape query_emb = [b; d] ->
  shape pos_item_emb = [b; d] ->
  shape (Items_embedding neg_items) = [n; d] ->
  exists prediction,
    ContrastiveDotProduct_call compiled inputs features training testing = Ok prediction /\
    rows (outputs prediction) =
      zip_with (fun positive negatives => map (rcast float32) (positive :: negatives))
        (zip_with dot (rows query_emb) (rows pos_item_emb))
        (map (fun q => map (dot q) (rows (Items_embedding neg_items))) (rows query_emb)).
Proof.
  intros before compiled Hq Hi Hsample Hsq Hsi Hsn.
  apply (call_without_rescoring compiled inputs features training testing
           query_ids pos_item_id query_emb pos_item_emb neg_items b d n).
  - reflexivity.
  - exact Hq.
  - exact Hi.
  - exact Hsample.
  - exact Hsq.
  - exact Hsi.
  - exact Hsn.
Qed.

Lemma returns_items_nonscalar (items : Items R) :
  returns_items items = true -> shape (Items_id items) <> [].
Proof. unfold returns_items. destruct (shape (Items_id items)); congruence. Qed.

(** X12.  [add_sampler] puts the sampler after those already there, and sampling
    then uses it: on a batch where the earlier samplers find nothing and the
    new one returns items, [sample_negatives] returns exactly the new
    sampler's items. *)
Theorem add_sampler_used_by_sampling
    (self : DotProductCategoricalPrediction V) (sampler : ItemSampler)
    (positive_items : Items R) features training testing :
  Forall (fun s => exists rest,
            shape (Items_id (sample s positive_items features training testing)) = 0 :: rest)
         (negative_samplers (prediction_with_negatives self)) ->
  returns_items (sample sampler positive_items features training testing) = true ->
  negative_samplers (prediction_with_negatives (add_sampler sampler self)) =
    negative_samplers (prediction_with_negatives self) ++ [sampler] /\
  snd (sample_negatives (prediction_with_negatives (add_sampler sampler self))
         positive_items features training testing) =
    Ok (sample sampler positive_items features training testing).
Proof.
  intros Hold Hnew. split; [reflexivity|].
  apply sample_negatives_some_items with (others := []).
  - cbn [add_sampler prediction_with_negatives set_negative_samplers negative_samplers].
    apply Forall_app. split.
    + eapply Forall_impl; [|exact Hold]. intros s [rest Hs]. rewrite Hs. discriminate.
    + constructor; [|constructor]. now apply returns_items_nonscalar.
  - cbn [add_sampler prediction_with_negatives set_negative_samplers negative_samplers].
    rewrite map_app, filter_app. simpl. rewrite Hnew.
    assert (Hnone : filter returns_items
                      (map (fun s => sample s positive_items features training testing)
                         (negative_samplers (prediction_with_negatives self))) = []).
    { clear - Hold. induction Hold as [|s l [rest Hs] _ IH]; simpl; auto.
      unfold returns_items at 1. now rewrite Hs. }
    now rewrite Hnone.
Qed.

End CategoricalPredictionProperties.

(** ** Aggregations: results and failures *)

Lemma zip_with_app_uniform {A} n d1 d2 (l1 l2 : list (list A)) :
  length l1 = n -> Forall (fun r => length r = d1) l1 ->
  length l2 = n -> Forall (fun r => length r = d2) l2 ->
  length (zip_with (@app A) l1 l2) = n /\
  Forall (fun r => length r = d1 + d2) (zip_with (@app A) l1 l2).
Proof.
  intros H1 F1 H2 F2. split.
  - rewrite zip_with_length, H1, H2. apply Nat.min_id.
  - clear H1 H2. revert l2 F2.
    induction F1 as [|r l1 Hr _ IH]; intros [|r' l2] F2; simpl; constructor.
    + inversion F2 as [|? ? Hr' _]. now rewrite length_app, Hr, Hr'.
    + apply IH. now inversion F2.
Qed.

Lemma row_concat_uniform {A} n (rss : list (list (list A))) (ds : list nat) :
  Forall2 (fun rs d => length rs = n /\ Forall (fun r => length r = d) rs) rss ds ->
  length (row_concat n rss) = n /\
  Forall (fun r => length r = list_sum ds) (row_concat n rss).
Proof.
  induction 1 as [|rs d rss ds [Hn Hd] _ [IHn IHd]]; simpl.
  - split; [apply repeat_length|].
    apply Forall_forall. intros r Hr. apply repeat_spec in Hr. now subst.
  - now apply zip_with_app_uniform.
Qed.

Lemma list_sum_permutation (l1 l2 : list nat) :
  Permutation l1 l2 -> list_sum l1 = list_sum l2.
Proof. induction 1; simpl; lia. Qed.

(** [tf.concat] along the last axis of tensors that agree on the other
    axes. *)
Lemma concat_last_shape {A} (s : list nat) (t : tensor A) (ts : list (tensor A)) :
  Forall (fun u => wf u /\ exists d, shape u = s ++ [d]) (t :: ts) ->
  exists out,
    tf_concat_last (t :: ts) = Ok out /\
    shape out = s ++ [list_sum (map (fun u => last (shape u) 0) (t :: ts))] /\
    wf out.
Proof.
  intros Hall.
  assert (Hlead : forallb (same_leading s) (t :: ts) = true).
  { apply forallb_forall. intros u Hu. rewrite Forall_forall in Hall.
    destruct (Hall u Hu) as [_ [d Hs]]. unfold same_leading. rewrite Hs.
    destruct (s ++ [d]) eqn:E; [now destruct s|].
    rewrite <- E, removelast_last. apply shape_eqb_refl. }
  assert (Hs : removelast (shape t) = s).
  { inversion Hall as [|? ? [_ [d Hd]] _]. now rewrite Hd, removelast_last. }
  unfold tf_concat_last. rewrite Hs, Hlead.
  eexists; split; [reflexivity|]. split; [reflexivity|].
  assert (Hrows : Forall2 (fun rs d => length rs = numel s /\ Forall (fun r => length r = d) rs)
                    (map rows (t :: ts)) (map (fun u => last (shape u) 0) (t :: ts))).
  { clear - Hall. induction Hall as [|u us [Hwf [d Hd]] _ IH]; simpl; constructor; auto.
    split.
    - now rewrite rows_length, Hd, removelast_last.
    - unfold rows. rewrite Hd, removelast_last, !last_last.
      apply chunks_Forall_length. unfold wf in Hwf.
      rewrite Hwf, Hd, numel_app. lia. }
  destruct (row_concat_uniform _ _ _ Hrows) as [Hn Hd].
  now apply of_rows_wf.
Qed.

Section AggregationResults.

Context {R : Type} `{Scalar R} `{External R (Items R)}.

(** X13.  The shape check passes exactly on a non-empty mapping whose tensors all
    have one shape; what it raises otherwise is the [ValueError]. *)
Theorem check_input_shapes_equal_spec (inputs : dict (tensor R)) :
  (_check_input_shapes_equal inputs = Ok tt <->
   inputs <> [] /\ shapes_all_equal inputs) /\
  (forall e,
      _check_input_shapes_equal inputs = Raise e ->
      e = ValueError
            "The shapes of all input features are not equal, which is required for element-wise aggregation").
Proof.
  unfold _check_input_shapes_equal. split.
  - rewrite <- all_input_shapes_equal_iff.
    destruct (all_input_shapes_equal inputs); split; congruence.
  - intros e. destruct (all_input_shapes_equal inputs); congruence.
Qed.

(** X14.  [ConcatFeatures.call] on features that agree on all axes but the last:
    the result keeps those axes, its last axis is as long as the last axes
    of the features together, and it holds that many elements. *)
Theorem ConcatFeatures_call_shape
    (self : ConcatFeatures) (inputs m' : dict (tensor R)) (s : list nat) :
  expand_non_sequential_features inputs = (Ok tt, m') ->
  check_concat_shapes m' = Ok tt ->
  m' <> [] ->
  Forall (fun t => wf t /\ exists d, shape t = s ++ [d]) (values m') ->
  exists out,
    ConcatFeatures_call self inputs = (Ok out, m') /\
    shape out = s ++ [list_sum (map (fun t => last (shape t) 0) (values m'))] /\
    wf out.
Proof.
  intros Hexp Hcheck Hne Hall.
  set (cast := fun kv : string * tensor R => tf_cast (concat_output_dtype self) (snd kv)).
  assert (Hcast : Forall (fun u => wf u /\ exists d, shape u = s ++ [d])
                    (map cast (sorted_items m'))).
  { rewrite Forall_map.
    eapply Permutation_Forall; [symmetry; apply sorted_items_perm|].
    unfold values in Hall. rewrite Forall_map in Hall.
    eapply Forall_impl; [|exact Hall]. intros kv [Hwf Hs]. split; [|exact Hs].
    unfold wf, cast, tf_cast in *. simpl. now rewrite length_map. }
  assert (Hsum : list_sum (map (fun u => last (shape u) 0) (map cast (sorted_items m'))) =
                 list_sum (map (fun t => last (shape t) 0) (values m'))).
  { rewrite map_map. unfold values. rewrite map_map.
    apply list_sum_permutation, Permutation_map, sorted_items_perm. }
  destruct (map cast (sorted_items m')) as [|u us] eqn:El.
  { apply (f_equal (@length _)) in El.
    rewrite length_map, (Permutation_length (sorted_items_perm m')) in El.
    destruct m'; [congruence|discriminate]. }
  destruct (concat_last_shape s u us Hcast) as (out & Hout & Hshape & Hwf).
  exists out. split; [|split; [|exact Hwf]].
  - unfold ConcatFeatures_call, mbind, get_state, lift. rewrite Hexp, Hcheck.
    fold cast. rewrite El. unfold tf_concat. simpl orb. now rewrite Hout.
  - now rewrite Hshape, Hsum.
Qed.

(** X15.  Aggregating nothing.  On a mapping that is empty once expanded,
    [ConcatFeatures.call] raises, while [StackFeatures.call] along axis 0
    returns the empty vector when the concat check lets it through;
    [AddLeft.call] on a mapping that holds the left feature only raises,
    having emptied the mapping by then. *)
Theorem aggregation_of_nothing :
  (forall (self : ConcatFeatures) (inputs : dict (tensor R)),
      expand_non_sequential_features inputs = (Ok tt, []) ->
      exists e, ConcatFeatures_call self inputs = (Raise e, [])) /\
  (forall (self : StackFeatures) (inputs : dict (tensor R)),
      expand_non_sequential_features inputs = (Ok tt, []) ->
      check_concat_shapes [] = Ok tt ->
      stack_axis self = 0%Z ->
      StackFeatures_call self inputs = (Ok (mkTensor [0] []), [])) /\
  (forall (self : AddLeft) (left : tensor R),
      expand_non_sequential_features [] = (Ok tt, []) ->
      exists e, AddLeft_call self [(left_name self, left)] = (Raise e, [])).
Proof.
  assert (Hconcat : forall (self : ConcatFeatures) (inputs : dict (tensor R)),
             expand_non_sequential_features inputs = (Ok tt, []) ->
             exists e, ConcatFeatures_call self inputs = (Raise e, [])).
  { intros self inputs Hexp. unfold ConcatFeatures_call, mbind, get_state, lift.
    rewrite Hexp. destruct (check_concat_shapes []); simpl; eauto. }
  split; [exact Hconcat|]. split.
  - intros self inputs Hexp Hcheck Haxis.
    unfold StackFeatures_call, mbind, get_state, lift.
    rewrite Hexp, Hcheck. unfold tf_stack. rewrite Haxis. reflexivity.
  - intros self left Hexp. unfold AddLeft_call, mbind at 1, pop. simpl.
    rewrite String.eqb_refl. simpl.
    unfold mbind at 1, lift at 1.
    destruct (shape left); [eauto|].
    destruct (Hconcat (concat_ self) [] Hexp) as [e He].
    unfold mbind. rewrite He. eauto.
Qed.

End AggregationResults.

Lemma keys_dict_remove {V} (m : dict V) k :
  keys (dict_remove m k) = filter (fun k' => negb (String.eqb k' k)) (keys m).
Proof.
  induction m as [|[k' v] m IH]; simpl; auto.
  destruct (String.eqb k' k); simpl; now rewrite IH.
Qed.

Lemma dict_set_fresh {V} (m : dict V) k v :
  ~ In k (keys m) -> dict_set m k v = m ++ [(k, v)].
Proof.
  induction m as [|[k' v'] m IH]; simpl; intros Hk; auto.
  destruct (String.eqb k' k) eqn:E.
  - apply String.eqb_eq in E. tauto.
  - rewrite IH; tauto.
Qed.

Section SumResults.

Context {R : Type} `{Scalar R} `{External R (Items R)}.

(** X16.  [Sum.call] returns a tensor exactly when the tensors of the mapping all
    have one shape: an empty mapping gives the scalar zero, tensors of
    different shapes cannot be packed.  The mapping itself is never
    changed. *)
Theorem Sum_call_succeeds_iff (inputs : dict (tensor R)) :
  snd (Sum_call inputs) = inputs /\
  ((exists t, fst (Sum_call inputs) = Ok t) <-> shapes_all_equal inputs) /\
  (inputs = [] -> fst (Sum_call inputs) = Ok (mkTensor [] [rzero])) /\
  (~ shapes_all_equal inputs ->
   fst (Sum_call inputs) = Raise (InvalidArgumentError "Pack")).
Proof.
  rewrite Sum_call_value. cbn [fst snd].
  assert (Hmixed : ~ shapes_all_equal inputs ->
                   match values inputs with
                   | [] => Ok (mkTensor [] [rzero])
                   | t :: ts => (stacked <- tf_stack0 (t :: ts) ;; tf_reduce_sum_axis0 stacked)
                   end = Raise (InvalidArgumentError "Pack")).
  { intros Hne. destruct (values inputs) as [|t ts] eqn:E.
    - exfalso. apply Hne. intros t1 t2 H1. rewrite E in H1. contradiction.
    - rewrite stack0_mixed_shapes; [reflexivity|].
      intros Hall. apply Hne. intros t1 t2 H1 H2. rewrite E in H1, H2.
      now rewrite (Hall t1 H1), (Hall t2 H2). }
  assert (Hsame : shapes_all_equal inputs ->
                  exists t, match values inputs with
                            | [] => Ok (mkTensor [] [rzero])
                            | t :: ts =>
                                (stacked <- tf_stack0 (t :: ts) ;; tf_reduce_sum_axis0 stacked)
                            end = Ok t).
  { intros Hall. destruct (values inputs) as [|t ts] eqn:E; [eauto|].
    rewrite (stack0_same_shape (shape t)).
    - cbn [bind]. unfold tf_reduce_sum_axis0. simpl. eauto.
    - apply Forall_forall. intros u Hu. apply Hall; rewrite E; [exact Hu|now left]. }
  split; [reflexivity|]. split; [|split].
  - split; [|exact Hsame].
    intros [t Ht].
    destruct (values inputs) as [|t0 ts] eqn:E.
    + intros t1 t2 H1. rewrite E in H1. contradiction.
    + destruct (Forall_dec (fun u => shape u = shape t0)
                  (fun u => list_eq_dec Nat.eq_dec (shape u) (shape t0)) (t0 :: ts))
        as [Hall|Hnot].
      * rewrite Forall_forall in Hall. intros t1 t2 H1 H2. rewrite E in H1, H2.
        now rewrite (Hall t1 H1), (Hall t2 H2).
      * rewrite stack0_mixed_shapes in Ht; [discriminate|].
        intros Hall. apply Hnot. now apply Forall_forall.
  - intros ->. reflexivity.
  - exact Hmixed.
Qed.

Lemma residual_loop_result (self : SumResidual) (shortcut : tensor R) s :
  wf shortcut ->
  shape shortcut = s ->
  forall items outputs,
    NoDup (keys outputs ++ keys items) ->
    Forall (fun t => wf t /\ shape t = s) (values items) ->
    residual_loop self shortcut items outputs =
    Ok (outputs ++
        map (fun kv =>
               (fst kv,
                match activation self with
                | Some act => act (elementwise_sum s [snd kv; shortcut])
                | None => elementwise_sum s [snd kv; shortcut]
                end)) items).
Proof.
  intros Hwf Hs items. induction items as [|[key val] items IH]; intros outputs Hnd Hall.
  - simpl. now rewrite app_nil_r.
  - simpl in Hall. inversion Hall as [|? ? [Hwv Hsv] Hrest]; subst.
    cbn [residual_loop convert_to_tensor].
    rewrite (stack0_same_shape (shape shortcut)) by (repeat constructor; auto).
    cbn [bind].
    rewrite (reduce_sum_stacked (shape shortcut) [val; shortcut])
      by (repeat constructor; auto).
    cbn [bind].
    assert (Hfresh : ~ In key (keys outputs)).
    { simpl in Hnd. apply NoDup_remove_2 in Hnd.
      intros Hin. apply Hnd. apply in_or_app. now left. }
    rewrite (dict_set_fresh outputs key _ Hfresh), IH.
    + now rewrite <- app_assoc.
    + unfold keys in *. rewrite map_app. simpl. rewrite <- app_assoc. exact Hnd.
    + exact Hrest.
Qed.

(** X17.  What [SumResidual.call] returns when the shortcut and the other
    features all have one shape: every other feature, under its own key and
    in the order of the mapping, replaced by the activation of its
    elementwise sum with the shortcut; the tensor itself when there is a
    single one, the dictionary otherwise (an empty one when the shortcut was
    alone). *)
Theorem SumResidual_call_result
    (self : SumResidual) (inputs : dict (tensor R)) (shortcut : tensor R) (s : list nat) :
  dict_get inputs (shortcut_name self) = Some shortcut ->
  NoDup (keys inputs) ->
  wf shortcut ->
  shape shortcut = s ->
  Forall (fun t => wf t /\ shape t = s) (values (dict_remove inputs (shortcut_name self))) ->
  let outputs :=
    map (fun kv =>
           (fst kv,
            match activation self with
            | Some act => act (elementwise_sum s [snd kv; shortcut])
            | None => elementwise_sum s [snd kv; shortcut]
            end)) (dict_remove inputs (shortcut_name self)) in
  SumResidual_call self inputs =
  (Ok (match outputs with
       | [(_, v)] => AsTensor v
       | _ => AsDict outputs
       end),
   dict_remove inputs (shortcut_name self)).
Proof.
  intros Hget Hnd Hwf Hs Hall outputs.
  unfold SumResidual_call, mbind, pop, get_state, lift, ret. rewrite Hget.
  rewrite (residual_loop_result self shortcut s Hwf Hs _ [] ); [reflexivity| |exact Hall].
  simpl. rewrite keys_dict_remove. now apply NoDup_filter.
Qed.

Lemma residual_loop_mismatch (self : SumResidual) (shortcut : tensor R) :
  forall items outputs,
    (exists t, In t (values items) /\ shape t <> shape shortcut) ->
    residual_loop self shortcut items outputs = Raise (InvalidArgumentError "Pack").
Proof.
  induction items as [|[key val] items IH]; intros outputs [t [Hin Hne]].
  - contradiction.
  - cbn [residual_loop convert_to_tensor].
    destruct (list_eq_dec Nat.eq_dec (shape val) (shape shortcut)) as [Heq|Hneq].
    + rewrite (stack0_same_shape (shape shortcut)) by (repeat constructor; auto).
      cbn [bind]. unfold tf_reduce_sum_axis0 at 1. cbn [shape bind].
      apply IH. exists t. split; [|exact Hne].
      simpl in Hin. destruct Hin as [<-|Hin]; [contradiction|exact Hin].
    + rewrite stack0_mixed_shapes; [reflexivity|].
      intros Hall. apply Hneq. symmetry. apply Hall. right. now left.
Qed.

(** X18.  A feature whose shape differs from the shortcut's makes
    [SumResidual.call] raise, and the shortcut is gone from the caller's
    dictionary all the same: the [pop] is not undone. *)
Theorem SumResidual_call_shape_mismatch
    (self : SumResidual) (inputs : dict (tensor R)) (shortcut : tensor R) :
  dict_get inputs (shortcut_name self) = Some shortcut ->
  (exists t, In t (values (dict_remove inputs (shortcut_name self))) /\
             shape t <> shape shortcut) ->
  SumResidual_call self inputs =
  (Raise (InvalidArgumentError "Pack"), dict_remove inputs (shortcut_name self)).
Proof.
  intros Hget Hbad.
  unfold SumResidual_call, mbind, pop, get_state, lift, ret. rewrite Hget.
  now rewrite (residual_loop_mismatch self shortcut _ [] Hbad).
Qed.

(** X19.  [ElementwiseSumItemMulti.call] with few features besides the item id:
    with none it raises an [IndexError]; with exactly one it multiplies the
    item-id input by that feature as it is, without the stacking and the
    cast that several features go through. *)
Theorem ElementwiseSumItemMulti_call_few_features
    (self : ElementwiseSumItemMulti) (inputs m' : dict (tensor R)) (item_ids : tensor R) :
  get_item_ids_from_inputs inputs = Ok item_ids ->
  expand_non_sequential_features inputs = (Ok tt, m') ->
  all_input_shapes_equal m' = true ->
  (filter (fun kv => negb (String.eqb (fst kv) (item_id_column_name self))) m' = [] ->
   ElementwiseSumItemMulti_call self inputs = (Raise IndexError, m')) /\
  (forall key feature,
      filter (fun kv => negb (String.eqb (fst kv) (item_id_column_name self))) m'
        = [(key, feature)] ->
      ElementwiseSumItemMulti_call self inputs = (tf_multiply item_ids feature, m')).
Proof.
  intros Hids Hexp Hcheck. split.
  - intros Hnone.
    unfold ElementwiseSumItemMulti_call, mbind, get_state, lift, _check_input_shapes_equal.
    now rewrite Hids, Hexp, Hcheck, Hnone.
  - intros key feature Hone.
    unfold ElementwiseSumItemMulti_call, mbind, get_state, lift, _check_input_shapes_equal.
    rewrite Hids, Hexp, Hcheck, Hone. simpl.
    now destruct (tf_multiply item_ids feature).
Qed.

End SumResults.

(** ** The further properties on the examples *)

Lemma BruteForceTopK_call_targets_layout_witness :
  exists result,
    BruteForceTopK_call_targets example_index example_context example_outputs = Ok result /\
    shape (output_predictions result) = [1; 1 + 2] /\
    rows (output_targets result) = repeat (rone :: repeat rzero 2) 1.
Proof.
  destruct (BruteForceTopK_call_targets_layout example_index example_context example_outputs
              example_candidates example_identifiers example_queries 1 3 2 3
              eq_refl eq_refl eq_refl eq_refl eq_refl eq_refl eq_refl)
    as (top_scores & top_ids & result & _ & Hcall & Hshape & _ & _ & Htargets).
  - simpl. lia.
  - reflexivity.
  - reflexivity.
  - lia.
  - exists result. auto.
Defined.

Example BruteForceTopK_call_targets_example :
  BruteForceTopK_call_targets example_index example_context example_outputs =
  Ok {| output_predictions := mkTensor [1; 3] [9; 5; 3]%Z;
        output_targets := mkTensor [1; 3] [1; 0; 0]%Z |}.
Proof. reflexivity. Qed.

Lemma BruteForceTopK_call_targets_errors_witness :
  BruteForceTopK_call_targets example_index [] example_outputs = Raise (KeyError "query") /\
  BruteForceTopK_call_targets (BruteForceTopK_init None) example_context example_outputs =
  Raise (ValueError "load_index should be called before").
Proof.
  split.
  - apply (proj1 (BruteForceTopK_call_targets_errors example_index [] example_outputs)).
    reflexivity.
  - apply (proj2 (BruteForceTopK_call_targets_errors (BruteForceTopK_init None)
                    example_context example_outputs) example_queries); reflexivity.
Defined.

Lemma TopKRecommender_init_never_succeeds_witness :
  TopKRecommender_init (R := Z) (Ok example_candidates) (Ok tt) (Some 5) =
  Raise (PyException "NotImplementedError").
Proof.
  apply (proj2 (TopKRecommender_init_never_succeeds (R := Z)
                  (Ok example_candidates) (Ok tt) (Some 5)) example_candidates tt);
    reflexivity.
Defined.

Lemma load_index_default_call_positions_witness :
  exists top_scores top_ids positions,
    BruteForceTopK_call default_index example_queries None = Ok (top_scores, top_ids) /\
    rows top_ids = map (map Z.of_nat) positions /\
    length positions = 1.
Proof.
  destruct (load_index_default_call_positions (BruteForceTopK_init (Some 2)) default_index
              example_candidates example_queries None 1 2 3 eq_refl eq_refl eq_refl)
    as (top_scores & top_ids & positions & Hcall & Hids & Hlen & _).
  - simpl. lia.
  - exists top_scores, top_ids, positions. auto.
Defined.

Lemma load_index_small_ids_witness :
  load_index single_candidate (Some (mkTensor [1] [0%Z])) (BruteForceTopK_init None) =
    (Ok tt, single_index) /\
  load_index single_candidate (Some (mkTensor [0] [])) (BruteForceTopK_init None) =
    (Ok tt, single_index).
Proof.
  destruct (load_index_small_ids (BruteForceTopK_init None) single_candidate
              (mkTensor [1] [0%Z]) eq_refl) as [Hone _].
  destruct (load_index_small_ids (BruteForceTopK_init None) single_candidate
              (mkTensor [0] []) eq_refl) as [_ Hnone].
  split.
  - exact (Hone 0%Z eq_refl).
  - exact (Hnone eq_refl).
Defined.

Lemma get_id_and_embedding_precedence_witness :
  get_id_and_embedding "item" "item_id" batch_with_ids example_features =
    Ok (mkTensor [2] [70; 90]%Z, example_item_emb) /\
  get_id_and_embedding "item" "item_id" example_batch example_features =
    Ok (example_item_ids, example_item_emb) /\
  get_id_and_embedding "user" "user_id" example_batch example_features =
    Raise (KeyError "user").
Proof.
  split; [|split].
  - apply (proj1 (proj2 (get_id_and_embedding_precedence "item" "item_id"
                           batch_with_ids example_features))); reflexivity.
  - exact (proj2 (proj2 (get_id_and_embedding_precedence "item" "item_id"
                           example_batch example_features))
             example_item_emb eq_refl eq_refl).
  - apply (proj1 (get_id_and_embedding_precedence "user" "user_id"
                    example_batch example_features)); reflexivity.
Defined.

Lemma sample_negatives_warnings_witness :
  fst (sample_negatives (example_head [empty_sampler; in_batch_sampler] None)
         (mkItems example_item_ids example_item_emb) example_features true false) =
  ["The sampler CachedCrossBatchSampler returned no samples for this batch."%string].
Proof.
  destruct (sample_negatives_warnings
              (example_head [empty_sampler; in_batch_sampler] None)
              (mkItems example_item_ids example_item_emb) example_features true false)
    as [Hlog _].
  - repeat constructor; discriminate.
  - exact Hlog.
Defined.

Lemma sample_negatives_needs_samplers_witness :
  sample_negatives (example_head [] None)
    (mkItems example_item_ids example_item_emb) example_features true false =
    ([], Raise (AttributeError "samplers")) /\
  has_negative_samplers (example_head [in_batch_sampler] None) = true.
Proof.
  split.
  - apply (proj1 (sample_negatives_needs_samplers (example_head [] None)
                    (mkItems example_item_ids example_item_emb) example_features true false)).
    reflexivity.
  - apply (proj2 (sample_negatives_needs_samplers (example_head [in_batch_sampler] None)
                    (mkItems example_item_ids example_item_emb) example_features true false)
             (mkItems example_item_ids example_item_emb)).
    reflexivity.
Defined.

Lemma ContrastiveDotProduct_call_without_negatives_witness :
  ContrastiveDotProduct_call (example_head [empty_sampler] None)
    example_batch example_features true false = Raise (AttributeError "samplers").
Proof.
  apply (ContrastiveDotProduct_call_without_negatives (example_head [empty_sampler] None)
           example_batch example_features true false
           example_user_ids example_item_ids example_query_emb example_item_emb);
    try reflexivity.
  repeat constructor. exists []. reflexivity.
Defined.

Lemma add_sampler_used_by_sampling_witness :
  negative_samplers (prediction_with_negatives (add_sampler in_batch_sampler cold_head)) =
    [empty_sampler] ++ [in_batch_sampler] /\
  snd (sample_negatives (prediction_with_negatives (add_sampler in_batch_sampler cold_head))
         (mkItems example_item_ids example_item_emb) example_features true false) =
    Ok (mkItems example_item_ids example_item_emb).
Proof.
  apply (add_sampler_used_by_sampling cold_head in_batch_sampler
           (mkItems example_item_ids example_item_emb) example_features true false).
  - repeat constructor. exists []. reflexivity.
  - reflexivity.
Defined.

Lemma check_input_shapes_equal_spec_witness :
  _check_input_shapes_equal (R := Z) [("a"%string, mkTensor [2] [10; 20]%Z)] = Ok tt.
Proof.
  apply (proj2 (proj1 (check_input_shapes_equal_spec (R := Z)
                         [("a"%string, mkTensor [2] [10; 20]%Z)]))).
  split; [discriminate|].
  intros t1 t2 [<-|[]] [<-|[]]. reflexivity.
Defined.

Lemma ConcatFeatures_call_shape_witness :
  exists out,
    ConcatFeatures_call ConcatFeatures_init example_mapping = (Ok out, example_mapping) /\
    shape out = [2; 3] /\
    wf out.
Proof.
  apply (ConcatFeatures_call_shape ConcatFeatures_init example_mapping example_mapping [2]).
  - reflexivity.
  - reflexivity.
  - discriminate.
  - repeat constructor; try reflexivity.
    + now exists 1.
    + now exists 2.
Defined.

Example ConcatFeatures_call_example :
  ConcatFeatures_call ConcatFeatures_init example_mapping =
  (Ok (mkTensor [2; 3] [10; 20; 1; 30; 40; 2]%Z), example_mapping).
Proof. reflexivity. Qed.

Lemma aggregation_of_nothing_witness :
  (exists e, ConcatFeatures_call (R := Z) ConcatFeatures_init [] = (Raise e, [])) /\
  StackFeatures_call (R := Z) (StackFeatures_init (Some 0%Z)) [] =
    (Ok (mkTensor [0] []), []) /\
  (exists e,
      AddLeft_call {| left_name := "bias"; concat_ := ConcatFeatures_init;
                      wide_logit := fun t : tensor Z => t |}
        [("bias"%string, mkTensor [2; 1] [1; 2]%Z)] = (Raise e, [])).
Proof.
  destruct (aggregation_of_nothing (H := Z_Scalar) (H0 := Z_External))
    as (Hconcat & Hstack & Hleft).
  split; [|split].
  - apply Hconcat. reflexivity.
  - apply Hstack; reflexivity.
  - apply (Hleft {| left_name := "bias"; concat_ := ConcatFeatures_init;
                    wide_logit := fun t : tensor Z => t |}).
    reflexivity.
Defined.

Lemma Sum_call_succeeds_iff_witness :
  (exists t, fst (Sum_call residual_mapping) = Ok t) /\
  fst (Sum_call example_mapping) = Raise (InvalidArgumentError "Pack").
Proof.
  split.
  - destruct (Sum_call_succeeds_iff (R := Z) residual_mapping) as (_ & Hiff & _).
    apply Hiff. intros t1 t2 H1 H2. simpl in H1, H2.
    destruct H1 as [<-|[<-|[<-|[]]]]; destruct H2 as [<-|[<-|[<-|[]]]]; reflexivity.
  - destruct (Sum_call_succeeds_iff (R := Z) example_mapping) as (_ & _ & _ & Hmixed).
    apply Hmixed. intros Hall.
    specialize (Hall (mkTensor [2; 1] [1; 2]%Z) (mkTensor [2; 2] [10; 20; 30; 40]%Z)
                  (or_introl eq_refl) (or_intror (or_introl eq_refl))).
    discriminate.
Defined.

Example Sum_call_mixed_shapes_example :
  Sum_call example_mapping = (Raise (InvalidArgumentError "Pack"), example_mapping).
Proof. reflexivity. Qed.

Lemma SumResidual_call_result_witness :
  SumResidual_call residual residual_mapping =
  (Ok (AsDict [("a"%string, mkTensor [2] [11; 22]%Z);
               ("b"%string, mkTensor [2] [101; 202]%Z)]),
   [("a"%string, mkTensor [2] [10; 20]%Z); ("b"%string, mkTensor [2] [100; 200]%Z)]).
Proof.
  assert (Hkeys : NoDup (keys residual_mapping))
    by (repeat constructor; simpl; intuition discriminate).
  assert (Hall : Forall (fun t : tensor Z => wf t /\ shape t = [2])
                   (values (dict_remove residual_mapping (shortcut_name residual))))
    by (repeat constructor).
  exact (SumResidual_call_result residual residual_mapping (mkTensor [2] [1; 2]%Z) [2]
           eq_refl Hkeys eq_refl eq_refl Hall).
Defined.

Lemma SumResidual_call_shape_mismatch_witness :
  SumResidual_call residual
    [("shortcut"%string, mkTensor [2] [1; 2]%Z); ("a"%string, mkTensor [3] [1; 2; 3]%Z)] =
  (Raise (InvalidArgumentError "Pack"), [("a"%string, mkTensor [3] [1; 2; 3]%Z)]).
Proof.
  apply (SumResidual_call_shape_mismatch residual
           [("shortcut"%string, mkTensor [2] [1; 2]%Z); ("a"%string, mkTensor [3] [1; 2; 3]%Z)]
           (mkTensor [2] [1; 2]%Z)).
  - reflexivity.
  - exists (mkTensor [3] [1; 2; 3]%Z). split; [now left|discriminate].
Defined.

Lemma ElementwiseSumItemMulti_call_few_features_witness :
  ElementwiseSumItemMulti_call item_multi [("item_id"%string, mkTensor [2] [2; 3]%Z)] =
    (Raise IndexError, [("item_id"%string, mkTensor [2] [2; 3]%Z)]) /\
  ElementwiseSumItemMulti_call item_multi
    [("item_id"%string, mkTensor [2] [2; 3]%Z); ("price"%string, mkTensor [2] [5; 7]%Z)] =
    (Ok (mkTensor [2] [10; 21]%Z),
     [("item_id"%string, mkTensor [2] [2; 3]%Z); ("price"%string, mkTensor [2] [5; 7]%Z)]).
Proof.
  split.
  - destruct (ElementwiseSumItemMulti_call_few_features item_multi
                [("item_id"%string, mkTensor [2] [2; 3]%Z)]
                [("item_id"%string, mkTensor [2] [2; 3]%Z)]
                (mkTensor [2] [2; 3]%Z)) as [Hnone _]; [reflexivity|reflexivity|reflexivity|].
    apply Hnone. reflexivity.
  - destruct (ElementwiseSumItemMulti_call_few_features item_multi
                [("item_id"%string, mkTensor [2] [2; 3]%Z);
                 ("price"%string, mkTensor [2] [5; 7]%Z)]
                [("item_id"%string, mkTensor [2] [2; 3]%Z);
                 ("price"%string, mkTensor [2] [5; 7]%Z)]
                (mkTensor [2] [2; 3]%Z)) as [_ Hone]; [reflexivity|reflexivity|reflexivity|].
    exact (Hone "price"%string (mkTensor [2] [5; 7]%Z) eq_refl).
Defined.

Lemma DotProductCategoricalPrediction_default_keeps_scores_witness :
  exists prediction,
    ContrastiveDotProduct_call
      (prediction_with_negatives
         (DotProductCategoricalPrediction_init (V := unit) [in_batch_sampler] None None None
            "item_id" "user_id" None None))
      example_batch example_features true false = Ok prediction /\
    rows (outputs prediction) = [[17; 17; 23]; [53; 39; 53]]%Z.
Proof.
  destruct (DotProductCategoricalPrediction_default_keeps_scores (V := unit)
              [in_batch_sampler] None None "item_id" "user_id"
              example_batch example_features true false
              example_user_ids example_item_ids example_query_emb example_item_emb
              (mkItems example_item_ids example_item_emb) 2 2 2
              eq_refl eq_refl eq_refl eq_refl eq_refl eq_refl) as [Hcall _].
  exact Hcall.
Defined.

Lemma compile_turns_rescoring_off_witness :
  exists prediction,
    ContrastiveDotProduct_call
      (prediction_with_negatives
         (DotProductCategoricalPrediction_compile None None
            (DotProductCategoricalPrediction_init (V := unit) [in_batch_sampler] (Some true)
               None None "item_id" "user_id" None None)))
      example_batch example_features true false = Ok prediction /\
    rows (outputs prediction) = [[17; 17; 23]; [53; 39; 53]]%Z.
Proof.
  exact (compile_turns_rescoring_off (V := unit)
           (DotProductCategoricalPrediction_init [in_batch_sampler] (Some true)
              None None "item_id" "user_id" None None)
           None example_batch example_features true false
           example_user_ids example_item_ids example_query_emb example_item_emb
           (mkItems example_item_ids example_item_emb) 2 2 2
           eq_refl eq_refl eq_refl eq_refl eq_refl eq_refl).
Defined.

(** Before [compile] the same head, built with rescoring on, replaces the
    score of each item against its own row. *)
Example rescoring_before_compile :
  ContrastiveDotProduct_call
    (prediction_with_negatives
       (DotProductCategoricalPrediction_init (V := unit) [in_batch_sampler] (Some true)
          None None "item_id" "user_id" None None))
    example_batch example_features true false =
  Ok {| outputs := mkTensor [2; 3] [17; MIN_FLOAT; 23; 53; 39; MIN_FLOAT]%Z;
        targets := mkTensor [2; 3] [1; 0; 0; 1; 0; 0]%Z |}.
Proof. reflexivity. Qed.

(** C10, as stated, fails on float64 tensors: the same three tensors in
    another order sum to another value, 1e16 + 1 being rounded to 1e16. *)
Lemma Sum_call_float64_order :
  Permutation (values FloatModel.large_first) (values FloatModel.small_first) /\
  Forall wf (values FloatModel.large_first) /\
  fst (Sum_call (H := FloatModel.float64_Scalar) FloatModel.large_first) =
    Ok (mkTensor [1] [PrimFloat.one]) /\
  fst (Sum_call (H := FloatModel.float64_Scalar) FloatModel.small_first) =
    Ok (mkTensor [1] [PrimFloat.zero]) /\
  fst (Sum_call (H := FloatModel.float64_Scalar) FloatModel.large_first) <>
  fst (Sum_call (H := FloatModel.float64_Scalar) FloatModel.small_first).
Proof.
  split; [|split; [|split; [|split]]].
  - simpl. eapply perm_trans; [apply perm_skip, perm_swap|apply perm_swap].
  - repeat constructor.
  - vm_compute. reflexivity.
  - vm_compute. reflexivity.
  - intros E.
    apply (f_equal (fun r => match r with
                             | Ok t => match flat t with
                                       | x :: _ => PrimFloat.eqb x PrimFloat.zero
                                       | [] => false
                                       end
                             | Raise _ => false
                             end)) in E.
    vm_compute in E. discriminate.
Qed.
